(** * Report cards: period registry, grade averaging and letter grades

    A shallow embedding of the grade logic of the report-card application:
    - [src/unnamed/part_000]  the report view (module [Report]);
    - [src/script.js]         the student view (module [Student]);
    - [src/admin.js]          the admin form; the file holds two listings of
                              the script, embedded as [Admin] (lines 1-564)
                              and [AdminRev] (lines 565-1228).

    JavaScript numbers are embedded as exact rationals extended with NaN and
    the two infinities.  Every finite double is a rational, so comparisons
    are exact; the rounding of IEEE arithmetic, overflow and the sign of
    zero are outside the model. *)

From Stdlib Require Import Bool Ascii String List ZArith QArith Qreduction Qcanon Lia Lqa.
From Stdlib Require Import Permutation Sorted DecimalString DecimalNat DecimalFacts.
From stdpp Require Import gmap strings.
Import ListNotations.

Local Open Scope string_scope.
Local Open Scope list_scope.

(** ** JavaScript values *)

Module JS.

Inductive Num : Type :=
| NaN
| NegInf
| PosInf
| Fin (q : Q).

(** Values that can sit in a field of a grade object or in a form input. *)
Inductive Val : Type :=
| VUndef
| VNull
| VNum (n : Num)
| VStr (s : string).

Definition ofZ (z : Z) : Num := Fin (inject_Z z).
Definition ofNat (n : nat) : Num := ofZ (Z.of_nat n).

(** ToBoolean on a number: 0 and NaN are falsy. *)
Definition truthy (n : Num) : bool :=
  match n with
  | NaN => false
  | Fin q => negb (Qeq_bool q 0)
  | _ => true
  end.

(** [a || b] on numbers. *)
Definition or_else (a b : Num) : Num := if truthy a then a else b.

Definition isNaN (n : Num) : bool :=
  match n with NaN => true | _ => false end.

(** [a + b] on numbers.  The sum is the exact one: a sum of doubles that
    overflows to an infinity, or is rounded, is outside the model, so a
    property that depends on the size of the numbers is stated for scores
    between 0 and 100 and for integers that a double holds exactly. *)
Definition add (a b : Num) : Num :=
  match a, b with
  | NaN, _ | _, NaN => NaN
  | PosInf, NegInf | NegInf, PosInf => NaN
  | PosInf, _ | _, PosInf => PosInf
  | NegInf, _ | _, NegInf => NegInf
  | Fin x, Fin y => Fin (Qred (x + y))
  end.

Definition neg (a : Num) : Num :=
  match a with
  | NaN => NaN
  | PosInf => NegInf
  | NegInf => PosInf
  | Fin x => Fin (Qred (- x))
  end.

Definition sub (a b : Num) : Num := add a (neg b).

Definition sign_inf (nonneg : bool) : Num := if nonneg then PosInf else NegInf.

Definition div (a b : Num) : Num :=
  match a, b with
  | NaN, _ | _, NaN => NaN
  | Fin x, Fin y =>
      if Qeq_bool y 0
      then (if Qeq_bool x 0 then NaN else sign_inf (Qle_bool 0 x))
      else Fin (Qred (x / y))
  | Fin _, _ => Fin 0
  | PosInf, Fin y => sign_inf (Qle_bool 0 y)
  | NegInf, Fin y => sign_inf (negb (Qle_bool 0 y))
  | _, _ => NaN
  end.

(** [a >= b] and [a < b]; any comparison with NaN is false. *)
Definition ge (a b : Num) : bool :=
  match a, b with
  | NaN, _ | _, NaN => false
  | PosInf, _ => true
  | _, NegInf => true
  | NegInf, _ => false
  | _, PosInf => false
  | Fin x, Fin y => Qle_bool y x
  end.

Definition lt (a b : Num) : bool :=
  match a, b with
  | NaN, _ | _, NaN => false
  | PosInf, _ => false
  | _, NegInf => false
  | NegInf, _ => true
  | _, PosInf => true
  | Fin x, Fin y => negb (Qle_bool y x)
  end.

(** [xs.reduce((a, b) => a + b, 0)] *)
Definition sum (xs : list Num) : Num := fold_left add xs (Fin 0).

(** *** Characters *)

Definition is_digit (c : ascii) : bool :=
  let n := nat_of_ascii c in (48 <=? n)%nat && (n <=? 57)%nat.

Definition digit_val (c : ascii) : Z := Z.of_nat (nat_of_ascii c) - 48.

(** The ASCII part of StrWhiteSpaceChar: TAB, LF, VT, FF, CR, SP. *)
Definition is_space (c : ascii) : bool :=
  let n := nat_of_ascii c in
  ((9 <=? n)%nat && (n <=? 13)%nat) || (n =? 32)%nat.

Fixpoint skip_spaces (s : string) : string :=
  match s with
  | String c r => if is_space c then skip_spaces r else s
  | EmptyString => s
  end.

(** Longest prefix of decimal digits, and what follows it. *)
Fixpoint span_digits (s : string) : list ascii * string :=
  match s with
  | String c r =>
      if is_digit c
      then let '(ds, rest) := span_digits r in (c :: ds, rest)
      else ([], s)
  | EmptyString => ([], s)
  end.

Definition digits_value (ds : list ascii) : Z :=
  fold_left (fun acc c => 10 * acc + digit_val c)%Z ds 0%Z.

(** A leading sign: [true] for "-". *)
Definition read_sign (s : string) : bool * string :=
  match s with
  | String "-" r => (true, r)
  | String "+" r => (false, r)
  | _ => (false, s)
  end.

Definition pow10 (e : Z) : Q :=
  match e with
  | Z0 => 1
  | Zpos p => inject_Z (10 ^ Zpos p)
  | Zneg p => / inject_Z (10 ^ Zpos p)
  end.

(** The exponent part [e[+-]digits]; it only counts when digits follow. *)
Definition read_exponent (s : string) : Z :=
  match s with
  | String c r =>
      if (Ascii.eqb c "e" || Ascii.eqb c "E")%bool
      then let '(sg, r') := read_sign r in
           let '(ds, _) := span_digits r' in
           match ds with
           | [] => 0%Z
           | _ => if sg then (- digits_value ds)%Z else digits_value ds
           end
      else 0%Z
  | EmptyString => 0%Z
  end.

(** [parseFloat] on a string: leading white space is dropped and the
    longest prefix that is a StrDecimalLiteral is read; NaN if there is
    none. *)
Definition parseFloatStr (s : string) : Num :=
  let '(sg, s1) := read_sign (skip_spaces s) in
  if String.prefix "Infinity" s1 then (if sg then NegInf else PosInf)
  else
    let '(ip, r1) := span_digits s1 in
    let '(fp, r2) :=
      match r1 with
      | String "." r => span_digits r
      | _ => ([], r1)
      end in
    match ip ++ fp with
    | [] => NaN
    | ds =>
        let m := inject_Z (digits_value ds) in
        let e := (read_exponent r2 - Z.of_nat (List.length fp))%Z in
        let v := Qred (m * pow10 e) in
        Fin (if sg then Qred (- v) else v)
    end.

(** [parseFloat] on a value: the argument is first turned into a string.
    A number prints to a literal that reads back as the same number;
    "undefined" and "null" are not numeric literals. *)
Definition parseFloat (v : Val) : Num :=
  match v with
  | VUndef | VNull => NaN
  | VNum n => n
  | VStr s => parseFloatStr s
  end.

Definition is_hex_digit (c : ascii) : bool :=
  let n := nat_of_ascii c in
  is_digit c || ((65 <=? n)%nat && (n <=? 70)%nat)
             || ((97 <=? n)%nat && (n <=? 102)%nat).

Definition hex_val (c : ascii) : Z :=
  let n := nat_of_ascii c in
  if is_digit c then digit_val c
  else if (n <=? 70)%nat then Z.of_nat n - 55 else Z.of_nat n - 87.

Fixpoint span_hex (s : string) : list ascii * string :=
  match s with
  | String c r =>
      if is_hex_digit c
      then let '(ds, rest) := span_hex r in (c :: ds, rest)
      else ([], s)
  | EmptyString => ([], s)
  end.

Definition hex_value (ds : list ascii) : Z :=
  fold_left (fun acc c => 16 * acc + hex_val c)%Z ds 0%Z.

(** [parseInt(s)] without a radix: white space, sign, an optional [0x]
    prefix, then the longest run of digits; NaN if there is none. *)
Definition parseInt (s : string) : Num :=
  let '(sg, s1) := read_sign (skip_spaces s) in
  let signed (z : Z) := ofZ (if sg then - z else z)%Z in
  if (String.prefix "0x" s1 || String.prefix "0X" s1)%bool
  then match span_hex (String.substring 2 (String.length s1 - 2) s1) with
       | ([], _) => NaN
       | (ds, _) => signed (hex_value ds)
       end
  else match span_digits s1 with
       | ([], _) => NaN
       | (ds, _) => signed (digits_value ds)
       end.

(** [s.replace(/\D/g, '')] *)
Fixpoint strip_non_digits (s : string) : string :=
  match s with
  | String c r =>
      if is_digit c then String c (strip_non_digits r) else strip_non_digits r
  | EmptyString => EmptyString
  end.

(** [s.startsWith(p)] *)
Definition startsWith (s p : string) : bool := String.prefix p s.

(** [s.substring(n)] *)
Definition substringFrom (n : nat) (s : string) : string :=
  String.substring n (String.length s - n) s.

(** The text a template literal gives an integer number (of magnitude
    below 10^21, where the decimal expansion is printed in full) or NaN. *)
Definition showInt (n : Num) : string :=
  match n with
  | NaN => "NaN"
  | PosInf => "Infinity"
  | NegInf => "-Infinity"
  | Fin q => NilZero.string_of_int (Z.to_int (Qnum q / Zpos (Qden q)))
  end.

(** [arr.sort(cmp)]: elements are ordered by the sign of [cmp a b]; a NaN
    result counts as 0.  The sort is stable, so for a consistent
    comparator the result is the one every engine produces; it is written
    here as a stable insertion sort.  For a comparator that is not
    consistent (the callback of the report view returns NaN for an id
    without a digit) the order an engine leaves depends on its algorithm
    and need not be the one computed here: what is proved about the order
    of a sorted array is proved for arrays on which the callback is
    consistent. *)
Section Sort.
Context {A : Type} (cmp : A -> A -> Num).

Definition after (x y : A) : bool := lt (Fin 0) (cmp x y).

Fixpoint insert (x : A) (l : list A) : list A :=
  match l with
  | [] => [x]
  | y :: l' => if after x y then y :: insert x l' else x :: l
  end.

Fixpoint sort (l : list A) : list A :=
  match l with
  | [] => []
  | x :: l' => insert x (sort l')
  end.
End Sort.

End JS.

(** ** The data model shared by the three scripts *)

Inductive PeriodType : Type := period | exam | semester.

Definition PeriodType_eqb (a b : PeriodType) : bool :=
  match a, b with
  | period, period | exam, exam | semester, semester => true
  | _, _ => false
  end.

Definition typeName (t : PeriodType) : string :=
  match t with
  | period => "period"
  | exam => "exam"
  | semester => "semester"
  end.

(** [{ id, name, type }] *)
Record Period : Type := mkPeriod { id : string; name : string; type : PeriodType }.

Definition isExam (p : Period) : bool := PeriodType_eqb (type p) exam.

(** A grade object: [subject], an optional [comment], and one field per
    period id.  The fields are kept in the order [for (key in obj)] visits
    them (insertion order, for keys that are not array indices). *)
Definition Obj : Type := list (string * JS.Val).

Fixpoint get (o : Obj) (k : string) : JS.Val :=
  match o with
  | [] => JS.VUndef
  | (k', v) :: o' => if String.eqb k' k then v else get o' k
  end.

Definition keys (o : Obj) : list string := map fst o.

(** Arrays of periods live in a heap, so that a callee can change the
    array its caller holds. *)
Definition loc : Type := positive.
Abbreviation heap := (gmap loc (list Period)).

(** Ordinal suffix of an integer; [guard] is the [if (!i) return ""] line
    that only the report view has. *)
Definition ordinalSuffix (guard : bool) (i : JS.Num) : string :=
  if guard && negb (JS.truthy i) then ""
  else match i with
       | JS.Fin q =>
           let z := (Qnum q / Zpos (Qden q))%Z in
           let j := Z.rem z 10 in
           let k := Z.rem z 100 in
           if (j =? 1)%Z && negb (k =? 11)%Z then "st"
           else if (j =? 2)%Z && negb (k =? 12)%Z then "nd"
           else if (j =? 3)%Z && negb (k =? 13)%Z then "rd"
           else "th"
       | _ => "th"
       end.

(** How a cell is printed: a letter, a number to some decimals, the raw
    value, or a dash. *)
Inductive Cell : Type :=
| Letter (g : string)
| Fixed (digits : nat) (n : JS.Num)
| Raw (n : JS.Num)
| Dash.

(** Reading a field of an object of numbers; a missing key gives
    [undefined], which arithmetic turns into NaN. *)
Definition field (m : gmap string JS.Num) (key : string) : JS.Num :=
  default JS.NaN (m !! key).

(** ** The report view: src/unnamed/part_000 *)

Module Report.

Definition getOrdinalSuffix (i : JS.Num) : string := ordinalSuffix true i.

(** The sort callback of [groupPeriodsIntoSemesters]. *)
Definition comparePeriods (a b : Period) : JS.Num :=
  let aNum := JS.parseInt (JS.strip_non_digits (id a)) in
  let bNum := JS.parseInt (JS.strip_non_digits (id b)) in
  if negb (PeriodType_eqb (type a) (type b))
  then (if PeriodType_eqb (type a) exam then JS.Fin 1 else JS.Fin (-1))
  else JS.sub aNum bNum.

Definition sortPeriods (l : list Period) : list Period :=
  JS.sort comparePeriods l.

(** The [for (const period of activePeriods)] loop. *)
Fixpoint groupLoop (ps : list Period) (semesters : list (list Period))
    (currentSemester : list Period) : list (list Period) * list Period :=
  match ps with
  | [] => (semesters, currentSemester)
  | p :: rest =>
      let currentSemester := currentSemester ++ [p] in
      if PeriodType_eqb (type p) exam
      then groupLoop rest (semesters ++ [currentSemester]) []
      else groupLoop rest semesters currentSemester
  end.

(** What the function returns, given the array as it is after the sort. *)
Definition groupsOf (sorted : list Period) : list (list Period) :=
  let '(semesters, currentSemester) := groupLoop sorted [] [] in
  let semesters :=
    if (0 <? List.length currentSemester)%nat || (List.length sorted =? 0)%nat
    then semesters ++ [currentSemester]
    else semesters in
  if (0 <? List.length semesters)%nat then semesters else [sorted].

(** [groupPeriodsIntoSemesters(activePeriods)]: the argument is a
    reference; [sort] rewrites the array it points to. *)
Definition groupPeriodsIntoSemesters (activePeriods : loc) (h : heap)
    : option (list (list Period) * heap) :=
  match h !! activePeriods with
  | None => None
  | Some l =>
      let sorted := sortPeriods l in
      Some (groupsOf sorted, <[activePeriods := sorted]> h)
  end.

Definition getLetterGrade (score : JS.Num) : string :=
  if JS.ge score (JS.ofZ 90) then "A"
  else if JS.ge score (JS.ofZ 80) then "B"
  else if JS.ge score (JS.ofZ 70) then "C"
  else if JS.ge score (JS.ofZ 60) then "D"
  else "F".

(** [formatGrade]; [checked] is the state of the number/letter toggle. *)
Definition formatGrade (checked : bool) (score : JS.Num) : Cell :=
  if checked then Fixed 2 score else Letter (getLetterGrade score).

(** [parseFloat(obj[p.id]) || 0] *)
Definition scoreOrZero (g : Obj) (p : Period) : JS.Num :=
  JS.or_else (JS.parseFloat (get g (id p))) (JS.Fin 0).

(** [xs.length > 0 ? xs.reduce((a, b) => a + b, 0) / xs.length : 0] *)
Definition meanOrZero (xs : list JS.Num) : JS.Num :=
  if (0 <? List.length xs)%nat
  then JS.div (JS.sum xs) (JS.ofNat (List.length xs))
  else JS.Fin 0.

(** [buildTableBody], one subject: the semester averages and the final
    average of the row. *)
Definition semesterAvg (subjectGrade : Obj) (semesterPeriods : list Period) : JS.Num :=
  meanOrZero (map (scoreOrZero subjectGrade) semesterPeriods).

Definition semesterAverages (subjectGrade : Obj) (semesters : list (list Period))
    : list JS.Num :=
  map (semesterAvg subjectGrade) semesters.

Definition finalAvg (subjectGrade : Obj) (semesters : list (list Period)) : JS.Num :=
  meanOrZero (semesterAverages subjectGrade semesters).

(** [buildTableFooter]: the average of one period over all subjects, of
    one semester, and the final one. *)
Definition periodTotal (grades : list Obj) (p : Period) : JS.Num :=
  fold_left (fun sum current => JS.add sum (scoreOrZero current p)) grades (JS.Fin 0).

Definition periodAvg (grades : list Obj) (p : Period) : JS.Num :=
  if (0 <? List.length grades)%nat
  then JS.div (periodTotal grades p) (JS.ofNat (List.length grades))
  else JS.Fin 0.

Definition overallSemesterAvg (grades : list Obj) (semesterPeriods : list Period)
    : JS.Num :=
  meanOrZero (map (periodAvg grades) semesterPeriods).

Definition finalOverallAvg (grades : list Obj) (semesters : list (list Period))
    : JS.Num :=
  meanOrZero (map (overallSemesterAvg grades) semesters).

(** [displayReportCard], step 1: the periods read off the first subject. *)
Definition periodOfKey (key : string) : Period :=
  let isExam := JS.startsWith key "exam" in
  let num := JS.parseInt (JS.strip_non_digits key) in
  let shown := if JS.truthy num then JS.showInt num else "" in
  let name :=
    (if isExam then "Exam " ++ shown
     else shown ++ getOrdinalSuffix (if JS.truthy num then num else JS.NaN)
          ++ " Period")%string in
  mkPeriod key name (if isExam then exam else period).

Definition isPeriodKey (key : string) : bool :=
  negb (String.eqb key "subject") && negb (String.eqb key "comment")
  && negb (String.eqb key "_id").

Definition activePeriodsOf (firstSubject : Obj) : list Period :=
  map periodOfKey (List.filter isPeriodKey (keys firstSubject)).

End Report.

(** ** The student view: src/script.js *)

Module Student.

Definition getLetterGrade (score : JS.Num) : string :=
  if JS.ge score (JS.ofZ 90) then "A"
  else if JS.ge score (JS.ofZ 80) then "B"
  else if JS.ge score (JS.ofZ 70) then "C"
  else if JS.ge score (JS.ofZ 60) then "D"
  else "F".

(** [calculateAvg(...values)].  Every caller passes results of
    [parseFloat], so the values are numbers and the filter keeps exactly
    those that are not NaN; [None] is [null]. *)
Definition calculateAvg (values : list JS.Num) : option JS.Num :=
  let validValues := List.filter (fun v => negb (JS.isNaN v)) values in
  if (List.length validValues =? 0)%nat then None
  else Some (JS.div (JS.sum validValues) (JS.ofNat (List.length validValues))).

(** The numbers [renderGradeTable] derives for one subject: the eight
    parsed scores and the three averages.  The row of the table also
    prints [grade.subject], [grade.comment] and the score fields as they
    are stored; these cells are in [StudentRow.renderRow]. *)
Record Row : Type := mkRow {
  p1 : JS.Num; p2 : JS.Num; p3 : JS.Num; exam1 : JS.Num;
  p4 : JS.Num; p5 : JS.Num; p6 : JS.Num; exam2 : JS.Num;
  avg1 : option JS.Num; avg2 : option JS.Num; yearly : option JS.Num
}.

Definition yearlyOf (avg1 avg2 : option JS.Num) : option JS.Num :=
  match avg1, avg2 with
  | Some a1, Some a2 => Some (JS.div (JS.add a1 a2) (JS.ofZ 2))
  | Some a1, None => Some a1
  | None, Some a2 => Some a2
  | None, None => None
  end.

Definition rowOf (grade : Obj) : Row :=
  let f k := JS.parseFloat (get grade k) in
  let avg1 := calculateAvg [f "p1"; f "p2"; f "p3"; f "exam1"] in
  let avg2 := calculateAvg [f "p4"; f "p5"; f "p6"; f "exam2"] in
  mkRow (f "p1") (f "p2") (f "p3") (f "exam1")
        (f "p4") (f "p5") (f "p6") (f "exam2")
        avg1 avg2 (yearlyOf avg1 avg2).

(** The average cells of a row: [avg !== null ? avg.toFixed(1) : '-']. *)
Definition avgCell (avg : option JS.Num) : Cell :=
  match avg with
  | Some a => Fixed 1 a
  | None => Dash
  end.

Definition letterCell (yearly : option JS.Num) : Cell :=
  match yearly with
  | Some y => Letter (getLetterGrade y)
  | None => Dash
  end.

(** [colTotals] and [colCounts]: objects keyed by column name. *)
Record Cols : Type := mkCols {
  colTotals : gmap string JS.Num;
  colCounts : gmap string JS.Num
}.

Definition columnKeys : list string :=
  ["p1"; "p2"; "p3"; "exam1"; "sem1"; "p4"; "p5"; "p6"; "exam2"; "sem2"; "yearly"].

Definition zeroes : gmap string JS.Num :=
  list_to_map (map (fun k => (k, JS.Fin 0)) columnKeys).

Definition initCols : Cols := mkCols zeroes zeroes.

(** [addToTotal(key, val)]; [val] is a number or [null]. *)
Definition addToTotal (key : string) (val : option JS.Num) (c : Cols) : Cols :=
  match val with
  | Some v =>
      if negb (JS.isNaN v)
      then mkCols (<[key := JS.add (field (colTotals c) key) v]> (colTotals c))
                  (<[key := JS.add (field (colCounts c) key) (JS.Fin 1)]> (colCounts c))
      else c
  | None => c
  end.

Definition accumulate (c : Cols) (r : Row) : Cols :=
  let c := addToTotal "p1" (Some (p1 r)) c in
  let c := addToTotal "p2" (Some (p2 r)) c in
  let c := addToTotal "p3" (Some (p3 r)) c in
  let c := addToTotal "exam1" (Some (exam1 r)) c in
  let c := addToTotal "sem1" (avg1 r) c in
  let c := addToTotal "p4" (Some (p4 r)) c in
  let c := addToTotal "p5" (Some (p5 r)) c in
  let c := addToTotal "p6" (Some (p6 r)) c in
  let c := addToTotal "exam2" (Some (exam2 r)) c in
  let c := addToTotal "sem2" (avg2 r) c in
  addToTotal "yearly" (yearly r) c.

(** The column state after the [grades.forEach] loop. *)
Definition columnsOf (grades : list Obj) : Cols :=
  fold_left accumulate (map rowOf grades) initCols.

(** [setFooter(id, key)]: the text of the footer cell. *)
Definition setFooter (c : Cols) (key : string) : Cell :=
  if JS.lt (JS.Fin 0) (field (colCounts c) key)
  then Fixed 1 (JS.div (field (colTotals c) key) (field (colCounts c) key))
  else Dash.

(** The footer cell of a column after [renderGradeTable(grades)]; the
    function returns before touching the footer when there are no grades. *)
Definition footerCell (grades : list Obj) (key : string) : option Cell :=
  if (List.length grades =? 0)%nat then None
  else Some (setFooter (columnsOf grades) key).

End Student.

(** ** The admin form: src/admin.js *)

(** [s.trim()], for ASCII white space. *)
Fixpoint trimEnd (s : string) : string :=
  match s with
  | EmptyString => EmptyString
  | String c r =>
      match trimEnd r with
      | EmptyString => if JS.is_space c then EmptyString else String c EmptyString
      | r' => String c r'
      end
  end.

Definition trim (s : string) : string := trimEnd (JS.skip_spaces s).

(** [obj[k] = v]: an existing field keeps its place. *)
Fixpoint set (o : Obj) (k : string) (v : JS.Val) : Obj :=
  match o with
  | [] => [(k, v)]
  | (k', v') :: o' => if String.eqb k' k then (k', v) :: o' else (k', v') :: set o' k v
  end.

Definition showNat (n : nat) : string := NilZero.string_of_uint (Nat.to_uint n).
Definition showZ (z : Z) : string := NilZero.string_of_int (Z.to_int z).

(** The page as the scripts read it: one entry per [.subject-name-group]
    holding the value of its name input (if the input is there), and the
    value of the score input [sub<i>-<period id>] when that element exists. *)
Record Form : Type := mkForm {
  subjectNames : list (option string);
  scoreInput : nat -> string -> option string
}.

(** [parseFloat(input?.value)] for an input that may be missing. *)
Definition parseInput (input : option string) : JS.Num :=
  match input with
  | Some value => JS.parseFloatStr value
  | None => JS.NaN
  end.

(** First listing, lines 1-564.  The second listing repeats these
    functions; where it differs (the keys [setActivePeriodsFromGrades]
    skips, the placeholder default) the difference is a parameter here. *)
Module Admin.

Definition getDefaultPeriods : list Period :=
  [ mkPeriod "p1" "1st Period" period; mkPeriod "p2" "2nd Period" period;
    mkPeriod "p3" "3rd Period" period; mkPeriod "exam1" "1st Semester" exam;
    mkPeriod "sem1" "1st Sem Avg" semester; mkPeriod "p4" "4th Period" period;
    mkPeriod "p5" "5th Period" period; mkPeriod "p6" "6th Period" period;
    mkPeriod "exam2" "2nd Semester" exam; mkPeriod "sem2" "2nd Sem Avg" semester ].

Definition getOrdinalSuffix (i : JS.Num) : string := ordinalSuffix false i.

(** The body of the [for (const key in firstSubjectGrades)] loop. *)
Definition periodOfKey (key : string) : Period :=
  let kind :=
    if JS.startsWith key "exam" then exam
    else if JS.startsWith key "sem" then semester else period in
  let name :=
    if JS.startsWith key "p" then
      let num := JS.parseInt (JS.substringFrom 1 key) in
      (JS.showInt num ++ getOrdinalSuffix num ++ " Period")%string
    else if String.eqb key "exam1" then "1st Semester"
    else if String.eqb key "sem1" then "1st Sem Avg"
    else if String.eqb key "exam2" then "2nd Semester"
    else if String.eqb key "sem2" then "2nd Sem Avg"
    else if JS.startsWith key "exam" then
      ("Exam " ++ JS.showInt (JS.parseInt (JS.substringFrom 4 key)))%string
    else key in
  mkPeriod key name kind.

(** [setActivePeriodsFromGrades(gradesData)]: the new value of the global
    [activePeriods]; [isPeriodKey] is the test guarding the loop body. *)
Definition setActivePeriodsFromGradesWith (isPeriodKey : string -> bool)
    (gradesData : list Obj) : list Period :=
  let activePeriods :=
    match gradesData with
    | firstSubjectGrades :: _ =>
        map periodOfKey (List.filter isPeriodKey (keys firstSubjectGrades))
    | [] => []
    end in
  if (List.length activePeriods =? 0)%nat then getDefaultPeriods else activePeriods.

(** The registry and the warnings shown so far. *)
Record State : Type := mkState {
  activePeriods : list Period;
  alerts : list string
}.

(** [addPeriod(type, customName)]; [now] is what [Date.now()] returns.
    Lines 477-485: the next id of the kind and the default name. *)
Definition countOf (kind : PeriodType) (ps : list Period) : nat :=
  (List.length (List.filter (fun p => PeriodType_eqb (type p) kind) ps) + 1)%nat.

Definition sequentialId (kind : PeriodType) (ps : list Period) : string :=
  match kind with
  | period => ("p" ++ showNat (countOf period ps))%string
  | _ => ("exam" ++ showNat (countOf exam ps))%string
  end.

Definition defaultName (kind : PeriodType) (ps : list Period) : string :=
  match kind with
  | period =>
      let periodCount := countOf period ps in
      (showNat periodCount ++ getOrdinalSuffix (JS.ofNat periodCount) ++ " Period")%string
  | _ => ("Exam " ++ showNat (countOf exam ps))%string
  end.

(** Line 486: the id used when the sequential one is taken. *)
Definition timestampId (kind : PeriodType) (now : Z) : string :=
  (typeName kind ++ "_" ++ showZ now)%string.

Definition addPeriod (kind : PeriodType) (customName : string) (now : Z)
    (st : State) : State :=
  let ps := activePeriods st in
  let newId := sequentialId kind ps in
  let newName :=
    if negb (String.eqb customName "") then customName else defaultName kind ps in
  let newId :=
    if existsb (fun p => String.eqb (id p) newId) ps
    then timestampId kind now
    else newId in
  mkState (ps ++ [mkPeriod newId newName kind]) (alerts st).

(** [removePeriod(periodId)] *)
Definition removePeriod (periodId : string) (st : State) : State :=
  if (List.length (activePeriods st) <=? 1)%nat
  then mkState (activePeriods st) (alerts st ++ ["You must have at least one period."])
  else mkState (List.filter (fun p => negb (String.eqb (id p) periodId)) (activePeriods st))
               (alerts st).

(** What the two period buttons and the remove buttons do to the page. *)
Inductive Op : Type :=
| OpAdd (kind : PeriodType) (customName : string) (now : Z)
| OpRemove (periodId : string).

Definition step (st : State) (op : Op) : State :=
  match op with
  | OpAdd kind customName now => addPeriod kind customName now st
  | OpRemove periodId => removePeriod periodId st
  end.

Definition run (ops : list Op) (st : State) : State := fold_left step ops st.

(** The page once loaded (line 552). *)
Definition loaded : State := mkState getDefaultPeriods [].

(** [collectCurrentGrades()] with the placeholder default [dflt]. *)
Definition collectGrade (dflt : JS.Num) (f : Form) (ps : list Period)
    (subjectId : nat) (subjectName : string) : Obj :=
  fold_left
    (fun grade p =>
       set grade (id p)
           (JS.VNum (JS.or_else (parseInput (scoreInput f subjectId (id p))) dflt)))
    ps [("subject", JS.VStr (trim subjectName))].

Fixpoint collectFrom (dflt : JS.Num) (f : Form) (ps : list Period)
    (subjectIndex : nat) (groups : list (option string)) : list Obj :=
  match groups with
  | [] => []
  | g :: rest =>
      let tail := collectFrom dflt f ps (S subjectIndex) rest in
      match g with
      | Some nm => collectGrade dflt f ps (subjectIndex + 1) nm :: tail
      | None => tail
      end
  end.

(** The submit handler, lines 232-259: the grades sent to the server.
    [periodIds] are the ids read off the average boxes. *)
Definition submitGrade (f : Form) (periodIds : list string)
    (subjectId : nat) (subjectName : string) : Obj :=
  fold_left
    (fun grade periodId =>
       set grade periodId
           (JS.VNum match scoreInput f subjectId periodId with
                    | Some value => JS.or_else (JS.parseFloatStr value) (JS.Fin 0)
                    | None => JS.Fin 0
                    end))
    periodIds [("subject", JS.VStr (trim subjectName))].

Fixpoint submitFrom (f : Form) (periodIds : list string)
    (subjectIndex : nat) (groups : list (option string)) : list Obj :=
  match groups with
  | [] => []
  | g :: rest =>
      let tail := submitFrom f periodIds (S subjectIndex) rest in
      match g with
      | Some nm =>
          if negb (String.eqb (trim nm) "")
          then submitGrade f periodIds (subjectIndex + 1) nm :: tail
          else tail
      | None => tail
      end
  end.

Definition submitGrades (f : Form) (periodIds : list string) : list Obj :=
  submitFrom f periodIds 0 (subjectNames f).

(** [calculateAndDisplayAverages()], first listing. *)
Definition numSubjects (f : Form) : nat :=
  let n := List.length (subjectNames f) in
  if (n =? 0)%nat then 1%nat else n.

Definition initTotals (ps : list Period) : gmap string JS.Num :=
  fold_left (fun totals p => <[id p := JS.Fin 0]> totals) ps ∅.

Definition addScores (f : Form) (ps : list Period) (totals : gmap string JS.Num)
    (i : nat) : gmap string JS.Num :=
  fold_left
    (fun totals p =>
       match scoreInput f i (id p) with
       | Some value =>
           <[id p := JS.add (field totals (id p))
                            (JS.or_else (JS.parseFloatStr value) (JS.Fin 0))]> totals
       | None => totals
       end)
    ps totals.

Definition totalsOf (f : Form) (ps : list Period) : gmap string JS.Num :=
  fold_left (addScores f ps) (seq 1 (numSubjects f)) (initTotals ps).

(** Line 117: the average of a period, which line 119 writes to the
    element [avg-<id>].  For the ids sem1, sem2 and final this is not what
    the element shows in the end: lines 140-144 write to the same
    elements (see [calculateAndDisplayAverages]). *)
Definition periodAverage (f : Form) (ps : list Period) (p : Period) : JS.Num :=
  JS.div (field (totalsOf f ps) (id p)) (JS.ofNat (numSubjects f)).

Definition semPeriods (ids : list string) (ps : list Period) : list Period :=
  List.filter (fun p => existsb (String.eqb (id p)) ids) ps.

Definition semAvg (ids : list string) (f : Form) (ps : list Period) : JS.Num :=
  let semPs := semPeriods ids ps in
  let totals := totalsOf f ps in
  let sumSem :=
    fold_left (fun sum p => JS.add sum (JS.or_else (field totals (id p)) (JS.Fin 0)))
              semPs (JS.Fin 0) in
  if (0 <? List.length semPs)%nat
  then JS.div (JS.div sumSem (JS.ofNat (numSubjects f))) (JS.ofNat (List.length semPs))
  else JS.Fin 0.

Definition sem1Avg : Form -> list Period -> JS.Num := semAvg ["p1"; "p2"; "p3"; "exam1"].
Definition sem2Avg : Form -> list Period -> JS.Num := semAvg ["p4"; "p5"; "p6"; "exam2"].

Definition finalAvg (f : Form) (ps : list Period) : JS.Num :=
  JS.div (JS.add (sem1Avg f ps) (sem2Avg f ps)) (JS.ofZ 2).

(** The elements the function writes, by element id, with the number
    each shows when the function returns ([toFixed(2)] of it): lines
    116-119 write [avg-<id>] for each period of the registry, in order,
    then lines 140-144 write [avg-sem1], [avg-sem2] and [avg-final]; a
    later write to an element replaces an earlier one.  The elements are
    taken to be on the page. *)
Definition calculateAndDisplayAverages (f : Form) (ps : list Period)
    : gmap string JS.Num :=
  let boxes :=
    fold_left (fun page p => <[("avg-" ++ id p)%string := periodAverage f ps p]> page)
              ps (∅ : gmap string JS.Num) in
  <["avg-final" := finalAvg f ps]>
    (<["avg-sem2" := sem2Avg f ps]>
       (<["avg-sem1" := sem1Avg f ps]> boxes)).

(** Line 527: [if (key !== 'subject')]. *)
Definition isPeriodKey (key : string) : bool := negb (String.eqb key "subject").

Definition setActivePeriodsFromGrades : list Obj -> list Period :=
  setActivePeriodsFromGradesWith isPeriodKey.

(** Line 30: [parseFloat(input?.value) || 90]. *)
Definition collectCurrentGrades (f : Form) (ps : list Period) : list Obj :=
  collectFrom (JS.ofZ 90) f ps 0 (subjectNames f).

End Admin.

(** Second listing, lines 565-1228. *)
Module AdminRev.

(** Line 1148. *)
Definition isPeriodKey (key : string) : bool :=
  negb (String.eqb key "subject") && negb (String.eqb key "comment")
  && negb (String.eqb key "_id") && negb (String.eqb key "__v").

Definition setActivePeriodsFromGrades : list Obj -> list Period :=
  Admin.setActivePeriodsFromGradesWith isPeriodKey.


End AdminRev.

(** ** Notions used to state the properties *)

(** The callback restricted to periods of one type: the numbers alone. *)
Definition compareNum (a b : Period) : JS.Num :=
  JS.sub (JS.parseInt (JS.strip_non_digits (id a)))
         (JS.parseInt (JS.strip_non_digits (id b))).

Definition byNum (l : list Period) : list Period := JS.sort compareNum l.

Definition hasType (t : PeriodType) (p : Period) : bool := PeriodType_eqb (type p) t.

(** Every exam of a group is its last element. *)
Definition examsLast (g : list Period) : Prop :=
  forall pre p post, g = pre ++ p :: post -> type p = exam -> post = [].

Definition notExam (p : Period) : Prop := type p <> exam.

(** A field holds a score when [parseFloat] reads a number from it; a
    missing field, [null] or text that is not numeric holds none. *)
Definition presentScore (v : JS.Val) : option JS.Num :=
  let n := JS.parseFloat v in
  if JS.isNaN n then None else Some n.

(** The scores of one column, subject by subject. *)
Definition columnScores (grades : list Obj) (key : string) : list (option JS.Num) :=
  map (fun g => presentScore (get g key)) grades.

(** The scores one subject has for a list of columns. *)
Definition subjectScores (grade : Obj) (cols : list string) : list (option JS.Num) :=
  map (fun k => presentScore (get grade k)) cols.

(** Mean of the scores that are present, skipping the others; no value
    when none is present. *)
Definition meanOfPresent (scores : list (option JS.Num)) : option JS.Num :=
  match omap (fun o : option JS.Num => o) scores with
  | [] => None
  | vs => Some (JS.div (JS.sum vs) (JS.ofNat (List.length vs)))
  end.

(** Mean over all entries, an absent score counting as 0. *)
Definition meanOverAll (scores : list (option JS.Num)) : JS.Num :=
  JS.div (JS.sum (map (default (JS.Fin 0)) scores)) (JS.ofNat (List.length scores)).

(** The columns of the student view that hold entered scores. *)
Definition scoreKeys : list string :=
  ["p1"; "p2"; "p3"; "exam1"; "p4"; "p5"; "p6"; "exam2"].

(** What [accumulate] passes to [addToTotal] for a column. *)
Definition rowValue (r : Student.Row) (key : string) : option JS.Num :=
  if String.eqb key "p1" then Some (Student.p1 r)
  else if String.eqb key "p2" then Some (Student.p2 r)
  else if String.eqb key "p3" then Some (Student.p3 r)
  else if String.eqb key "exam1" then Some (Student.exam1 r)
  else if String.eqb key "sem1" then Student.avg1 r
  else if String.eqb key "p4" then Some (Student.p4 r)
  else if String.eqb key "p5" then Some (Student.p5 r)
  else if String.eqb key "p6" then Some (Student.p6 r)
  else if String.eqb key "exam2" then Some (Student.exam2 r)
  else if String.eqb key "sem2" then Student.avg2 r
  else if String.eqb key "yearly" then Student.yearly r
  else None.

(** A value [addToTotal] counts: a number that is not NaN. *)
Definition counted (v : option JS.Num) : option JS.Num :=
  match v with
  | Some x => if JS.isNaN x then None else Some x
  | None => None
  end.

Definition bump (acc : JS.Num) (v : option JS.Num) (by_ : JS.Num -> JS.Num) : JS.Num :=
  match counted v with
  | Some x => JS.add acc (by_ x)
  | None => acc
  end.



Definition warning : string := "You must have at least one period.".

(** Results of arithmetic hold their rational in lowest terms. *)
Definition reduced (n : JS.Num) : Prop :=
  match n with
  | JS.Fin q => Qred q = q
  | _ => True
  end.

(** The type an id stands for: [exam*] an exam, [sem*] a semester
    average, anything else a period. *)
Definition kindOfKey (key : string) : PeriodType :=
  if JS.startsWith key "exam" then exam
  else if JS.startsWith key "sem" then semester
  else period.

(** The keys of a stored grade object that are not periods. *)
Definition knownKeys : list string := ["subject"; "comment"; "_id"; "__v"].

(** ** Sample data *)

(** A stored subject whose fields come in the order a full school year is
    entered: three periods and an exam, twice. *)
Definition mathGrade : Obj :=
  [ ("subject", JS.VStr "Math");
    ("p1", JS.VNum (JS.ofZ 90)); ("p2", JS.VNum (JS.ofZ 80));
    ("p3", JS.VNum (JS.ofZ 70)); ("exam1", JS.VNum (JS.ofZ 60));
    ("p4", JS.VNum (JS.ofZ 85)); ("p5", JS.VNum (JS.ofZ 75));
    ("p6", JS.VNum (JS.ofZ 65)); ("exam2", JS.VNum (JS.ofZ 95)) ].

(** The eight periods p1, p2, p3, exam1, p4, p5, p6, exam2 as the report
    view reads them off [mathGrade]. *)
Definition eightPeriods : list Period := Report.activePeriodsOf mathGrade.

Definition P1 := mkPeriod "p1" "1st Period" period.
Definition P2 := mkPeriod "p2" "2nd Period" period.
Definition P3 := mkPeriod "p3" "3rd Period" period.
Definition P4 := mkPeriod "p4" "4th Period" period.
Definition P5 := mkPeriod "p5" "5th Period" period.
Definition P6 := mkPeriod "p6" "6th Period" period.
Definition E1 := mkPeriod "exam1" "Exam 1" exam.
Definition E2 := mkPeriod "exam2" "Exam 2" exam.

(** Two subjects, the second stored without a score for p1. *)
Definition halfEntered : list Obj :=
  [ [("subject", JS.VStr "Math"); ("p1", JS.VNum (JS.ofZ 100))];
    [("subject", JS.VStr "Art")] ].

(** Two subjects with p1 scores 100 and 0. *)
Definition hundredAndZero : list Obj :=
  [ [("subject", JS.VStr "Math"); ("p1", JS.VNum (JS.ofZ 100))];
    [("subject", JS.VStr "Art"); ("p1", JS.VNum (JS.ofZ 0))] ].

(** A subject with scores in the first semester only, two of them. *)
Definition firstSemesterOnly : Obj :=
  [ ("subject", JS.VStr "Math"); ("p1", JS.VNum (JS.ofZ 80));
    ("p3", JS.VStr "90") ].

(** A subject without any score. *)
Definition nothingEntered : Obj := [ ("subject", JS.VStr "Math"); ("p1", JS.VStr "") ].

(** The admin form with one subject and the single period p1, scored 80. *)
Definition oneScoreForm : Form :=
  mkForm [Some "Math"]
         (fun i pid => if (i =? 1)%nat && String.eqb pid "p1" then Some "80" else None).

Definition firstSemIds : list string := ["p1"; "p2"; "p3"; "exam1"].
Definition secondSemIds : list string := ["p4"; "p5"; "p6"; "exam2"].

(** Two periods are removed, two are added in the same millisecond, then
    everything else is removed and, last, the timestamp id. *)
Definition sameMillisecond : list Admin.Op :=
  [ Admin.OpRemove "p1"; Admin.OpRemove "p2";
    Admin.OpAdd period "" 1700000000000; Admin.OpAdd period "" 1700000000000;
    Admin.OpRemove "p3"; Admin.OpRemove "exam1"; Admin.OpRemove "sem1";
    Admin.OpRemove "p4"; Admin.OpRemove "p5"; Admin.OpRemove "p6";
    Admin.OpRemove "exam2"; Admin.OpRemove "sem2";
    Admin.OpRemove "period_1700000000000" ].



(** The admin form with one subject whose p1 input holds the text 0. *)
Definition zeroScoreForm : Form :=
  mkForm [Some "Math"]
         (fun i pid => if (i =? 1)%nat && String.eqb pid "p1" then Some "0" else None).

(** A stored subject with a comment, as the second listing's submit
    handler writes it. *)
Definition commented : list Obj :=
  [ [ ("subject", JS.VStr "Math"); ("comment", JS.VStr "Good work");
      ("p1", JS.VNum (JS.ofZ 90)); ("exam1", JS.VNum (JS.ofZ 80)) ] ].

(** [mathGrade] without a score for the second exam. *)
Definition noSecondExam : Obj :=
  [ ("subject", JS.VStr "Math");
    ("p1", JS.VNum (JS.ofZ 90)); ("p2", JS.VNum (JS.ofZ 80));
    ("p3", JS.VNum (JS.ofZ 70)); ("exam1", JS.VNum (JS.ofZ 60));
    ("p4", JS.VNum (JS.ofZ 85)); ("p5", JS.VNum (JS.ofZ 75));
    ("p6", JS.VNum (JS.ofZ 65)) ].

(** A stored subject with nothing but known keys. *)
Definition noScores : list Obj :=
  [ [ ("subject", JS.VStr "Math"); ("comment", JS.VStr ""); ("__v", JS.VNum (JS.ofZ 0)) ] ].

Ltac not_among :=
  let H := fresh in
  intros H; vm_compute in H;
  repeat (destruct H as [H|H]; [discriminate H|]); exact H.

(** ** The tables of the report view and the colours of the student view *)

Module JSMath.

(** [a === b] on numbers. *)
Definition eq (a b : JS.Num) : bool :=
  match a, b with
  | JS.PosInf, JS.PosInf | JS.NegInf, JS.NegInf => true
  | JS.Fin x, JS.Fin y => Qeq_bool x y
  | _, _ => false
  end.

(** [Math.min(a, b)] and [Math.max(a, b)]. *)
Definition min (a b : JS.Num) : JS.Num :=
  if JS.isNaN a || JS.isNaN b then JS.NaN else if JS.lt b a then b else a.

Definition max (a b : JS.Num) : JS.Num :=
  if JS.isNaN a || JS.isNaN b then JS.NaN else if JS.lt a b then b else a.

(** [Math.min(...xs)] and [Math.max(...xs)]. *)
Definition minList (xs : list JS.Num) : JS.Num := fold_left min xs JS.PosInf.
Definition maxList (xs : list JS.Num) : JS.Num := fold_left max xs JS.NegInf.

End JSMath.

(** What a table cell holds. *)
Inductive Content : Type :=
| Label (text : string)
| Field (v : JS.Val)
| Grade (c : Cell).

(** A [th] or [td]: the classes it carries and what it holds. *)
Record Td : Type := mkTd { classes : list string; content : Content }.

Module ReportTable.

(** [buildTableHeader(semesters)]: the cells of the header row. *)
Fixpoint headerFrom (index : nat) (semesters : list (list Period)) : list Td :=
  match semesters with
  | [] => []
  | semesterPeriods :: rest =>
      map (fun p => mkTd [] (Label (name p))) semesterPeriods
      ++ (if (0 <? List.length semesterPeriods)%nat
          then [mkTd [] (Label ("Sem " ++ showNat (index + 1) ++ " Avg")%string)]
          else [])
      ++ headerFrom (S index) rest
  end.

Definition buildTableHeader (semesters : list (list Period)) : list Td :=
  mkTd ["subject-col"] (Label "Subject")
  :: headerFrom 0 semesters ++ [mkTd [] (Label "Final Avg")].

(** [class="${x < 60 ? 'failing-score' : ''}"] *)
Definition failing (x : JS.Num) : list string :=
  if JS.lt x (JS.ofZ 60) then ["failing-score"] else [].

(** [buildTableBody], lines 162-167: the lowest and highest score of a
    subject, or -1 twice when it has fewer than two scores. *)
Definition extremes (subjectGrade : Obj) (semesters : list (list Period))
    : JS.Num * JS.Num :=
  let allScores :=
    List.filter (fun score => negb (JS.isNaN score))
                (map (fun p => JS.parseFloat (get subjectGrade (id p)))
                     (concat semesters)) in
  if (1 <? List.length allScores)%nat
  then (JSMath.minList allScores, JSMath.maxList allScores)
  else (JS.ofZ (-1), JS.ofZ (-1)).

(** Lines 172-175: the classes of a score cell. *)
Definition scoreClasses (score minScore maxScore : JS.Num) : list string :=
  (if JS.lt score (JS.ofZ 60) then ["failing-score"] else [])
  ++ (if JSMath.eq score maxScore && negb (JSMath.eq maxScore minScore)
      then ["highest-score"] else [])
  ++ (if JSMath.eq score minScore && negb (JSMath.eq maxScore minScore)
      then ["lowest-score"] else []).

Definition scoreCell (checked : bool) (minScore maxScore score : JS.Num) : Td :=
  mkTd (scoreClasses score minScore maxScore)
       (Grade (if checked then Raw score else Letter (Report.getLetterGrade score))).

Definition avgCell (checked : bool) (avg : JS.Num) : Td :=
  mkTd (failing avg) (Grade (Report.formatGrade checked avg)).

(** The cells one semester adds to the row of a subject. *)
Definition semesterCells (checked : bool) (subjectGrade : Obj)
    (minScore maxScore : JS.Num) (semesterPeriods : list Period) : list Td :=
  map (scoreCell checked minScore maxScore)
      (map (Report.scoreOrZero subjectGrade) semesterPeriods)
  ++ (if (0 <? List.length semesterPeriods)%nat
      then [avgCell checked (Report.semesterAvg subjectGrade semesterPeriods)]
      else []).

(** [buildTableBody]: the row of one subject (the comment row that may
    follow it is a row of its own). *)
Definition subjectRow (checked : bool) (subjectGrade : Obj)
    (semesters : list (list Period)) : list Td :=
  let '(minScore, maxScore) := extremes subjectGrade semesters in
  mkTd ["subject-col"] (Field (get subjectGrade "subject"))
  :: flat_map (semesterCells checked subjectGrade minScore maxScore) semesters
  ++ [avgCell checked (Report.finalAvg subjectGrade semesters)].

(** [buildTableFooter]: the cells of the footer row. *)
Definition footerCells (checked : bool) (grades : list Obj)
    (semesterPeriods : list Period) : list Td :=
  map (fun p => avgCell checked (Report.periodAvg grades p)) semesterPeriods
  ++ (if (0 <? List.length semesterPeriods)%nat
      then [avgCell checked (Report.overallSemesterAvg grades semesterPeriods)]
      else []).

Definition buildTableFooter (checked : bool) (grades : list Obj)
    (semesters : list (list Period)) : list Td :=
  mkTd ["subject-col"] (Label "Average")
  :: flat_map (footerCells checked grades) semesters
  ++ [avgCell checked (Report.finalOverallAvg grades semesters)].

(** [setOverallPerformance(finalAvg)]: the comment and the grade shown. *)
Definition overallComment (finalAvg : JS.Num) : string :=
  if JS.ge finalAvg (JS.ofZ 90) then "Excellent work! Keep up the outstanding performance."
  else if JS.ge finalAvg (JS.ofZ 80) then "Great job! Consistently strong performance."
  else if JS.ge finalAvg (JS.ofZ 70) then "Good effort. Continue to work hard."
  else if JS.ge finalAvg (JS.ofZ 60) then "Satisfactory. There is room for improvement."
  else "Needs improvement. Please see the administration for guidance.".

Definition overallGrade (checked : bool) (finalAvg : JS.Num) : Cell :=
  if checked then Fixed 2 finalAvg else Letter (Report.getLetterGrade finalAvg).

End ReportTable.

Module StudentTable.

Definition red : string := "text-red-600".

(** [getScoreClass(val)] *)
Definition getScoreClass (val : JS.Val) : string :=
  let num := JS.parseFloat val in
  if negb (JS.isNaN num) && JS.lt num (JS.ofZ 70) then "text-red-600 font-bold"
  else "text-gray-600".

(** [getAvgClass(val)] and [getYearlyClass(val)]; [None] is [null]. *)
Definition getAvgClass (val : option JS.Num) : string :=
  match val with
  | Some v => if JS.lt v (JS.ofZ 70) then red else "text-indigo-700"
  | None => "text-indigo-700"
  end.

Definition getYearlyClass (val : option JS.Num) : string :=
  match val with
  | Some v => if JS.lt v (JS.ofZ 70) then red else "text-gray-900"
  | None => "text-gray-900"
  end.

(** Line 244: the colour of the letter cell of a row. *)
Definition letterClass (yearly : option JS.Num) : string :=
  match yearly with
  | Some y => if JS.lt y (JS.ofZ 70) then red else "text-green-600"
  | None => "text-green-600"
  end.

(** Lines 171-172 and 214-217: the running sum of the yearly averages and
    the number of subjects that have one. *)
Definition addYearly (acc : JS.Num * JS.Num) (r : Student.Row) : JS.Num * JS.Num :=
  match Student.yearly r with
  | Some y => (JS.add (fst acc) y, JS.add (snd acc) (JS.Fin 1))
  | None => acc
  end.

(** Line 279: [subjectCount > 0 ? totalYearlyAvg / subjectCount : 0], for a
    table that has rows. *)
Definition finalAvg (grades : list Obj) : JS.Num :=
  let '(totalYearlyAvg, subjectCount) :=
    fold_left addYearly (map Student.rowOf grades) (JS.Fin 0, JS.Fin 0) in
  if JS.lt (JS.Fin 0) subjectCount
  then JS.div totalYearlyAvg subjectCount
  else JS.Fin 0.

(** Lines 283-284: the overall badge. *)
Definition badgeText (grades : list Obj) : string :=
  Student.getLetterGrade (finalAvg grades).

Definition badgeClass (grades : list Obj) : string :=
  if JS.ge (finalAvg grades) (JS.ofZ 60) then "text-indigo-700" else red.

End StudentTable.

(** The row [renderGradeTable] prints for one subject (lines 230-246),
    cell by cell.  Of the classes of a cell only the computed one is
    kept; the fixed ones are the same for every subject. *)
Module StudentRow.

(** [safeVal(val)]: a dash for [null], [undefined] and the empty string. *)
Definition safeVal (val : JS.Val) : Content :=
  match val with
  | JS.VUndef | JS.VNull | JS.VStr EmptyString => Label "-"
  | _ => Field val
  end.

(** [grade.comment || '']. *)
Definition commentText (comment : JS.Val) : Content :=
  match comment with
  | JS.VUndef | JS.VNull | JS.VStr EmptyString => Label EmptyString
  | JS.VNum n => if JS.truthy n then Field comment else Label EmptyString
  | JS.VStr _ => Field comment
  end.

Definition scoreCell (grade : Obj) (key : string) : Td :=
  mkTd [StudentTable.getScoreClass (get grade key)] (safeVal (get grade key)).

Definition renderRow (grade : Obj) : list Td :=
  let row := Student.rowOf grade in
  [ mkTd [] (Field (get grade "subject"));
    scoreCell grade "p1"; scoreCell grade "p2"; scoreCell grade "p3";
    scoreCell grade "exam1";
    mkTd [StudentTable.getAvgClass (Student.avg1 row)]
         (Grade (Student.avgCell (Student.avg1 row)));
    scoreCell grade "p4"; scoreCell grade "p5"; scoreCell grade "p6";
    scoreCell grade "exam2";
    mkTd [StudentTable.getAvgClass (Student.avg2 row)]
         (Grade (Student.avgCell (Student.avg2 row)));
    mkTd [StudentTable.getYearlyClass (Student.yearly row)]
         (Grade (Student.avgCell (Student.yearly row)));
    mkTd [StudentTable.letterClass (Student.yearly row)]
         (Grade (Student.letterCell (Student.yearly row)));
    mkTd [] (commentText (get grade "comment")) ].

End StudentRow.

(** A score between 0 and 100. *)
Definition inRange (n : JS.Num) : Prop :=
  match n with
  | JS.Fin q => (0 <= q /\ q <= 100)%Q
  | _ => False
  end.

(** A number that is not an infinity. *)
Definition finiteOrNaN (n : JS.Num) : Prop :=
  match n with
  | JS.PosInf | JS.NegInf => False
  | _ => True
  end.

(** The number of fields of a subject, over all periods, that hold a
    score. *)
Definition scoreCount (subjectGrade : Obj) (semesters : list (list Period)) : nat :=
  List.length
    (List.filter (fun score => negb (JS.isNaN score))
                 (map (fun p => JS.parseFloat (get subjectGrade (id p)))
                      (concat semesters))).

(** The comment that goes with a letter grade. *)
Definition commentFor (letter : string) : string :=
  if String.eqb letter "A" then "Excellent work! Keep up the outstanding performance."
  else if String.eqb letter "B" then "Great job! Consistently strong performance."
  else if String.eqb letter "C" then "Good effort. Continue to work hard."
  else if String.eqb letter "D" then "Satisfactory. There is room for improvement."
  else "Needs improvement. Please see the administration for guidance.".

(** A subject with three scores, one of them the text of a number. *)
Definition threeScores : Obj :=
  [ ("subject", JS.VStr "Math"); ("p1", JS.VNum (JS.ofZ 55));
    ("p2", JS.VStr "92.5"); ("exam1", JS.VNum (JS.ofZ 70)) ].

(** A finite number. *)
Definition isFin (n : JS.Num) : Prop :=
  match n with
  | JS.Fin _ => True
  | _ => False
  end.

(** Every score field of a subject reads as a finite number or as none. *)
Definition finiteScores (grade : Obj) : Prop :=
  Forall (fun k => finiteOrNaN (JS.parseFloat (get grade k))) scoreKeys.

(** An average that, when there is one, lies between 0 and 100. *)
Definition optInRange (o : option JS.Num) : Prop :=
  match o with
  | Some n => inRange n
  | None => True
  end.

(** Every score a subject has for the given fields lies between 0 and 100. *)
Definition scoresInRange (grade : Obj) (fields : list string) : Prop :=
  Forall (fun k => optInRange (presentScore (get grade k))) fields.

(** A period or an exam whose id holds a digit. *)
Definition sortable (p : Period) : Prop :=
  type p <> semester
  /\ JS.isNaN (JS.parseInt (JS.strip_non_digits (id p))) = false.

(** The sort callback does not ask for [x] to go after [y]. *)
Definition inOrder (x y : Period) : Prop := JS.after Report.comparePeriods x y = false.

(** The number an id holds: its decimal digits, read together. *)
Definition suffixNumber (p : Period) : Z :=
  JS.digits_value (list_ascii_of_string (JS.strip_non_digits (id p))).

(** [Number.MAX_SAFE_INTEGER]: up to it every integer is a double. *)
Definition maxSafeInteger : Z := 9007199254740991.

(** A period or an exam whose id holds a number, one a double holds
    exactly. *)
Definition numberedPeriod (p : Period) : Prop :=
  sortable p /\ (suffixNumber p <= maxSafeInteger)%Z.

(** [x] may stand before [y]: a period before an exam, and two entries of
    one type by the numbers in their ids. *)
Definition byTypeThenNumber (x y : Period) : Prop :=
  (type x = period /\ type y = exam)
  \/ (type x = type y /\ (suffixNumber x <= suffixNumber y)%Z).

(** Three periods and two exams, out of order. *)
Definition shuffledPeriods : list Period := [P3; E2; P1; E1; P2].

(** The number of subject rows of the admin form, 1 when there is none. *)
Definition subjectRows (f : Form) : nat := Nat.max 1 (List.length (subjectNames f)).

(** The keys the rows of the student view print. *)
Definition printedKeys : list string := "subject" :: "comment" :: scoreKeys.

(** ** Notions for the registry operations *)

(** The id [addPeriod] gives the period it adds. *)
Definition addedId (kind : PeriodType) (now : Z) (ps : list Period) : string :=
  if existsb (fun p => String.eqb (id p) (Admin.sequentialId kind ps)) ps
  then Admin.timestampId kind now
  else Admin.sequentialId kind ps.

(** No id [p<j>] is taken for a [j] beyond the number of regular periods. *)
Definition periodsInOrder (ps : list Period) : Prop :=
  forall j : nat, (Admin.countOf period ps <= j)%nat ->
                  ~ In ("p" ++ showNat j)%string (map id ps).

(** The regular period numbered [k], under a custom name or the default. *)
Definition nthPeriod (k : nat) (customName : string) : Period :=
  mkPeriod ("p" ++ showNat k)%string
           (if negb (String.eqb customName "") then customName
            else (showNat k ++ Admin.getOrdinalSuffix (JS.ofNat k) ++ " Period")%string)
           period.

Fixpoint numbered (k : nat) (names : list string) : list Period :=
  match names with
  | [] => []
  | nm :: rest => nthPeriod k nm :: numbered (S k) rest
  end.

(** Clicks on the add-regular-period button: the name typed and the time. *)
Definition periodClicks (clicks : list (string * Z)) : list Admin.Op :=
  map (fun c => Admin.OpAdd period (fst c) (snd c)) clicks.

(** The scores entered for a period in the first [n] subject rows: one per
    score box that exists, text that is not a number (or is 0) giving 0. *)
Definition enteredScores (f : Form) (n : nat) (pid : string) : list JS.Num :=
  flat_map (fun i => match scoreInput f i pid with
                     | Some value => [JS.or_else (JS.parseFloatStr value) (JS.Fin 0)]
                     | None => []
                     end)
           (seq 1 n).

(** A key that is not an array index (those, [for...in] visits first). *)
Definition notIndexKey (k : string) : bool :=
  match k with
  | String c _ => negb (JS.is_digit c)
  | EmptyString => true
  end.

(** A form with two subjects; the second has no score box for p1. *)
Definition twoSubjectForm : Form :=
  mkForm [Some "Math"; Some " Art "]
         (fun i pid =>
            if (i =? 1)%nat && String.eqb pid "p1" then Some "80"
            else if (i =? 1)%nat && String.eqb pid "exam1" then Some "abc"
            else if (i =? 2)%nat && String.eqb pid "exam1" then Some "70"
            else None).

(** * Properties *)

Example parseFloat_ex1 : JS.parseFloatStr "59.99" = JS.Fin (5999 # 100).
Proof. reflexivity. Qed.
Example parseFloat_ex2 : JS.parseFloatStr "  -1.5e2abc" = JS.Fin (-150 # 1).
Proof. reflexivity. Qed.
Example parseFloat_ex3 : JS.parseFloatStr "abc" = JS.NaN.
Proof. reflexivity. Qed.
Example parseFloat_ex4 : JS.parseFloatStr ".5" = JS.Fin (1 # 2).
Proof. reflexivity. Qed.
Example parseFloat_ex5 : JS.parseFloatStr "." = JS.NaN.
Proof. reflexivity. Qed.
Example parseFloat_ex6 : JS.parseFloatStr "7e" = JS.Fin 7.
Proof. reflexivity. Qed.
Example parseInt_ex1 : JS.parseInt "12px" = JS.ofZ 12.
Proof. reflexivity. Qed.
Example parseInt_ex2 : JS.parseInt "eriod_7" = JS.NaN.
Proof. reflexivity. Qed.
Example parseInt_ex3 : JS.parseInt "0x1f" = JS.ofZ 31.
Proof. reflexivity. Qed.
Example showInt_ex : JS.showInt (JS.ofZ 12) = "12" /\ JS.showInt (JS.ofZ 0) = "0".
Proof. split; reflexivity. Qed.

Example eightPeriods_eq : eightPeriods = [P1; P2; P3; E1; P4; P5; P6; E2].
Proof. reflexivity. Qed.

(** ** Letter grades *)

Lemma getLetterGrade_same (score : JS.Num) :
  Report.getLetterGrade score = Student.getLetterGrade score.
Proof. reflexivity. Qed.

Lemma ge_Fin_ofZ (q : Q) (z : Z) : JS.ge (JS.Fin q) (JS.ofZ z) = Qle_bool (inject_Z z) q.
Proof. reflexivity. Qed.

Lemma Qle_bool_false (x y : Q) : Qle_bool x y = false <-> (y < x)%Q.
Proof.
  split.
  - intros H. apply Qnot_le_lt. intros Hle. apply Qle_bool_iff in Hle. congruence.
  - intros H. destruct (Qle_bool x y) eqn:E; [|reflexivity].
    apply Qle_bool_iff in E. exfalso. apply (Qlt_not_le _ _ H E).
Qed.

(** C7. [getLetterGrade] (the same function in the student view and in the
    report view) maps a score to A from 90, B from 80, C from 70, D from 60
    and F below 60, each threshold included; 59.99 is F, 60 is D, 89.99 is
    B and 90 is A.  A score that is not a number gets F. *)
Theorem getLetterGrade_thresholds :
  (forall q : Q,
      (Student.getLetterGrade (JS.Fin q) = "A" <-> (90 <= q)%Q) /\
      (Student.getLetterGrade (JS.Fin q) = "B" <-> (80 <= q /\ q < 90)%Q) /\
      (Student.getLetterGrade (JS.Fin q) = "C" <-> (70 <= q /\ q < 80)%Q) /\
      (Student.getLetterGrade (JS.Fin q) = "D" <-> (60 <= q /\ q < 70)%Q) /\
      (Student.getLetterGrade (JS.Fin q) = "F" <-> (q < 60)%Q)) /\
  (forall score, Report.getLetterGrade score = Student.getLetterGrade score) /\
  Student.getLetterGrade (JS.Fin (5999 # 100)) = "F" /\
  Student.getLetterGrade (JS.Fin 60) = "D" /\
  Student.getLetterGrade (JS.Fin (8999 # 100)) = "B" /\
  Student.getLetterGrade (JS.Fin 90) = "A" /\
  Student.getLetterGrade JS.NaN = "F".
Proof.
  split; [|repeat split; reflexivity].
  intros q. unfold Student.getLetterGrade. rewrite !ge_Fin_ofZ.
  destruct (Qle_bool (inject_Z 90) q) eqn:H90;
    [apply Qle_bool_iff in H90 | apply Qle_bool_false in H90];
  (destruct (Qle_bool (inject_Z 80) q) eqn:H80;
    [apply Qle_bool_iff in H80 | apply Qle_bool_false in H80]);
  (destruct (Qle_bool (inject_Z 70) q) eqn:H70;
    [apply Qle_bool_iff in H70 | apply Qle_bool_false in H70]);
  (destruct (Qle_bool (inject_Z 60) q) eqn:H60;
    [apply Qle_bool_iff in H60 | apply Qle_bool_false in H60]);
  change (inject_Z 90) with 90%Q in *; change (inject_Z 80) with 80%Q in *;
  change (inject_Z 70) with 70%Q in *; change (inject_Z 60) with 60%Q in *;
  repeat split; intros; try discriminate; try reflexivity; try assumption;
  try (exfalso; unfold Qle, Qlt in *; simpl in *; lia);
  try (unfold Qle, Qlt in *; simpl in *; lia).
Qed.

(** ** Grouping periods into semesters *)

Section SortFacts.
Context {A : Type} (cmp : A -> A -> JS.Num).

Lemma insert_Permutation (x : A) (l : list A) :
  Permutation (x :: l) (JS.insert cmp x l).
Proof.
  induction l as [|y l IH]; simpl.
  - apply Permutation_refl.
  - destruct (JS.after cmp x y).
    + eapply perm_trans; [apply perm_swap|]. apply perm_skip, IH.
    + apply Permutation_refl.
Qed.

Lemma sort_Permutation (l : list A) : Permutation l (JS.sort cmp l).
Proof.
  induction l as [|x l IH]; simpl.
  - apply perm_nil.
  - eapply perm_trans; [apply perm_skip, IH|]. apply insert_Permutation.
Qed.

(** Two callbacks that agree against every element of a list insert at
    the same place. *)
Lemma insert_ext (cmp' : A -> A -> JS.Num) (x : A) (l : list A) :
  Forall (fun y => JS.after cmp x y = JS.after cmp' x y) l ->
  JS.insert cmp x l = JS.insert cmp' x l.
Proof.
  induction 1 as [|y l Hy _ IH]; simpl; [reflexivity|].
  rewrite Hy, IH. reflexivity.
Qed.

Lemma insert_skip (x : A) (front back : list A) :
  Forall (fun y => JS.after cmp x y = true) front ->
  JS.insert cmp x (front ++ back) = front ++ JS.insert cmp x back.
Proof.
  induction 1 as [|y l Hy _ IH]; simpl; [reflexivity|].
  rewrite Hy, IH. reflexivity.
Qed.

Lemma insert_stop (x : A) (front back : list A) :
  Forall (fun y => JS.after cmp x y = false) back ->
  JS.insert cmp x (front ++ back) = JS.insert cmp x front ++ back.
Proof.
  intros Hb. induction front as [|y l IH]; simpl.
  - destruct Hb as [|z back Hz _]; simpl; [reflexivity|]. rewrite Hz. reflexivity.
  - destruct (JS.after cmp x y); simpl; [rewrite IH|]; reflexivity.
Qed.
End SortFacts.

Lemma PeriodType_eqb_eq (a b : PeriodType) : PeriodType_eqb a b = true <-> a = b.
Proof. destruct a, b; simpl; split; intros H; congruence. Qed.

Lemma after_same_type (x y : Period) :
  type x = type y ->
  JS.after Report.comparePeriods x y = JS.after compareNum x y.
Proof.
  intros H. unfold JS.after, Report.comparePeriods, compareNum.
  rewrite H. destruct (type y); reflexivity.
Qed.

Lemma after_exam_period (x y : Period) :
  type x = exam -> type y = period -> JS.after Report.comparePeriods x y = true.
Proof.
  intros Hx Hy. unfold JS.after, Report.comparePeriods. rewrite Hx, Hy. reflexivity.
Qed.

Lemma after_period_exam (x y : Period) :
  type x = period -> type y = exam -> JS.after Report.comparePeriods x y = false.
Proof.
  intros Hx Hy. unfold JS.after, Report.comparePeriods. rewrite Hx, Hy. reflexivity.
Qed.

Lemma sort_hasType (cmp : Period -> Period -> JS.Num) (t : PeriodType) (l : list Period) :
  Forall (fun p => type p = t) l -> Forall (fun p => type p = t) (JS.sort cmp l).
Proof.
  intros H. eapply Permutation_Forall; [apply sort_Permutation|exact H].
Qed.

Lemma filter_hasType (t : PeriodType) (l : list Period) :
  Forall (fun p => type p = t) (List.filter (hasType t) l).
Proof.
  apply List.Forall_forall. intros p Hp. apply List.filter_In in Hp.
  destruct Hp as [_ Hp]. apply PeriodType_eqb_eq, Hp.
Qed.

(** With periods and exams only, the sort puts every period, by number,
    before every exam, by number. *)
Lemma sortPeriods_split (l : list Period) :
  Forall (fun p => type p <> semester) l ->
  Report.sortPeriods l
  = byNum (List.filter (hasType period) l) ++ byNum (List.filter (hasType exam) l).
Proof.
  unfold Report.sortPeriods, byNum.
  induction 1 as [|x l Hx _ IH]; [reflexivity|].
  assert (HP := sort_hasType compareNum period _ (filter_hasType period l)).
  assert (HE := sort_hasType compareNum exam _ (filter_hasType exam l)).
  cbn [JS.sort]. rewrite IH. cbn [List.filter].
  assert (Hp : hasType period x = PeriodType_eqb (type x) period) by reflexivity.
  assert (He : hasType exam x = PeriodType_eqb (type x) exam) by reflexivity.
  rewrite Hp, He. clear Hp He.
  destruct (type x) eqn:Tx; cbn [PeriodType_eqb JS.sort]; [| |congruence].
  - rewrite insert_stop.
    + f_equal. apply insert_ext. eapply List.Forall_impl; [|exact HP].
      intros y Hy. apply after_same_type. congruence.
    + eapply List.Forall_impl; [|exact HE]. intros y Hy. now apply after_period_exam.
  - rewrite insert_skip.
    + f_equal. apply insert_ext. eapply List.Forall_impl; [|exact HE].
      intros y Hy. apply after_same_type. congruence.
    + eapply List.Forall_impl; [|exact HP]. intros y Hy. now apply after_exam_period.
Qed.

Lemma examsLast_snoc (cur : list Period) (p : Period) :
  Forall notExam cur -> examsLast (cur ++ [p]).
Proof.
  intros Hcur pre q post E Hq.
  destruct (exists_last (l := q :: post)) as [body [z Hz]]; [discriminate|].
  destruct post as [|r post]; [reflexivity|exfalso].
  destruct body as [|q' body]; [discriminate|].
  injection Hz as -> Hz. rewrite Hz in E.
  change (cur ++ [p] = pre ++ (q' :: body) ++ [z]) in E.
  rewrite app_assoc in E. apply app_inj_tail in E. destruct E as [E _].
  rewrite List.Forall_forall in Hcur. apply (Hcur q'); [|exact Hq].
  rewrite E. apply in_or_app. right. left. reflexivity.
Qed.

Lemma examsLast_notExam (cur : list Period) : Forall notExam cur -> examsLast cur.
Proof.
  intros Hcur pre q post E Hq. exfalso.
  rewrite List.Forall_forall in Hcur. apply (Hcur q); [|exact Hq].
  rewrite E. apply in_or_app. right. left. reflexivity.
Qed.

(** What the loop keeps true: nothing is lost, closed groups end in their
    only exam, the open group has none. *)
Lemma groupLoop_spec (ps : list Period) :
  forall semesters cur semesters' cur',
    Report.groupLoop ps semesters cur = (semesters', cur') ->
    Forall examsLast semesters -> Forall notExam cur ->
    concat semesters' ++ cur' = concat semesters ++ cur ++ ps
    /\ Forall examsLast semesters' /\ Forall notExam cur'.
Proof.
  induction ps as [|p ps IH]; intros semesters cur semesters' cur' E Hs Hc; simpl in E.
  - injection E as <- <-. rewrite app_nil_r. auto.
  - destruct (PeriodType_eqb (type p) exam) eqn:Tp.
    + apply IH in E.
      * destruct E as (E & H1 & H2). split; [|auto].
        rewrite E, concat_app. simpl. rewrite !app_nil_r, <- !app_assoc. reflexivity.
      * apply Forall_app. split; [exact Hs|]. constructor; [|constructor].
        now apply examsLast_snoc.
      * constructor.
    + apply IH in E.
      * destruct E as (E & H1 & H2). split; [|auto].
        rewrite E, <- !app_assoc. reflexivity.
      * exact Hs.
      * apply Forall_app. split; [exact Hc|]. constructor; [|constructor].
        intros Hp. apply PeriodType_eqb_eq in Hp. congruence.
Qed.

Lemma groupsOf_spec (sorted : list Period) :
  concat (Report.groupsOf sorted) = sorted /\ Forall examsLast (Report.groupsOf sorted).
Proof.
  unfold Report.groupsOf.
  destruct (Report.groupLoop sorted [] []) as [semesters cur] eqn:E.
  apply groupLoop_spec in E; [|constructor|constructor].
  destruct E as (E & Hs & Hc). simpl in E.
  destruct ((0 <? List.length cur)%nat || (List.length sorted =? 0)%nat) eqn:C.
  - rewrite length_app. simpl List.length.
    replace (0 <? List.length semesters + 1)%nat with true
      by (symmetry; apply Nat.ltb_lt; lia).
    split.
    + rewrite concat_app. simpl. rewrite app_nil_r. exact E.
    + apply Forall_app. split; [exact Hs|]. constructor; [|constructor].
      now apply examsLast_notExam.
  - apply orb_false_iff in C. destruct C as [C1 C2].
    apply Nat.ltb_ge in C1. apply Nat.eqb_neq in C2.
    destruct cur; [|simpl in C1; lia]. rewrite app_nil_r in E.
    destruct semesters as [|g gs]; simpl.
    + simpl in E. subst sorted. simpl in C2. lia.
    + split; [exact E|exact Hs].
Qed.

(** C1. On the eight periods p1, p2, p3, exam1, p4, p5, p6, exam2 the
    function does not return [p1,p2,p3,exam1] and [p4,p5,p6,exam2]: the
    sort callback puts every exam after every period, so the first group
    is p1..p6 followed by exam1 and the second holds exam2 alone. *)
Theorem groupPeriodsIntoSemesters_eight_periods :
  fst <$> Report.groupPeriodsIntoSemesters 1%positive {[1%positive := eightPeriods]}
    = Some [[P1; P2; P3; P4; P5; P6; E1]; [E2]]
  /\ fst <$> Report.groupPeriodsIntoSemesters 1%positive {[1%positive := eightPeriods]}
    <> Some [[P1; P2; P3; E1]; [P4; P5; P6; E2]].
Proof.
  assert (H : fst <$> Report.groupPeriodsIntoSemesters 1%positive
                        {[1%positive := eightPeriods]}
              = Some [[P1; P2; P3; P4; P5; P6; E1]; [E2]]).
  { unfold Report.groupPeriodsIntoSemesters. rewrite lookup_singleton_eq. reflexivity. }
  split; [exact H|]. rewrite H. discriminate.
Qed.

(** C9. The groups returned for any array of periods (empty or not) hold,
    taken together, exactly the periods of the array, each once, and an
    exam is always the last period of its group. *)
Theorem groupPeriodsIntoSemesters_partition (a : loc) (h : heap) (l : list Period) :
  h !! a = Some l ->
  exists gs h',
    Report.groupPeriodsIntoSemesters a h = Some (gs, h')
    /\ Permutation (concat gs) l
    /\ Forall examsLast gs.
Proof.
  intros Ha. unfold Report.groupPeriodsIntoSemesters. rewrite Ha.
  eexists _, _. split; [reflexivity|].
  destruct (groupsOf_spec (Report.sortPeriods l)) as [Hc He].
  split; [|exact He]. rewrite Hc. symmetry. apply sort_Permutation.
Qed.

Lemma groupPeriodsIntoSemesters_partition_witness :
  exists gs h',
    Report.groupPeriodsIntoSemesters 1%positive {[1%positive := eightPeriods]}
      = Some (gs, h')
    /\ Permutation (concat gs) eightPeriods
    /\ Forall examsLast gs.
Proof.
  apply (groupPeriodsIntoSemesters_partition 1%positive {[1%positive := eightPeriods]}).
  reflexivity.
Defined.

(** The report view only builds periods and exams. *)
Lemma activePeriodsOf_kinds (firstSubject : Obj) :
  Forall (fun p => type p <> semester) (Report.activePeriodsOf firstSubject).
Proof.
  unfold Report.activePeriodsOf. apply List.Forall_map, List.Forall_forall.
  intros key _. unfold Report.periodOfKey. cbn [type].
  destruct (JS.startsWith key "exam"); discriminate.
Qed.

(** ** Arithmetic on the embedded numbers *)

Lemma Qred_inject_Z (z : Z) : Qred (inject_Z z) = inject_Z z.
Proof. apply Qred_identity. simpl. apply Z.gcd_1_r. Qed.

Lemma add_ofNat_one (n : nat) : JS.add (JS.ofNat n) (JS.Fin 1) = JS.ofNat (S n).
Proof.
  unfold JS.ofNat, JS.ofZ, JS.add. f_equal.
  rewrite <- (Qred_inject_Z (Z.of_nat (S n))). apply Qred_complete.
  rewrite Nat2Z.inj_succ. unfold Z.succ. rewrite inject_Z_plus. reflexivity.
Qed.

(** Adding a zero, however it is written, is adding 0. *)
Lemma add_zero_any (acc : JS.Num) (q : Q) :
  (q == 0)%Q -> JS.add acc (JS.Fin q) = JS.add acc (JS.Fin 0).
Proof.
  intros Hq. destruct acc; simpl; try reflexivity.
  f_equal. apply Qred_complete. rewrite Hq. reflexivity.
Qed.

Lemma lt_zero_ofNat (n : nat) : JS.lt (JS.Fin 0) (JS.ofNat n) = (0 <? n)%nat.
Proof.
  unfold JS.lt, JS.ofNat, JS.ofZ. destruct n as [|n]; [reflexivity|].
  change (0 <? S n)%nat with true.
  apply negb_true_iff, Qle_bool_false.
  unfold Qlt. simpl. lia.
Qed.

Lemma fold_add_omap (os : list (option JS.Num)) (acc : JS.Num) :
  fold_left (fun a o => match o with Some x => JS.add a x | None => a end) os acc
  = fold_left JS.add (omap (fun o : option JS.Num => o) os) acc.
Proof.
  revert acc. induction os as [|[x|] os IH]; intros acc; simpl; auto.
Qed.

Lemma fold_count_omap (os : list (option JS.Num)) (n : nat) :
  fold_left (fun a o => match o with
                        | Some x => JS.add a (JS.Fin 1)
                        | None => a
                        end) os (JS.ofNat n)
  = JS.ofNat (n + List.length (omap (fun o : option JS.Num => o) os)).
Proof.
  revert n. induction os as [|[x|] os IH]; intros n; cbn [fold_left].
  - f_equal. simpl. lia.
  - rewrite add_ofNat_one, IH. f_equal. simpl. rewrite Nat.add_succ_r. reflexivity.
  - apply IH.
Qed.

(** ** The footer of the student view *)

Lemma addToTotal_fields (k k' : string) (v : option JS.Num) (c : Student.Cols) :
  field (Student.colTotals (Student.addToTotal k v c)) k'
  = (if decide (k = k')
     then bump (field (Student.colTotals c) k') v (fun x => x)
     else field (Student.colTotals c) k')
  /\ field (Student.colCounts (Student.addToTotal k v c)) k'
  = (if decide (k = k')
     then bump (field (Student.colCounts c) k') v (fun _ => JS.Fin 1)
     else field (Student.colCounts c) k').
Proof.
  unfold Student.addToTotal, bump, counted, field.
  destruct v as [x|]; [destruct (JS.isNaN x)|]; simpl;
    case_decide; subst; rewrite ?lookup_insert_eq, ?lookup_insert_ne by done; done.
Qed.

Lemma columnKeys_NoDup : NoDup Student.columnKeys.
Proof. compute_done. Qed.

Lemma fold_addToTotal (val : string -> option JS.Num) (ks : list string) :
  NoDup ks -> forall (c : Student.Cols) (key : string),
  let c' := fold_left (fun c k => Student.addToTotal k (val k) c) ks c in
  field (Student.colTotals c') key
  = (if decide (key ∈ ks)
     then bump (field (Student.colTotals c) key) (val key) (fun x => x)
     else field (Student.colTotals c) key)
  /\ field (Student.colCounts c') key
  = (if decide (key ∈ ks)
     then bump (field (Student.colCounts c) key) (val key) (fun _ => JS.Fin 1)
     else field (Student.colCounts c) key).
Proof.
  induction 1 as [|k ks Hk Hnd IH]; intros c key; cbn zeta.
  - cbn [fold_left]. destruct (decide (key ∈ [])) as [Hin|_]; [|done].
    now apply elem_of_nil in Hin.
  - cbn [fold_left]. cbn zeta in IH.
    destruct (IH (Student.addToTotal k (val k) c) key) as [-> ->].
    destruct (addToTotal_fields k key (val k) c) as [-> ->].
    destruct (decide (k = key)) as [Heq|Hne].
    + subst key. destruct (decide (k ∈ ks)) as [Hin|_]; [done|].
      destruct (decide (k ∈ k :: ks)) as [_|Hout]; [done|].
      exfalso. apply Hout, list_elem_of_here.
    + destruct (decide (key ∈ ks)) as [Hin|Hin];
        destruct (decide (key ∈ k :: ks)) as [Hin'|Hin']; try done.
      * exfalso. apply Hin'. now apply list_elem_of_further.
      * exfalso. apply elem_of_cons in Hin'. destruct Hin' as [->|Hin']; done.
Qed.

Lemma accumulate_fold (c : Student.Cols) (r : Student.Row) :
  Student.accumulate c r
  = fold_left (fun c k => Student.addToTotal k (rowValue r k) c) Student.columnKeys c.
Proof. reflexivity. Qed.

Lemma accumulate_fields (c : Student.Cols) (r : Student.Row) (key : string) :
  key ∈ Student.columnKeys ->
  field (Student.colTotals (Student.accumulate c r)) key
  = bump (field (Student.colTotals c) key) (rowValue r key) (fun x => x)
  /\ field (Student.colCounts (Student.accumulate c r)) key
  = bump (field (Student.colCounts c) key) (rowValue r key) (fun _ => JS.Fin 1).
Proof.
  intros Hkey. rewrite accumulate_fold.
  destruct (fold_addToTotal (rowValue r) _ columnKeys_NoDup c key) as [H1 H2].
  cbn zeta in H1, H2. rewrite H1, H2, !decide_True by done. done.
Qed.

Lemma columns_fields (rows : list Student.Row) (key : string) :
  key ∈ Student.columnKeys -> forall c : Student.Cols,
  field (Student.colTotals (fold_left Student.accumulate rows c)) key
  = fold_left (fun acc r => bump acc (rowValue r key) (fun x => x)) rows
              (field (Student.colTotals c) key)
  /\ field (Student.colCounts (fold_left Student.accumulate rows c)) key
  = fold_left (fun acc r => bump acc (rowValue r key) (fun _ => JS.Fin 1)) rows
              (field (Student.colCounts c) key).
Proof.
  intros Hkey. induction rows as [|r rows IH]; intros c; cbn [fold_left]; [done|].
  destruct (IH (Student.accumulate c r)) as [-> ->].
  destruct (accumulate_fields c r key Hkey) as [-> ->]. done.
Qed.

Lemma scoreKeys_cases (key : string) :
  key ∈ scoreKeys ->
  key ∈ Student.columnKeys
  /\ field Student.zeroes key = JS.Fin 0
  /\ forall g, rowValue (Student.rowOf g) key = Some (JS.parseFloat (get g key)).
Proof.
  unfold scoreKeys. rewrite !elem_of_cons, elem_of_nil.
  intros H. repeat (destruct H as [->|H]; [repeat split; compute_done|]).
  destruct H.
Qed.

Lemma bump_rows (grades : list Obj) (key : string) (by_ : JS.Num -> JS.Num) :
  (forall g, rowValue (Student.rowOf g) key = Some (JS.parseFloat (get g key))) ->
  forall acc,
  fold_left (fun acc r => bump acc (rowValue r key) by_) (map Student.rowOf grades) acc
  = fold_left (fun a o => match o with Some x => JS.add a (by_ x) | None => a end)
              (columnScores grades key) acc.
Proof.
  intros Hv. induction grades as [|g grades IH]; intros acc; [reflexivity|].
  cbn [map fold_left columnScores]. rewrite <- IH. f_equal.
  unfold bump. rewrite Hv. reflexivity.
Qed.

(** The footer cell of a score column: the mean of the scores present in
    that column, or a dash when no subject has one. *)
Lemma footerCell_mean (grades : list Obj) (key : string) :
  grades <> [] -> key ∈ scoreKeys ->
  Student.footerCell grades key
  = Some match meanOfPresent (columnScores grades key) with
         | Some m => Fixed 1 m
         | None => Dash
         end.
Proof.
  intros Hg Hkey. destruct (scoreKeys_cases key Hkey) as (Hc & Hz & Hv).
  unfold Student.footerCell.
  destruct grades as [|g0 gs]; [done|]. cbn [List.length Nat.eqb].
  f_equal. unfold Student.setFooter, Student.columnsOf.
  destruct (columns_fields (map Student.rowOf (g0 :: gs)) key Hc Student.initCols)
    as [-> ->].
  cbn [Student.initCols Student.colTotals Student.colCounts]. rewrite Hz.
  rewrite !bump_rows by exact Hv.
  rewrite fold_add_omap.
  pose proof (fold_count_omap (columnScores (g0 :: gs) key) 0) as Hcnt.
  change (JS.ofNat 0) with (JS.Fin 0) in Hcnt. rewrite Hcnt, lt_zero_ofNat.
  cbn [Nat.add].
  unfold meanOfPresent.
  destruct (omap (fun o : option JS.Num => o) (columnScores (g0 :: gs) key)); reflexivity.
Qed.

(** ** Class averages *)

Lemma add_scoreOrZero (acc : JS.Num) (g : Obj) (p : Period) :
  JS.add acc (Report.scoreOrZero g p)
  = JS.add acc (default (JS.Fin 0) (presentScore (get g (id p)))).
Proof.
  unfold Report.scoreOrZero, presentScore, JS.or_else.
  destruct (JS.parseFloat (get g (id p))) as [| | |q]; try reflexivity.
  cbn [JS.truthy JS.isNaN default]. destruct (Qeq_bool q 0) eqn:Hq; [|reflexivity].
  cbn [negb]. symmetry. apply add_zero_any. now apply Qeq_bool_iff.
Qed.

Lemma periodTotal_sum (grades : list Obj) (p : Period) (acc : JS.Num) :
  fold_left (fun sum current => JS.add sum (Report.scoreOrZero current p)) grades acc
  = fold_left JS.add (map (default (JS.Fin 0)) (columnScores grades (id p))) acc.
Proof.
  revert acc. induction grades as [|g grades IH]; intros acc; [reflexivity|].
  cbn [fold_left columnScores map]. rewrite add_scoreOrZero. apply IH.
Qed.

(** The footer of the report view: the mean over all subjects, a subject
    without a score counting as 0. *)
Lemma periodAvg_meanOverAll (grades : list Obj) (p : Period) :
  grades <> [] ->
  Report.periodAvg grades p = meanOverAll (columnScores grades (id p)).
Proof.
  intros Hg. unfold Report.periodAvg, Report.periodTotal, meanOverAll, JS.sum.
  destruct grades as [|g grades]; [done|].
  cbn [List.length Nat.ltb Nat.leb]. rewrite periodTotal_sum.
  unfold columnScores. rewrite length_map. reflexivity.
Qed.

(** C2, as amended.  In the footer of the report view (buildTableFooter)
    the average of a period is the sum of all subjects' scores for it,
    a missing or non-numeric score counting as 0, divided by the number of
    subjects.  In the footer of the student view (setFooter) the average of
    a score column is the sum of the scores present divided by the number
    of scores present, and a dash when there is none.  For two subjects
    whose p1 scores are 100 and 0 both give 50. *)
Theorem class_average_paths (grades : list Obj) (p : Period) (key : string) :
  grades <> [] ->
  key ∈ scoreKeys ->
  Report.periodAvg grades p = meanOverAll (columnScores grades (id p))
  /\ Student.footerCell grades key
     = Some match meanOfPresent (columnScores grades key) with
            | Some m => Fixed 1 m
            | None => Dash
            end
  /\ Report.periodAvg hundredAndZero P1 = JS.Fin 50
  /\ Student.footerCell hundredAndZero "p1" = Some (Fixed 1 (JS.Fin 50)).
Proof.
  intros Hg Hkey. split; [now apply periodAvg_meanOverAll|].
  split; [now apply footerCell_mean|].
  split; [reflexivity|]. rewrite footerCell_mean; [reflexivity|discriminate|compute_done].
Qed.

Lemma class_average_paths_witness :
  Report.periodAvg halfEntered P1 = meanOverAll (columnScores halfEntered (id P1))
  /\ Student.footerCell halfEntered "p1"
     = Some match meanOfPresent (columnScores halfEntered "p1") with
            | Some m => Fixed 1 m
            | None => Dash
            end
  /\ Report.periodAvg hundredAndZero P1 = JS.Fin 50
  /\ Student.footerCell hundredAndZero "p1" = Some (Fixed 1 (JS.Fin 50)).
Proof.
  apply (class_average_paths halfEntered P1 "p1").
  - discriminate.
  - apply list_elem_of_here.
Defined.

(** The student view does not divide by the number of subjects: with p1
    scores 100 and none, its footer shows 100 where the mean over both
    subjects is 50. *)
Lemma student_footer_skips_absent :
  Student.footerCell halfEntered "p1" = Some (Fixed 1 (JS.Fin 100))
  /\ meanOverAll (columnScores halfEntered "p1") = JS.Fin 50
  /\ Student.footerCell halfEntered "p1"
     <> Some (Fixed 1 (meanOverAll (columnScores halfEntered "p1"))).
Proof.
  assert (H : Student.footerCell halfEntered "p1" = Some (Fixed 1 (JS.Fin 100))).
  { rewrite footerCell_mean; [reflexivity|discriminate|compute_done]. }
  split; [exact H|]. split; [reflexivity|]. rewrite H. discriminate.
Qed.

(** ** Semester and final averages *)

Lemma filter_valid_present (vals : list JS.Val) :
  List.filter (fun v => negb (JS.isNaN v)) (map JS.parseFloat vals)
  = omap (fun o : option JS.Num => o) (map presentScore vals).
Proof.
  induction vals as [|v vals IH]; [reflexivity|].
  cbn [map List.filter]. unfold presentScore at 1.
  destruct (JS.isNaN (JS.parseFloat v)); cbn [negb]; simpl; rewrite IH; reflexivity.
Qed.

Lemma calculateAvg_meanOfPresent (vals : list JS.Val) :
  Student.calculateAvg (map JS.parseFloat vals) = meanOfPresent (map presentScore vals).
Proof.
  unfold Student.calculateAvg, meanOfPresent. rewrite filter_valid_present.
  destruct (omap (fun o : option JS.Num => o) (map presentScore vals)); reflexivity.
Qed.

Lemma avg1_meanOfPresent (grade : Obj) :
  Student.avg1 (Student.rowOf grade) = meanOfPresent (subjectScores grade firstSemIds).
Proof.
  exact (calculateAvg_meanOfPresent (map (get grade) firstSemIds)).
Qed.

Lemma avg2_meanOfPresent (grade : Obj) :
  Student.avg2 (Student.rowOf grade) = meanOfPresent (subjectScores grade secondSemIds).
Proof.
  exact (calculateAvg_meanOfPresent (map (get grade) secondSemIds)).
Qed.

(** C5. In the student view the semester average of a subject is the mean
    of the scores present among the semester's four columns: an absent or
    non-numeric entry adds nothing to the sum and nothing to the count.
    When none is present the average is null and its cell shows a dash,
    not 0. *)
Theorem student_semester_average (grade : Obj) :
  Student.avg1 (Student.rowOf grade) = meanOfPresent (subjectScores grade firstSemIds)
  /\ Student.avg2 (Student.rowOf grade) = meanOfPresent (subjectScores grade secondSemIds)
  /\ Student.avgCell (Student.avg1 (Student.rowOf grade))
     = match meanOfPresent (subjectScores grade firstSemIds) with
       | Some m => Fixed 1 m
       | None => Dash
       end
  /\ Student.avgCell (Student.avg2 (Student.rowOf grade))
     = match meanOfPresent (subjectScores grade secondSemIds) with
       | Some m => Fixed 1 m
       | None => Dash
       end
  /\ Student.avg1 (Student.rowOf firstSemesterOnly) = Some (JS.Fin 85)
  /\ Student.avgCell (Student.avg1 (Student.rowOf nothingEntered)) = Dash
  /\ Student.avgCell (Student.avg1 (Student.rowOf nothingEntered)) <> Fixed 1 (JS.Fin 0).
Proof.
  rewrite avg1_meanOfPresent, avg2_meanOfPresent.
  repeat split; try reflexivity; try discriminate.
Qed.

Lemma div_zero_ofNat (n : nat) : JS.div (JS.Fin 0) (JS.ofNat (S n)) = JS.Fin 0.
Proof.
  unfold JS.div, JS.ofNat, JS.ofZ.
  destruct (Qeq_bool (inject_Z (Z.of_nat (S n))) 0) eqn:E.
  - apply Qeq_bool_iff in E. unfold Qeq in E. simpl in E. lia.
  - reflexivity.
Qed.

Lemma sum_zeroes (xs : list JS.Num) :
  Forall (fun x => x = JS.Fin 0) xs -> JS.sum xs = JS.Fin 0.
Proof.
  unfold JS.sum. induction 1 as [|x xs -> _ IH]; [reflexivity|]. exact IH.
Qed.

(** A group in which the subject has no score averages to 0 in the report
    view. *)
Lemma semesterAvg_nothing (grade : Obj) (ps : list Period) :
  Forall (fun p => presentScore (get grade (id p)) = None) ps ->
  Report.semesterAvg grade ps = JS.Fin 0.
Proof.
  intros H. unfold Report.semesterAvg, Report.meanOrZero. rewrite length_map.
  destruct ps as [|p ps]; [reflexivity|].
  cbn [List.length Nat.ltb Nat.leb]. rewrite sum_zeroes; [apply div_zero_ofNat|].
  apply List.Forall_map. eapply List.Forall_impl; [|exact H].
  intros q Hq. unfold Report.scoreOrZero. unfold presentScore in Hq.
  destruct (JS.parseFloat (get grade (id q))); try discriminate. reflexivity.
Qed.

(** A semester with none of its periods in the registry averages to 0 in
    the admin form. *)
Lemma semAvg_no_periods (ids : list string) (f : Form) (ps : list Period) :
  Admin.semPeriods ids ps = [] -> Admin.semAvg ids f ps = JS.Fin 0.
Proof. intros H. unfold Admin.semAvg. rewrite H. reflexivity. Qed.

Lemma div_reduced (a b : JS.Num) : reduced (JS.div a b).
Proof.
  destruct a as [| | |x], b as [| | |y]; simpl; try exact I; try reflexivity;
    try (destruct (Qle_bool 0 y); exact I).
  destruct (Qeq_bool y 0).
  - destruct (Qeq_bool x 0); [exact I|]. destruct (Qle_bool 0 x); exact I.
  - simpl. apply Qred_involutive.
Qed.

Lemma meanOrZero_reduced (xs : list JS.Num) : reduced (Report.meanOrZero xs).
Proof.
  unfold Report.meanOrZero. destruct (0 <? List.length xs)%nat.
  - apply div_reduced.
  - reflexivity.
Qed.

Lemma add_zero_l (x : JS.Num) : reduced x -> JS.add (JS.Fin 0) x = x.
Proof.
  destruct x as [| | |q]; simpl; try reflexivity.
  intros H. f_equal. rewrite <- H at 2. apply Qred_complete. apply Qplus_0_l.
Qed.

Lemma add_zero_r (x : JS.Num) : reduced x -> JS.add x (JS.Fin 0) = x.
Proof.
  destruct x as [| | |q]; simpl; try reflexivity.
  intros H. f_equal. rewrite <- H at 2. apply Qred_complete. apply Qplus_0_r.
Qed.

Lemma div_one (x : JS.Num) : reduced x -> JS.div x (JS.ofZ 1) = x.
Proof.
  destruct x as [| | |q]; simpl; try reflexivity.
  intros H. f_equal. rewrite <- H at 2. apply Qred_complete.
  unfold Qdiv. change (/ inject_Z 1)%Q with 1%Q. apply Qmult_1_r.
Qed.

Lemma semAvg_reduced (ids : list string) (f : Form) (ps : list Period) :
  reduced (Admin.semAvg ids f ps).
Proof.
  unfold Admin.semAvg. destruct (0 <? List.length (Admin.semPeriods ids ps))%nat.
  - apply div_reduced.
  - reflexivity.
Qed.

(** C3, as amended.  In the student view (renderGradeTable) the final
    average of a subject is the mean of its two semester averages when
    both semesters have a score, the average of the one semester that has
    scores when only one does (not divided by 2), and null when neither
    does.  The admin form (calculateAndDisplayAverages) always shows
    (sem1Avg + sem2Avg) / 2, so with none of the second semester's periods
    in the registry it shows half the first semester's average.  The
    report view (buildTableBody) divides the sum of the averages of all
    groups by the number of groups: with one group the final average is
    that group's average, with two groups of which the second holds no
    score of the subject it is half the first group's average. *)
Theorem final_average_paths (grade : Obj) (f : Form) (ps s1 s2 : list Period) :
  Admin.semPeriods secondSemIds ps = [] ->
  Forall (fun p => presentScore (get grade (id p)) = None) s2 ->
  Student.yearly (Student.rowOf grade)
  = match meanOfPresent (subjectScores grade firstSemIds),
          meanOfPresent (subjectScores grade secondSemIds) with
    | Some a1, Some a2 => Some (JS.div (JS.add a1 a2) (JS.ofZ 2))
    | Some a1, None => Some a1
    | None, Some a2 => Some a2
    | None, None => None
    end
  /\ Admin.finalAvg f ps = JS.div (Admin.sem1Avg f ps) (JS.ofZ 2)
  /\ Report.finalAvg grade [s1] = Report.semesterAvg grade s1
  /\ Report.finalAvg grade [s1; s2] = JS.div (Report.semesterAvg grade s1) (JS.ofZ 2).
Proof.
  intros Hps Hs2. split; [|split; [|split]].
  - change (Student.yearly (Student.rowOf grade))
      with (Student.yearlyOf (Student.avg1 (Student.rowOf grade))
                             (Student.avg2 (Student.rowOf grade))).
    rewrite avg1_meanOfPresent, avg2_meanOfPresent. reflexivity.
  - unfold Admin.finalAvg, Admin.sem2Avg. rewrite semAvg_no_periods by exact Hps.
    rewrite add_zero_r by apply semAvg_reduced. reflexivity.
  - unfold Report.finalAvg, Report.semesterAverages, Report.meanOrZero at 1, JS.sum.
    cbn [map List.length Nat.ltb Nat.leb fold_left].
    rewrite add_zero_l by apply meanOrZero_reduced.
    apply div_one, meanOrZero_reduced.
  - unfold Report.finalAvg, Report.semesterAverages, Report.meanOrZero at 1, JS.sum.
    cbn [map List.length Nat.ltb Nat.leb fold_left].
    rewrite (semesterAvg_nothing grade s2 Hs2).
    rewrite add_zero_l by apply meanOrZero_reduced.
    rewrite add_zero_r by apply meanOrZero_reduced. reflexivity.
Qed.

Lemma final_average_paths_witness :
  Student.yearly (Student.rowOf firstSemesterOnly)
  = match meanOfPresent (subjectScores firstSemesterOnly firstSemIds),
          meanOfPresent (subjectScores firstSemesterOnly secondSemIds) with
    | Some a1, Some a2 => Some (JS.div (JS.add a1 a2) (JS.ofZ 2))
    | Some a1, None => Some a1
    | None, Some a2 => Some a2
    | None, None => None
    end
  /\ Admin.finalAvg oneScoreForm [P1] = JS.div (Admin.sem1Avg oneScoreForm [P1]) (JS.ofZ 2)
  /\ Report.finalAvg firstSemesterOnly [[P1; P3]]
     = Report.semesterAvg firstSemesterOnly [P1; P3]
  /\ Report.finalAvg firstSemesterOnly [[P1; P3]; [P4]]
     = JS.div (Report.semesterAvg firstSemesterOnly [P1; P3]) (JS.ofZ 2).
Proof.
  apply (final_average_paths firstSemesterOnly oneScoreForm [P1] [P1; P3] [P4]).
  - reflexivity.
  - repeat constructor.
Defined.

(** In the admin form a registry holding p1 alone, scored 80 by the one
    subject, has a first-semester average of 80, no second semester, and a
    final average of 40.  In the report view a subject with every score
    but the second exam's has 75 in the first group, nothing in the second
    group, and a final average of 37.5. *)
Lemma final_average_halved :
  Admin.semPeriods secondSemIds [P1] = []
  /\ Admin.sem1Avg oneScoreForm [P1] = JS.Fin 80
  /\ Admin.finalAvg oneScoreForm [P1] = JS.Fin 40
  /\ Admin.finalAvg oneScoreForm [P1] <> Admin.sem1Avg oneScoreForm [P1]
  /\ Report.groupsOf (Report.sortPeriods eightPeriods)
     = [[P1; P2; P3; P4; P5; P6; E1]; [E2]]
  /\ subjectScores noSecondExam ["exam2"] = [None]
  /\ Report.semesterAvg noSecondExam [P1; P2; P3; P4; P5; P6; E1] = JS.Fin 75
  /\ Report.finalAvg noSecondExam (Report.groupsOf (Report.sortPeriods eightPeriods))
     = JS.Fin (75 # 2).
Proof.
  assert (H1 : Admin.sem1Avg oneScoreForm [P1] = JS.Fin 80) by (vm_compute; reflexivity).
  assert (H2 : Admin.finalAvg oneScoreForm [P1] = JS.Fin 40) by (vm_compute; reflexivity).
  split; [reflexivity|]. split; [exact H1|]. split; [exact H2|].
  split; [rewrite H1, H2; discriminate|].
  repeat split; vm_compute; reflexivity.
Qed.

(** ** The period registry *)





Lemma existsb_id_false (x : string) (ps : list Period) :
  existsb (fun p => String.eqb (id p) x) ps = false -> ~ In x (map id ps).
Proof.
  intros H Hin. apply in_map_iff in Hin. destruct Hin as (p & Hp & Hin).
  assert (Ht : existsb (fun p => String.eqb (id p) x) ps = true).
  { apply existsb_exists. exists p. split; [exact Hin|]. now apply String.eqb_eq. }
  congruence.
Qed.






(** C6. The registry does not always retain a period.  [removePeriod]
    guards against emptying the registry (lines 492-495) and [addPeriod]
    replaces a sequential id that is already taken (line 486), but the
    replacement id is not checked in its turn: two periods added in the
    same millisecond, after p1 and p2 were removed from the default
    registry, both get the id period_1700000000000.  Once the other
    entries are removed the registry holds these two, the guard sees a
    length of 2, and removing that id leaves the registry empty. *)
Theorem registry_emptied_by_equal_timestamps :
  Admin.activePeriods Admin.loaded <> []
  /\ map id (Admin.activePeriods (Admin.run (firstn 12 sameMillisecond) Admin.loaded))
     = ["period_1700000000000"; "period_1700000000000"]
  /\ Admin.activePeriods (Admin.run sameMillisecond Admin.loaded) = []
  /\ Admin.alerts (Admin.run sameMillisecond Admin.loaded) = [].
Proof.
  split; [discriminate|]. repeat split; vm_compute; reflexivity.
Qed.

(** ** Deriving the registry from stored grades *)

Lemma periodOfKey_id_kind (key : string) :
  id (Admin.periodOfKey key) = key /\ type (Admin.periodOfKey key) = kindOfKey key.
Proof. split; reflexivity. Qed.

Lemma isPeriodKey_known (key : string) :
  AdminRev.isPeriodKey key = false <-> In key knownKeys.
Proof.
  unfold AdminRev.isPeriodKey, knownKeys. simpl.
  destruct (String.eqb_spec key "subject") as [->|H1]; [simpl; tauto|].
  destruct (String.eqb_spec key "comment") as [->|H2]; [simpl; tauto|].
  destruct (String.eqb_spec key "_id") as [->|H3]; [simpl; tauto|].
  destruct (String.eqb_spec key "__v") as [->|H4]; [simpl; tauto|].
  simpl. split; [discriminate|]. intros [H|[H|[H|[H|[]]]]]; congruence.
Qed.

(** What the second listing derives: one period per key that is not a
    known key, in the order of the keys, or the ten default periods. *)
Lemma setActivePeriodsFromGrades_rev (first : Obj) (rest : list Obj) :
  AdminRev.setActivePeriodsFromGrades (first :: rest)
  = match List.filter AdminRev.isPeriodKey (keys first) with
    | [] => Admin.getDefaultPeriods
    | ks => map Admin.periodOfKey ks
    end.
Proof.
  unfold AdminRev.setActivePeriodsFromGrades, Admin.setActivePeriodsFromGradesWith.
  destruct (List.filter AdminRev.isPeriodKey (keys first)); reflexivity.
Qed.

(** C8. The first listing of admin.js skips the key [subject] only: a
    stored subject with a comment yields a period named comment.  The
    second listing skips subject, comment, _id and __v, makes one period
    per remaining key with the type its prefix gives, and falls back to
    the ten default periods when no key remains. *)
Theorem setActivePeriodsFromGrades_known_keys :
  Admin.setActivePeriodsFromGrades commented
    = [ mkPeriod "comment" "comment" period;
        mkPeriod "p1" "1st Period" period; mkPeriod "exam1" "1st Semester" exam ]
  /\ AdminRev.setActivePeriodsFromGrades commented
    = [ mkPeriod "p1" "1st Period" period; mkPeriod "exam1" "1st Semester" exam ]
  /\ (forall key, AdminRev.isPeriodKey key = false <-> In key knownKeys)
  /\ (forall first rest,
        map id (AdminRev.setActivePeriodsFromGrades (first :: rest))
        = match List.filter AdminRev.isPeriodKey (keys first) with
          | [] => map id Admin.getDefaultPeriods
          | ks => ks
          end)
  /\ (forall grades,
        Forall (fun p => type p = kindOfKey (id p))
               (AdminRev.setActivePeriodsFromGrades grades))
  /\ AdminRev.setActivePeriodsFromGrades noScores = Admin.getDefaultPeriods
  /\ AdminRev.setActivePeriodsFromGrades [] = Admin.getDefaultPeriods
  /\ map id Admin.getDefaultPeriods
    = ["p1"; "p2"; "p3"; "exam1"; "sem1"; "p4"; "p5"; "p6"; "exam2"; "sem2"].
Proof.
  split; [reflexivity|]. split; [reflexivity|]. split; [exact isPeriodKey_known|].
  split; [|split; [|repeat split; reflexivity]].
  - intros first rest. rewrite setActivePeriodsFromGrades_rev.
    destruct (List.filter AdminRev.isPeriodKey (keys first)) as [|k ks]; [reflexivity|].
    rewrite map_map. apply map_id.
  - intros [|first rest].
    + repeat constructor.
    + rewrite setActivePeriodsFromGrades_rev.
      destruct (List.filter AdminRev.isPeriodKey (keys first)) as [|k ks].
      * repeat constructor.
      * apply List.Forall_map. apply List.Forall_forall. intros key _. reflexivity.
Qed.

(** ** Reading score inputs *)

Lemma get_set (o : Obj) (k k' : string) (v : JS.Val) :
  get (set o k v) k' = if String.eqb k k' then v else get o k'.
Proof.
  induction o as [|[k0 v0] o IH]; simpl.
  - destruct (String.eqb k k'); reflexivity.
  - destruct (String.eqb_spec k0 k) as [->|Hne]; simpl.
    + destruct (String.eqb k k'); reflexivity.
    + rewrite IH. destruct (String.eqb_spec k0 k') as [->|Hne'];
        [|reflexivity].
      destruct (String.eqb_spec k k') as [->|_]; [congruence|reflexivity].
Qed.

(** What [collectCurrentGrades] keeps for a period of the registry: the
    number read from the input, or the default when the input is missing,
    not numeric, or 0. *)
Lemma collectGrade_stores (dflt : JS.Num) (f : Form) (ps : list Period)
    (subjectId : nat) (subjectName : string) (p : Period) :
  In p ps ->
  get (Admin.collectGrade dflt f ps subjectId subjectName) (id p)
  = JS.VNum (JS.or_else (parseInput (scoreInput f subjectId (id p))) dflt).
Proof.
  unfold Admin.collectGrade.
  generalize [("subject", JS.VStr (trim subjectName))].
  induction ps as [|q ps IH] using rev_ind; intros o Hin; [destruct Hin|].
  rewrite fold_left_app. cbn [fold_left]. rewrite get_set.
  destruct (String.eqb_spec (id q) (id p)) as [->|Hne]; [reflexivity|].
  apply in_app_or in Hin. destruct Hin as [Hin|[->|[]]]; [now apply IH|congruence].
Qed.

(** C4. Reading a score never fails, but a score of 0 is not kept by the
    placeholder path: [collectCurrentGrades] stores 90 for an input that
    holds the text 0, because [parseFloat(...) || 90] takes the default for
    every falsy number, not only for NaN.  The submit handler stores 0. *)
Theorem collectCurrentGrades_zero_score :
  JS.parseFloatStr "0" = JS.Fin 0
  /\ Admin.collectCurrentGrades zeroScoreForm [P1]
     = [ [ ("subject", JS.VStr "Math"); ("p1", JS.VNum (JS.ofZ 90)) ] ]
  /\ Admin.collectCurrentGrades zeroScoreForm [P1]
     <> [ [ ("subject", JS.VStr "Math"); ("p1", JS.VNum (JS.Fin 0)) ] ]
  /\ Admin.submitGrades zeroScoreForm ["p1"]
     = [ [ ("subject", JS.VStr "Math"); ("p1", JS.VNum (JS.Fin 0)) ] ]
  /\ (forall (input : option string) (dflt : JS.Num),
        JS.or_else (parseInput input) dflt
        = match parseInput input with
          | JS.NaN => dflt
          | JS.Fin q => if Qeq_bool q 0 then dflt else JS.Fin q
          | n => n
          end).
Proof.
  split; [reflexivity|]. split; [reflexivity|]. split; [discriminate|].
  split; [reflexivity|].
  intros input dflt. unfold JS.or_else.
  destruct (parseInput input) as [| | |q]; try reflexivity.
  simpl. destruct (Qeq_bool q 0); reflexivity.
Qed.

(** * Further properties of the admin form *)

Lemma to_uint_nonnil (n : nat) : Nat.to_uint n <> Decimal.Nil.
Proof.
  rewrite <- (DecimalNat.Unsigned.of_to n) at 1.
  rewrite DecimalNat.Unsigned.to_of. apply DecimalFacts.unorm_nonnil.
Qed.

Lemma showNat_inj (n m : nat) : showNat n = showNat m -> n = m.
Proof.
  unfold showNat. intros H. apply DecimalNat.Unsigned.to_uint_inj.
  assert (Hn := NilZero.usu _ (to_uint_nonnil n)).
  assert (Hm := NilZero.usu _ (to_uint_nonnil m)).
  rewrite H in Hn. congruence.
Qed.

Lemma countOf_app_period (ps : list Period) (p : Period) :
  type p = period ->
  Admin.countOf period (ps ++ [p]) = S (Admin.countOf period ps).
Proof.
  intros Hp. unfold Admin.countOf. rewrite List.filter_app, length_app.
  simpl. rewrite Hp. simpl. lia.
Qed.

Lemma existsb_id_true (x : string) (ps : list Period) :
  existsb (fun p => String.eqb (id p) x) ps = true -> In x (map id ps).
Proof.
  intros H. apply existsb_exists in H. destruct H as (p & Hp & He).
  apply String.eqb_eq in He. subst x. now apply in_map.
Qed.

(** One click on the add-regular-period button, on a registry in order. *)
Lemma addPeriod_in_order (ps : list Period) (al : list string) (nm : string) (now : Z) :
  periodsInOrder ps ->
  Admin.addPeriod period nm now (Admin.mkState ps al)
  = Admin.mkState (ps ++ [nthPeriod (Admin.countOf period ps) nm]) al
  /\ periodsInOrder (ps ++ [nthPeriod (Admin.countOf period ps) nm]).
Proof.
  intros Hord. unfold Admin.addPeriod. cbn [Admin.activePeriods Admin.alerts].
  destruct (existsb _ ps) eqn:E.
  - exfalso. apply existsb_id_true in E. revert E. apply Hord. apply Nat.le_refl.
  - split; [reflexivity|].
    intros j Hj Hin. rewrite countOf_app_period in Hj by reflexivity.
    rewrite map_app in Hin. apply in_app_or in Hin. destruct Hin as [Hin|[Hin|[]]].
    + revert Hin. apply Hord. lia.
    + cbn [nthPeriod id] in Hin. injection Hin as Hin. apply showNat_inj in Hin. lia.
Qed.

Lemma loaded_in_order : periodsInOrder Admin.getDefaultPeriods.
Proof.
  intros j Hj Hin. change (Admin.countOf period Admin.getDefaultPeriods) with 7%nat in Hj.
  cbn [map Admin.getDefaultPeriods id In] in Hin.
  repeat (destruct Hin as [Hin|Hin];
          [ first [ discriminate Hin
                  | injection Hin as Hin;
                    first [ apply (showNat_inj 1) in Hin
                          | apply (showNat_inj 2) in Hin
                          | apply (showNat_inj 3) in Hin
                          | apply (showNat_inj 4) in Hin
                          | apply (showNat_inj 5) in Hin
                          | apply (showNat_inj 6) in Hin ]; lia ] | ]).
  exact Hin.
Qed.

(** X1. Regular periods added one after the other to a registry in which
    no id [p<j>] beyond the current count is taken (the empty and the
    default registries are such) are appended in order with the next ids
    in sequence, whatever the clock says: the timestamp id is never used,
    nothing already in the registry changes and no warning is shown. *)
Theorem addPeriod_sequence (ps : list Period) (al : list string)
    (clicks : list (string * Z)) :
  periodsInOrder ps ->
  Admin.run (periodClicks clicks) (Admin.mkState ps al)
  = Admin.mkState (ps ++ numbered (Admin.countOf period ps) (map fst clicks)) al.
Proof.
  revert ps al. induction clicks as [|[nm now] clicks IH]; intros ps al Hord.
  - simpl. rewrite app_nil_r. reflexivity.
  - unfold Admin.run, periodClicks. cbn [map fold_left Admin.step fst snd].
    destruct (addPeriod_in_order ps al nm now Hord) as [-> Hord'].
    fold (periodClicks clicks). fold (Admin.run (periodClicks clicks)).
    rewrite IH by exact Hord'. rewrite countOf_app_period by reflexivity.
    cbn [numbered]. rewrite <- app_assoc. reflexivity.
Qed.

Lemma addPeriod_sequence_witness :
  Admin.run (periodClicks [("", 5%Z); ("Midterm", 5%Z)]) (Admin.mkState Admin.getDefaultPeriods [])
  = Admin.mkState
      (Admin.getDefaultPeriods
         ++ numbered (Admin.countOf period Admin.getDefaultPeriods)
                     (map fst [("", 5%Z); ("Midterm", 5%Z)])) [].
Proof.
  apply (addPeriod_sequence Admin.getDefaultPeriods [] [("", 5%Z); ("Midterm", 5%Z)]).
  exact loaded_in_order.
Defined.

Lemma filter_id_absent (x : string) (ps : list Period) :
  ~ In x (map id ps) ->
  List.filter (fun p => negb (String.eqb (id p) x)) ps = ps.
Proof.
  induction ps as [|p ps IH]; intros H; [reflexivity|]. simpl in *.
  destruct (String.eqb_spec (id p) x) as [E|E]; [tauto|].
  simpl. f_equal. apply IH. tauto.
Qed.

Lemma filter_id_twice (x : string) (ps : list Period) :
  let keep := fun p => negb (String.eqb (id p) x) in
  List.filter keep (List.filter keep ps) = List.filter keep ps.
Proof.
  cbn zeta. induction ps as [|p ps IH]; [reflexivity|]. simpl.
  destruct (negb (String.eqb (id p) x)) eqn:E; [|exact IH].
  simpl. rewrite E, IH. reflexivity.
Qed.

(** X2. Removing the same id twice leaves the registry as the first
    removal left it, whatever the registry holds. *)
Theorem removePeriod_twice (periodId : string) (st : Admin.State) :
  Admin.activePeriods (Admin.removePeriod periodId (Admin.removePeriod periodId st))
  = Admin.activePeriods (Admin.removePeriod periodId st).
Proof.
  destruct (List.length (Admin.activePeriods st) <=? 1)%nat eqn:E.
  - assert (H : Admin.removePeriod periodId st
                = Admin.mkState (Admin.activePeriods st) (Admin.alerts st ++ [warning]))
      by (unfold Admin.removePeriod; rewrite E; reflexivity).
    rewrite H. unfold Admin.removePeriod. cbn [Admin.activePeriods].
    rewrite E. reflexivity.
  - assert (H : Admin.removePeriod periodId st
                = Admin.mkState
                    (List.filter (fun p => negb (String.eqb (id p) periodId))
                                 (Admin.activePeriods st))
                    (Admin.alerts st))
      by (unfold Admin.removePeriod; rewrite E; reflexivity).
    rewrite H. clear H E. unfold Admin.removePeriod.
    cbn [Admin.activePeriods Admin.alerts].
    destruct (List.length (List.filter _ (Admin.activePeriods st)) <=? 1)%nat;
      cbn [Admin.activePeriods]; [reflexivity|].
    apply filter_id_twice.
Qed.

(** X3. A period added to a registry that is not empty can be taken out
    again: removing the id [addPeriod] gave it restores the registry,
    provided the timestamp id was not already in use. *)
Theorem addPeriod_then_removePeriod (kind : PeriodType) (customName : string)
    (now : Z) (st : Admin.State) :
  Admin.activePeriods st <> [] ->
  ~ In (Admin.timestampId kind now) (map id (Admin.activePeriods st)) ->
  Admin.activePeriods
    (Admin.removePeriod (addedId kind now (Admin.activePeriods st))
                        (Admin.addPeriod kind customName now st))
  = Admin.activePeriods st.
Proof.
  intros Hne Hfresh.
  assert (Hnew : ~ In (addedId kind now (Admin.activePeriods st))
                      (map id (Admin.activePeriods st))).
  { unfold addedId. destruct (existsb _ (Admin.activePeriods st)) eqn:E; [exact Hfresh|].
    now apply existsb_id_false. }
  unfold Admin.removePeriod, Admin.addPeriod. cbn [Admin.activePeriods Admin.alerts].
  fold (addedId kind now (Admin.activePeriods st)).
  assert (Hlen : (List.length (Admin.activePeriods st) + 1 <=? 1)%nat = false).
  { apply Nat.leb_gt. destruct (Admin.activePeriods st); [congruence|simpl; lia]. }
  rewrite length_app. cbn [List.length]. rewrite Hlen.
  cbn [Admin.activePeriods]. rewrite List.filter_app.
  rewrite (filter_id_absent _ _ Hnew). cbn [List.filter id].
  rewrite String.eqb_refl. cbn [negb]. apply app_nil_r.
Qed.

Lemma addPeriod_then_removePeriod_witness :
  Admin.activePeriods
    (Admin.removePeriod (addedId exam 1700000000000 (Admin.activePeriods Admin.loaded))
                        (Admin.addPeriod exam "Finals" 1700000000000 Admin.loaded))
  = Admin.activePeriods Admin.loaded.
Proof.
  apply (addPeriod_then_removePeriod exam "Finals" 1700000000000 Admin.loaded).
  - discriminate.
  - not_among.
Defined.

Lemma field_insert (m : gmap string JS.Num) (k k' : string) (v : JS.Num) :
  field (<[k := v]> m) k' = if String.eqb k k' then v else field m k'.
Proof.
  unfold field. destruct (String.eqb_spec k k') as [->|Hne].
  - now rewrite lookup_insert_eq.
  - now rewrite lookup_insert_ne.
Qed.

Lemma initTotals_field (ps : list Period) (k : string) :
  In k (map id ps) -> field (Admin.initTotals ps) k = JS.Fin 0.
Proof.
  unfold Admin.initTotals. generalize (∅ : gmap string JS.Num).
  induction ps as [|p ps IH] using rev_ind; intros m Hin; [destruct Hin|].
  rewrite fold_left_app. cbn [fold_left]. rewrite field_insert.
  destruct (String.eqb_spec (id p) k) as [E|E]; [reflexivity|].
  apply IH. rewrite map_app in Hin. apply in_app_or in Hin.
  destruct Hin as [Hin|[Hin|[]]]; [exact Hin|contradiction].
Qed.

(** One pass of the inner loop: the total of a period of the registry
    grows by the score found in the subject's box, if there is a box. *)
Lemma addScores_field (f : Form) (i : nat) (k : string) (ps : list Period) :
  List.NoDup (map id ps) -> In k (map id ps) ->
  forall totals : gmap string JS.Num,
    field (Admin.addScores f ps totals i) k
    = match scoreInput f i k with
      | Some value =>
          JS.add (field totals k) (JS.or_else (JS.parseFloatStr value) (JS.Fin 0))
      | None => field totals k
      end.
Proof.
  unfold Admin.addScores.
  induction ps as [|p ps IH]; intros Hnd Hin totals; [destruct Hin|].
  cbn [map] in Hnd, Hin. apply List.NoDup_cons_iff in Hnd. destruct Hnd as [Hp Hnd].
  cbn [fold_left]. destruct Hin as [<-|Hin].
  - (* the period itself: the rest of the loop leaves its total alone *)
    assert (Hrest : forall m : gmap string JS.Num,
               field (fold_left
                        (fun totals0 p0 =>
                           match scoreInput f i (id p0) with
                           | Some value =>
                               <[id p0 := JS.add (field totals0 (id p0))
                                            (JS.or_else (JS.parseFloatStr value) (JS.Fin 0))]>
                                 totals0
                           | None => totals0
                           end) ps m) (id p)
               = field m (id p)).
    { clear IH Hnd. induction ps as [|q ps IHps]; intros m; [reflexivity|].
      cbn [fold_left]. rewrite IHps by (cbn [map In] in Hp; tauto).
      destruct (scoreInput f i (id q)); [|reflexivity].
      rewrite field_insert. destruct (String.eqb_spec (id q) (id p)) as [E|E];
        [|reflexivity].
      exfalso. apply Hp. left. exact E. }
    rewrite Hrest. destruct (scoreInput f i (id p)); [|reflexivity].
    rewrite field_insert, String.eqb_refl. reflexivity.
  - rewrite (IH Hnd Hin). destruct (scoreInput f i (id p)) eqn:Ep; [|reflexivity].
    rewrite field_insert. destruct (String.eqb_spec (id p) k) as [E|E]; [|reflexivity].
    exfalso. apply Hp. rewrite E. exact Hin.
Qed.

Lemma fold_addScores_field (f : Form) (k : string) (ps : list Period) (rowIds : list nat) :
  List.NoDup (map id ps) -> In k (map id ps) ->
  forall totals : gmap string JS.Num,
    field (fold_left (Admin.addScores f ps) rowIds totals) k
    = fold_left JS.add
        (flat_map (fun i => match scoreInput f i k with
                            | Some value =>
                                [JS.or_else (JS.parseFloatStr value) (JS.Fin 0)]
                            | None => []
                            end) rowIds)
        (field totals k).
Proof.
  intros Hnd Hin. induction rowIds as [|i rowIds IH]; intros totals; [reflexivity|].
  cbn [fold_left flat_map]. rewrite fold_left_app, IH, addScores_field by assumption.
  destruct (scoreInput f i k); reflexivity.
Qed.

(** The average of a period is the sum of the scores in its boxes over
    the number of subject rows. *)
Lemma periodAverage_sum (f : Form) (ps : list Period) (p : Period) :
  List.NoDup (map id ps) ->
  In p ps ->
  Admin.periodAverage f ps p
  = JS.div (JS.sum (enteredScores f (subjectRows f) (id p))) (JS.ofNat (subjectRows f)).
Proof.
  intros Hnd Hin.
  assert (En : Admin.numSubjects f = subjectRows f).
  { unfold Admin.numSubjects, subjectRows.
    destruct (List.length (subjectNames f)) as [|n]; [reflexivity|].
    cbn [Nat.eqb]. lia. }
  unfold Admin.periodAverage, Admin.totalsOf, JS.sum, enteredScores.
  assert (Hk : In (id p) (map id ps)) by now apply in_map.
  rewrite fold_addScores_field by assumption.
  rewrite initTotals_field by assumption. rewrite En. reflexivity.
Qed.

Lemma avg_id_inj (a b : string) : ("avg-" ++ a = "avg-" ++ b)%string -> a = b.
Proof. intros E. cbv [String.append] in E. congruence. Qed.

(** The writes of lines 116-119 leave an element alone when no period
    has its id. *)
Lemma boxes_other (g : Period -> JS.Num) (k : string) (ps : list Period) :
  ~ In k (map id ps) ->
  forall page : gmap string JS.Num,
    fold_left (fun page p => <[("avg-" ++ id p)%string := g p]> page) ps page
      !! ("avg-" ++ k)%string
    = page !! ("avg-" ++ k)%string.
Proof.
  induction ps as [|q ps IH]; intros Hk page; [reflexivity|].
  cbn [fold_left]. rewrite IH by (cbn [map In] in Hk; tauto).
  apply lookup_insert_ne. intros E. apply avg_id_inj in E.
  apply Hk. left. exact E.
Qed.

Lemma boxes_lookup (g : Period -> JS.Num) (p : Period) (ps : list Period) :
  List.NoDup (map id ps) ->
  In p ps ->
  forall page : gmap string JS.Num,
    fold_left (fun page p => <[("avg-" ++ id p)%string := g p]> page) ps page
      !! ("avg-" ++ id p)%string
    = Some (g p).
Proof.
  induction ps as [|q ps IH]; intros Hnd Hin page; [destruct Hin|].
  cbn [map] in Hnd. apply List.NoDup_cons_iff in Hnd. destruct Hnd as [Hq Hnd].
  cbn [fold_left]. destruct Hin as [->|Hin].
  - rewrite boxes_other by exact Hq. apply lookup_insert_eq.
  - now apply IH.
Qed.

(** X4. When [calculateAndDisplayAverages] returns, with unique period
    ids, the element [avg-<id>] of a period of the registry whose id is
    not sem1, sem2 or final shows the sum of the scores in the period's
    score boxes, a box whose text is not a number counting 0 and a missing
    box adding nothing, divided by the number of subject rows (by 1 when
    there is no row).  The elements [avg-sem1], [avg-sem2] and
    [avg-final] show the two semester averages and the final average,
    also when the registry has a period of that id. *)
Theorem shown_period_average (f : Form) (ps : list Period) (p : Period) :
  List.NoDup (map id ps) ->
  In p ps ->
  ~ In (id p) ["sem1"; "sem2"; "final"] ->
  Admin.calculateAndDisplayAverages f ps !! ("avg-" ++ id p)%string
  = Some (JS.div (JS.sum (enteredScores f (subjectRows f) (id p)))
                 (JS.ofNat (subjectRows f)))
  /\ Admin.calculateAndDisplayAverages f ps !! "avg-sem1" = Some (Admin.sem1Avg f ps)
  /\ Admin.calculateAndDisplayAverages f ps !! "avg-sem2" = Some (Admin.sem2Avg f ps)
  /\ Admin.calculateAndDisplayAverages f ps !! "avg-final" = Some (Admin.finalAvg f ps).
Proof.
  intros Hnd Hin Hid. unfold Admin.calculateAndDisplayAverages.
  assert (N1 : "avg-sem1" <> ("avg-" ++ id p)%string).
  { intros E. apply (avg_id_inj "sem1") in E. apply Hid. rewrite <- E. simpl. tauto. }
  assert (N2 : "avg-sem2" <> ("avg-" ++ id p)%string).
  { intros E. apply (avg_id_inj "sem2") in E. apply Hid. rewrite <- E. simpl. tauto. }
  assert (N3 : "avg-final" <> ("avg-" ++ id p)%string).
  { intros E. apply (avg_id_inj "final") in E. apply Hid. rewrite <- E. simpl. tauto. }
  split; [|split; [|split]].
  - rewrite !lookup_insert_ne by assumption.
    rewrite boxes_lookup by assumption. f_equal. now apply periodAverage_sum.
  - rewrite !lookup_insert_ne by discriminate. apply lookup_insert_eq.
  - rewrite lookup_insert_ne by discriminate. apply lookup_insert_eq.
  - apply lookup_insert_eq.
Qed.

Lemma shown_period_average_witness :
  Admin.calculateAndDisplayAverages twoSubjectForm [P1; E1] !! ("avg-" ++ id P1)%string
  = Some (JS.div (JS.sum (enteredScores twoSubjectForm (subjectRows twoSubjectForm) (id P1)))
                 (JS.ofNat (subjectRows twoSubjectForm)))
  /\ Admin.calculateAndDisplayAverages twoSubjectForm [P1; E1] !! "avg-sem1"
     = Some (Admin.sem1Avg twoSubjectForm [P1; E1])
  /\ Admin.calculateAndDisplayAverages twoSubjectForm [P1; E1] !! "avg-sem2"
     = Some (Admin.sem2Avg twoSubjectForm [P1; E1])
  /\ Admin.calculateAndDisplayAverages twoSubjectForm [P1; E1] !! "avg-final"
     = Some (Admin.finalAvg twoSubjectForm [P1; E1]).
Proof.
  apply (shown_period_average twoSubjectForm [P1; E1] P1).
  - repeat (apply List.NoDup_cons; [not_among|]). apply List.NoDup_nil.
  - left. reflexivity.
  - not_among.
Defined.

Lemma or_else_truthy (n dflt : JS.Num) :
  JS.truthy dflt = true -> JS.truthy (JS.or_else n dflt) = true.
Proof. intros H. unfold JS.or_else. destruct (JS.truthy n) eqn:E; assumption. Qed.

Lemma truthy_not_NaN (n : JS.Num) : JS.truthy n = true -> JS.isNaN n = false.
Proof. destruct n; simpl; congruence. Qed.

Lemma or_else_zero_not_NaN (n : JS.Num) : JS.isNaN (JS.or_else n (JS.Fin 0)) = false.
Proof.
  unfold JS.or_else. destruct (JS.truthy n) eqn:E; [|reflexivity].
  now apply truthy_not_NaN.
Qed.

Lemma collectFrom_In (dflt : JS.Num) (f : Form) (ps : list Period) (grade : Obj)
    (groups : list (option string)) :
  forall k : nat,
    In grade (Admin.collectFrom dflt f ps k groups) ->
    exists subjectId subjectName, grade = Admin.collectGrade dflt f ps subjectId subjectName.
Proof.
  induction groups as [|g groups IH]; intros k Hin; [destruct Hin|].
  cbn [Admin.collectFrom] in Hin. destruct g as [nm|].
  - destruct Hin as [<-|Hin]; [eauto|]. now apply (IH (S k)).
  - now apply (IH (S k)).
Qed.

Lemma submitGrade_stores (f : Form) (periodIds : list string)
    (subjectId : nat) (subjectName : string) (k : string) :
  In k periodIds ->
  get (Admin.submitGrade f periodIds subjectId subjectName) k
  = JS.VNum match scoreInput f subjectId k with
            | Some value => JS.or_else (JS.parseFloatStr value) (JS.Fin 0)
            | None => JS.Fin 0
            end.
Proof.
  unfold Admin.submitGrade.
  generalize [("subject", JS.VStr (trim subjectName))].
  induction periodIds as [|q qs IH] using rev_ind; intros o Hin; [destruct Hin|].
  rewrite fold_left_app. cbn [fold_left]. rewrite get_set.
  destruct (String.eqb_spec q k) as [->|Hne]; [reflexivity|].
  apply in_app_or in Hin. destruct Hin as [Hin|[->|[]]]; [now apply IH|congruence].
Qed.

Lemma submitFrom_In (f : Form) (periodIds : list string) (grade : Obj)
    (groups : list (option string)) :
  forall k : nat,
    In grade (Admin.submitFrom f periodIds k groups) ->
    exists subjectId subjectName,
      grade = Admin.submitGrade f periodIds subjectId subjectName.
Proof.
  induction groups as [|g groups IH]; intros k Hin; [destruct Hin|].
  cbn [Admin.submitFrom] in Hin. destruct g as [nm|].
  - destruct (negb (String.eqb (trim nm) "")).
    + destruct Hin as [<-|Hin]; [eauto|]. now apply (IH (S k)).
    + now apply (IH (S k)).
  - now apply (IH (S k)).
Qed.

(** X5. Every grade object [collectCurrentGrades] builds holds, for every
    period of the registry, a number that is neither NaN nor 0; every
    grade object the submit handler sends holds, for every period id, a
    number that is not NaN. *)
Theorem collected_scores_are_numbers (f : Form) (ps : list Period)
    (periodIds : list string) (grade sent : Obj) (p : Period) (k : string) :
  In grade (Admin.collectCurrentGrades f ps) -> In p ps ->
  In sent (Admin.submitGrades f periodIds) -> In k periodIds ->
  (exists n, get grade (id p) = JS.VNum n /\ JS.truthy n = true /\ JS.isNaN n = false)
  /\ (exists n, get sent k = JS.VNum n /\ JS.isNaN n = false).
Proof.
  intros Hg Hp Hs Hk. split.
  - apply collectFrom_In in Hg. destruct Hg as (i & nm & ->).
    rewrite collectGrade_stores by exact Hp. eexists. split; [reflexivity|].
    assert (Ht : JS.truthy (JS.or_else (parseInput (scoreInput f i (id p))) (JS.ofZ 90))
                 = true) by now apply or_else_truthy.
    split; [exact Ht|now apply truthy_not_NaN].
  - apply submitFrom_In in Hs. destruct Hs as (i & nm & ->).
    rewrite submitGrade_stores by exact Hk. eexists. split; [reflexivity|].
    destruct (scoreInput f i k); [apply or_else_zero_not_NaN|reflexivity].
Qed.

Lemma collected_scores_are_numbers_witness :
  (exists n, get (Admin.collectGrade (JS.ofZ 90) twoSubjectForm [P1; E1] 2 " Art ") (id P1)
             = JS.VNum n /\ JS.truthy n = true /\ JS.isNaN n = false)
  /\ (exists n, get (Admin.submitGrade twoSubjectForm ["p1"; "exam1"] 1 "Math") "exam1"
                = JS.VNum n /\ JS.isNaN n = false).
Proof.
  apply (collected_scores_are_numbers twoSubjectForm [P1; E1] ["p1"; "exam1"]
           (Admin.collectGrade (JS.ofZ 90) twoSubjectForm [P1; E1] 2 " Art ")
           (Admin.submitGrade twoSubjectForm ["p1"; "exam1"] 1 "Math") P1 "exam1").
  - right. left. reflexivity.
  - left. reflexivity.
  - left. reflexivity.
  - right. left. reflexivity.
Defined.

Lemma keys_set (o : Obj) (k : string) (v : JS.Val) :
  ~ In k (keys o) -> keys (set o k v) = keys o ++ [k].
Proof.
  unfold keys. induction o as [|[k0 v0] o IH]; intros H; [reflexivity|].
  simpl in *. destruct (String.eqb_spec k0 k) as [E|E]; [tauto|].
  simpl. f_equal. apply IH. tauto.
Qed.

Lemma keys_fold_set (F : string -> JS.Val) (ids : list string) :
  forall o : Obj,
    List.NoDup (keys o ++ ids) ->
    keys (fold_left (fun grade k => set grade k (F k)) ids o) = keys o ++ ids.
Proof.
  induction ids as [|k ids IH]; intros o Hnd; [now rewrite app_nil_r|].
  cbn [fold_left].
  assert (Hk : ~ In k (keys o)).
  { intros Hin. apply List.NoDup_remove_2 in Hnd. apply Hnd.
    apply in_or_app. now left. }
  rewrite IH; rewrite keys_set by exact Hk.
  - rewrite <- app_assoc. reflexivity.
  - rewrite <- app_assoc. exact Hnd.
Qed.

Lemma filter_not_subject (ids : list string) :
  ~ In "subject" ids -> List.filter Admin.isPeriodKey ids = ids.
Proof.
  induction ids as [|k ids IH]; intros H; [reflexivity|]. simpl in *.
  unfold Admin.isPeriodKey at 1.
  destruct (String.eqb_spec k "subject") as [E|E]; [tauto|].
  simpl. f_equal. apply IH. tauto.
Qed.

(** X6. Saving and loading gives the registry back: from the grades the
    submit handler sends for period ids that are unique, are not array
    indices and do not include [subject], [setActivePeriodsFromGrades]
    rebuilds one period per id, in the same order, each with the type and
    the name that go with its id; for the ids of the ten default periods
    these are the default periods themselves. *)
Theorem registry_round_trip (f : Form) (ids : list string) :
  List.NoDup ids ->
  ~ In "subject" ids ->
  forallb notIndexKey ids = true ->
  ids <> [] ->
  Admin.submitGrades f ids <> [] ->
  Admin.setActivePeriodsFromGrades (Admin.submitGrades f ids) = map Admin.periodOfKey ids
  /\ map id (Admin.setActivePeriodsFromGrades (Admin.submitGrades f ids)) = ids
  /\ map type (Admin.setActivePeriodsFromGrades (Admin.submitGrades f ids))
     = map kindOfKey ids
  /\ map Admin.periodOfKey (map id Admin.getDefaultPeriods) = Admin.getDefaultPeriods.
Proof.
  intros Hnd Hsubj _ Hids Hsent.
  assert (H : Admin.setActivePeriodsFromGrades (Admin.submitGrades f ids)
              = map Admin.periodOfKey ids).
  { destruct (Admin.submitGrades f ids) as [|first rest] eqn:E; [congruence|].
    assert (Hin : In first (Admin.submitGrades f ids)) by (rewrite E; now left).
    apply submitFrom_In in Hin. destruct Hin as (i & nm & ->).
    unfold Admin.setActivePeriodsFromGrades, Admin.setActivePeriodsFromGradesWith.
    unfold Admin.submitGrade. rewrite keys_fold_set.
    - cbn [keys map fst app List.filter Admin.isPeriodKey String.eqb Ascii.eqb
           Bool.eqb negb].
      rewrite filter_not_subject by exact Hsubj.
      rewrite length_map. destruct ids; [congruence|reflexivity].
    - cbn [keys map fst app]. now constructor. }
  rewrite H. split; [reflexivity|]. split; [|split; [|reflexivity]].
  - rewrite map_map. apply map_id.
  - rewrite map_map. reflexivity.
Qed.

Lemma registry_round_trip_witness :
  Admin.setActivePeriodsFromGrades (Admin.submitGrades twoSubjectForm ["p1"; "exam1"])
  = map Admin.periodOfKey ["p1"; "exam1"]
  /\ map id (Admin.setActivePeriodsFromGrades
              (Admin.submitGrades twoSubjectForm ["p1"; "exam1"]))
     = ["p1"; "exam1"]
  /\ map type (Admin.setActivePeriodsFromGrades
                (Admin.submitGrades twoSubjectForm ["p1"; "exam1"]))
     = map kindOfKey ["p1"; "exam1"]
  /\ map Admin.periodOfKey (map id Admin.getDefaultPeriods) = Admin.getDefaultPeriods.
Proof.
  apply (registry_round_trip twoSubjectForm ["p1"; "exam1"]).
  - repeat (apply List.NoDup_cons; [not_among|]). apply List.NoDup_nil.
  - not_among.
  - reflexivity.
  - discriminate.
  - discriminate.
Defined.

Lemma substring_all (s : string) : String.substring 0 (String.length s) s = s.
Proof. induction s as [|c s IH]; simpl; [reflexivity|]. now rewrite IH. Qed.

Lemma substringFrom_cons (c : ascii) (s : string) : JS.substringFrom 1 (String c s) = s.
Proof.
  unfold JS.substringFrom. cbn [String.length].
  rewrite Nat.sub_succ, Nat.sub_0_r. cbn [String.substring]. apply substring_all.
Qed.

(** X7. A period that got a timestamp id loses its name when the student
    is loaded again: [setActivePeriodsFromGrades] names the key
    [period_<time>] "NaNth Period" and the key [exam_<time>] "Exam NaN",
    whatever the time and whatever name the period was added under. *)
Theorem timestamp_period_reloaded (now : Z) :
  Admin.periodOfKey (Admin.timestampId period now)
  = mkPeriod (Admin.timestampId period now) "NaNth Period" period
  /\ Admin.periodOfKey (Admin.timestampId exam now)
     = mkPeriod (Admin.timestampId exam now) "Exam NaN" exam.
Proof.
  unfold Admin.timestampId, Admin.periodOfKey. cbn [typeName].
  generalize (showZ now). intros t. split.
  - change ("period" ++ "_" ++ t)%string
      with (String "p" (String "e" (String "r" (String "i" (String "o"
             (String "d" (String "_" t))))))).
    rewrite substringFrom_cons. reflexivity.
  - change ("exam" ++ "_" ++ t)%string
      with (String "e" (String "x" (String "a" (String "m" (String "_" t))))).
    assert (H : JS.substringFrom 4
                  (String "e" (String "x" (String "a" (String "m" (String "_" t)))))
                = String "_" t).
    { unfold JS.substringFrom. cbn [String.length].
      rewrite !Nat.sub_succ, Nat.sub_0_r. cbn [String.substring].
      f_equal. apply substring_all. }
    cbn [JS.startsWith String.prefix Ascii.eqb Bool.eqb String.eqb].
    rewrite H. reflexivity.
Qed.

Lemma ordinalSuffix_nat (n : nat) :
  Admin.getOrdinalSuffix (JS.ofNat n)
  = let j := (Z.of_nat n mod 10)%Z in
    let k := (Z.of_nat n mod 100)%Z in
    if (j =? 1)%Z && negb (k =? 11)%Z then "st"
    else if (j =? 2)%Z && negb (k =? 12)%Z then "nd"
    else if (j =? 3)%Z && negb (k =? 13)%Z then "rd"
    else "th".
Proof.
  unfold Admin.getOrdinalSuffix, ordinalSuffix, JS.ofNat, JS.ofZ.
  cbn [andb inject_Z Qnum Qden]. rewrite Z.div_1_r.
  rewrite !Z.rem_mod_nonneg by lia. reflexivity.
Qed.

(** X8. The ordinal suffix of a count depends on its last two digits
    only, and is "th" for every count ending in 11, 12 or 13; the report
    view's copy agrees on every count but 0, for which it gives no suffix
    at all. *)
Theorem getOrdinalSuffix_last_two_digits (n : nat) :
  Admin.getOrdinalSuffix (JS.ofNat (n + 100)) = Admin.getOrdinalSuffix (JS.ofNat n)
  /\ Admin.getOrdinalSuffix (JS.ofNat (100 * n + 11)) = "th"
  /\ Admin.getOrdinalSuffix (JS.ofNat (100 * n + 12)) = "th"
  /\ Admin.getOrdinalSuffix (JS.ofNat (100 * n + 13)) = "th"
  /\ Admin.getOrdinalSuffix (JS.ofNat (100 * n + 21)) = "st"
  /\ Report.getOrdinalSuffix (JS.ofNat (S n)) = Admin.getOrdinalSuffix (JS.ofNat (S n))
  /\ Report.getOrdinalSuffix (JS.ofNat 0) = "".
Proof.
  assert (Hmod : forall a b c : Z, (0 < c)%Z -> ((c * a + b) mod c = b mod c)%Z).
  { intros a b c Hc. rewrite Z.add_comm, Z.mul_comm. now apply Z_mod_plus_full. }
  assert (Hsame : forall a b : nat,
             (Z.of_nat a mod 10 = Z.of_nat b mod 10)%Z ->
             (Z.of_nat a mod 100 = Z.of_nat b mod 100)%Z ->
             Admin.getOrdinalSuffix (JS.ofNat a) = Admin.getOrdinalSuffix (JS.ofNat b)).
  { intros a b H10 H100. rewrite !ordinalSuffix_nat. cbn zeta.
    rewrite H10, H100. reflexivity. }
  assert (Hend : forall d : nat,
             Admin.getOrdinalSuffix (JS.ofNat (100 * n + d))
             = Admin.getOrdinalSuffix (JS.ofNat d)).
  { intros d. apply Hsame.
    - replace (Z.of_nat (100 * n + d)) with (10 * (10 * Z.of_nat n) + Z.of_nat d)%Z by lia.
      apply Hmod. lia.
    - replace (Z.of_nat (100 * n + d)) with (100 * Z.of_nat n + Z.of_nat d)%Z by lia.
      apply Hmod. lia. }
  repeat split; try (rewrite Hend; reflexivity).
  - apply Hsame.
    + replace (Z.of_nat (n + 100)) with (10 * 10 + Z.of_nat n)%Z by lia. apply Hmod. lia.
    + replace (Z.of_nat (n + 100)) with (100 * 1 + Z.of_nat n)%Z by lia. apply Hmod. lia.
Qed.

(** * Further properties of the report view *)

Lemma length_semesterCells (checked : bool) (g : Obj) (mn mx : JS.Num)
    (s : list Period) :
  List.length (ReportTable.semesterCells checked g mn mx s)
  = (List.length s + if (0 <? List.length s)%nat then 1 else 0)%nat.
Proof.
  unfold ReportTable.semesterCells. rewrite length_app, !length_map.
  destruct (0 <? List.length s)%nat; reflexivity.
Qed.

Lemma length_footerCells (checked : bool) (grades : list Obj) (s : list Period) :
  List.length (ReportTable.footerCells checked grades s)
  = (List.length s + if (0 <? List.length s)%nat then 1 else 0)%nat.
Proof.
  unfold ReportTable.footerCells. rewrite length_app, !length_map.
  destruct (0 <? List.length s)%nat; reflexivity.
Qed.

Lemma length_headerFrom (checked : bool) (g : Obj) (mn mx : JS.Num)
    (grades : list Obj) (semesters : list (list Period)) :
  forall index : nat,
    List.length (ReportTable.headerFrom index semesters)
    = List.length (flat_map (ReportTable.semesterCells checked g mn mx) semesters)
    /\ List.length (ReportTable.headerFrom index semesters)
       = List.length (flat_map (ReportTable.footerCells checked grades) semesters).
Proof.
  induction semesters as [|s semesters IH]; intros index; [split; reflexivity|].
  cbn [ReportTable.headerFrom flat_map].
  destruct (IH (S index)) as [IH1 IH2].
  rewrite !length_app, !length_map, length_semesterCells, length_footerCells.
  rewrite <- IH1, <- IH2.
  destruct (0 <? List.length s)%nat; cbn [List.length]; split; lia.
Qed.

(** X9. The header row, the row of every subject and the footer row of
    the report table have the same number of cells, for any grouping of
    the periods (empty groups included) and either display mode. *)
Theorem report_rows_aligned (checked : bool) (subjectGrade : Obj)
    (grades : list Obj) (semesters : list (list Period)) :
  List.length (ReportTable.subjectRow checked subjectGrade semesters)
  = List.length (ReportTable.buildTableHeader semesters)
  /\ List.length (ReportTable.buildTableFooter checked grades semesters)
     = List.length (ReportTable.buildTableHeader semesters).
Proof.
  unfold ReportTable.subjectRow, ReportTable.buildTableHeader,
    ReportTable.buildTableFooter.
  destruct (ReportTable.extremes subjectGrade semesters) as [mn mx].
  destruct (length_headerFrom checked subjectGrade mn mx grades semesters 0) as [H1 H2].
  cbn [List.length]. rewrite !length_app, H1. cbn [List.length].
  split; [reflexivity|]. rewrite <- H1, H2. reflexivity.
Qed.

Lemma JSMath_eq_trans (a b c : JS.Num) :
  JSMath.eq a b = true -> JSMath.eq a c = true -> JSMath.eq b c = true.
Proof.
  destruct a as [| | |x], b as [| | |y], c as [| | |z]; simpl; try congruence.
  intros H1 H2. apply Qeq_bool_iff in H1, H2. apply Qeq_bool_iff.
  rewrite <- H1, <- H2. reflexivity.
Qed.

Lemma scoreClasses_marks (score mn mx : JS.Num) :
  (In "highest-score" (ReportTable.scoreClasses score mn mx)
   <-> JSMath.eq score mx = true /\ JSMath.eq mx mn = false)
  /\ (In "lowest-score" (ReportTable.scoreClasses score mn mx)
      <-> JSMath.eq score mn = true /\ JSMath.eq mx mn = false).
Proof.
  unfold ReportTable.scoreClasses.
  destruct (JS.lt score (JS.ofZ 60)), (JSMath.eq score mx), (JSMath.eq score mn),
    (JSMath.eq mx mn); simpl; split; split;
    intuition (try discriminate; try congruence).
Qed.

Lemma failing_marks (x : JS.Num) :
  ~ In "highest-score" (ReportTable.failing x)
  /\ ~ In "lowest-score" (ReportTable.failing x).
Proof.
  unfold ReportTable.failing. destruct (JS.lt x (JS.ofZ 60)); simpl;
    split; intuition discriminate.
Qed.

(** X10. In the row of a subject no cell is marked both highest and
    lowest, and a cell is marked highest or lowest only if the subject has
    at least two scores among the periods shown. *)
Theorem subjectRow_marks (checked : bool) (subjectGrade : Obj)
    (semesters : list (list Period)) (td : Td) :
  In td (ReportTable.subjectRow checked subjectGrade semesters) ->
  ~ (In "highest-score" (classes td) /\ In "lowest-score" (classes td))
  /\ (In "highest-score" (classes td) \/ In "lowest-score" (classes td) ->
      (2 <= scoreCount subjectGrade semesters)%nat).
Proof.
  unfold ReportTable.subjectRow, ReportTable.extremes.
  fold (scoreCount subjectGrade semesters).
  set (allScores := List.filter _ _).
  assert (Hcases :
    forall mn mx,
      (JSMath.eq mx mn = false -> (2 <= scoreCount subjectGrade semesters)%nat) ->
      In td (mkTd ["subject-col"] (Field (get subjectGrade "subject"))
             :: flat_map (ReportTable.semesterCells checked subjectGrade mn mx) semesters
             ++ [ReportTable.avgCell checked (Report.finalAvg subjectGrade semesters)]) ->
      ~ (In "highest-score" (classes td) /\ In "lowest-score" (classes td))
      /\ (In "highest-score" (classes td) \/ In "lowest-score" (classes td) ->
          (2 <= scoreCount subjectGrade semesters)%nat)).
  { intros mn mx Hdiff [<-|Hin].
    - simpl. split; intuition discriminate.
    - apply in_app_or in Hin. destruct Hin as [Hin|[<-|[]]].
      + apply in_flat_map in Hin. destruct Hin as (s & _ & Hin).
        unfold ReportTable.semesterCells in Hin. apply in_app_or in Hin.
        destruct Hin as [Hin|Hin].
        * apply in_map_iff in Hin. destruct Hin as (score & <- & _).
          cbn [ReportTable.scoreCell classes].
          destruct (scoreClasses_marks score mn mx) as [Hh Hl]. split.
          -- intros [H1 H2]. apply Hh in H1. apply Hl in H2.
             destruct H1 as [H1 Hne], H2 as [H2 _].
             rewrite (JSMath_eq_trans _ _ _ H1 H2) in Hne. discriminate.
          -- intros [H|H]; [apply Hh in H|apply Hl in H]; apply Hdiff, H.
        * destruct (0 <? List.length s)%nat; [|destruct Hin].
          destruct Hin as [<-|[]]. cbn [ReportTable.avgCell classes].
          destruct (failing_marks (Report.semesterAvg subjectGrade s)). tauto.
      + cbn [ReportTable.avgCell classes].
        destruct (failing_marks (Report.finalAvg subjectGrade semesters)). tauto. }
  destruct (1 <? scoreCount subjectGrade semesters)%nat eqn:E.
  - apply Hcases. intros _. now apply Nat.ltb_lt in E.
  - apply Hcases. intros H. discriminate H.
Qed.

Lemma subjectRow_marks_witness :
  ~ (In "highest-score" (classes (ReportTable.scoreCell false (JS.ofZ 55) (JS.Fin (185 # 2))
                                     (JS.Fin (185 # 2))))
     /\ In "lowest-score" (classes (ReportTable.scoreCell false (JS.ofZ 55) (JS.Fin (185 # 2))
                                     (JS.Fin (185 # 2)))))
  /\ (In "highest-score" (classes (ReportTable.scoreCell false (JS.ofZ 55) (JS.Fin (185 # 2))
                                     (JS.Fin (185 # 2))))
      \/ In "lowest-score" (classes (ReportTable.scoreCell false (JS.ofZ 55) (JS.Fin (185 # 2))
                                      (JS.Fin (185 # 2)))) ->
      (2 <= scoreCount threeScores [[P1; P2; E1]])%nat).
Proof.
  apply (subjectRow_marks false threeScores [[P1; P2; E1]]).
  right. right. left. reflexivity.
Defined.

Lemma ge_lt_not_NaN (x : JS.Num) (z : Z) :
  JS.isNaN x = false -> JS.lt x (JS.ofZ z) = negb (JS.ge x (JS.ofZ z)).
Proof. destruct x; simpl; intros H; try reflexivity; discriminate. Qed.

(** A score that reaches a threshold reaches every lower one. *)
Lemma ge_ofZ_mono (x : JS.Num) (a b : Z) :
  (b <= a)%Z -> JS.ge x (JS.ofZ a) = true -> JS.ge x (JS.ofZ b) = true.
Proof.
  intros Hab. destruct x as [| | |q]; simpl; try congruence.
  intros H. apply Qle_bool_iff in H. apply Qle_bool_iff.
  eapply Qle_trans; [|exact H]. rewrite <- Zle_Qle. exact Hab.
Qed.

Lemma letter_F_iff (x : JS.Num) :
  Report.getLetterGrade x = "F" <-> JS.ge x (JS.ofZ 60) = false.
Proof.
  unfold Report.getLetterGrade.
  destruct (JS.ge x (JS.ofZ 60)) eqn:H60.
  - destruct (JS.ge x (JS.ofZ 90)), (JS.ge x (JS.ofZ 80)), (JS.ge x (JS.ofZ 70));
      split; intros H; discriminate H.
  - destruct (JS.ge x (JS.ofZ 90)) eqn:H90;
      [apply (ge_ofZ_mono _ _ 60) in H90; [congruence|lia]|].
    destruct (JS.ge x (JS.ofZ 80)) eqn:H80;
      [apply (ge_ofZ_mono _ _ 60) in H80; [congruence|lia]|].
    destruct (JS.ge x (JS.ofZ 70)) eqn:H70;
      [apply (ge_ofZ_mono _ _ 60) in H70; [congruence|lia]|].
    split; reflexivity.
Qed.

Lemma scoreOrZero_not_NaN (g : Obj) (p : Period) :
  JS.isNaN (Report.scoreOrZero g p) = false.
Proof. apply or_else_zero_not_NaN. Qed.

(** X11. In the report table a score cell is marked failing exactly when
    the letter grade of its score is F, whatever the field holds (a
    missing or non-numeric field shows as 0 and is marked failing).  An
    average is marked failing exactly when its letter is F unless it is
    NaN, which gets the letter F without the mark. *)
Theorem failing_mark_is_letter_F (subjectGrade : Obj) (p : Period)
    (minScore maxScore avg : JS.Num) :
  (In "failing-score"
      (ReportTable.scoreClasses (Report.scoreOrZero subjectGrade p) minScore maxScore)
   <-> Report.getLetterGrade (Report.scoreOrZero subjectGrade p) = "F")
  /\ (In "failing-score" (ReportTable.failing avg)
      <-> Report.getLetterGrade avg = "F" /\ JS.isNaN avg = false)
  /\ ReportTable.failing JS.NaN = []
  /\ Report.getLetterGrade JS.NaN = "F".
Proof.
  split; [|split; [|split; reflexivity]].
  - rewrite letter_F_iff. unfold ReportTable.scoreClasses.
    rewrite (ge_lt_not_NaN _ 60 (scoreOrZero_not_NaN subjectGrade p)).
    destruct (JS.ge (Report.scoreOrZero subjectGrade p) (JS.ofZ 60));
      cbn [negb app].
    + split; [|discriminate]. intros Hin. apply in_app_or in Hin.
      destruct Hin as [Hin|Hin];
        [destruct (_ && _) | destruct (_ && _)]; simpl in Hin;
        intuition discriminate.
    + split; [reflexivity|]. intros _. left. reflexivity.
  - rewrite letter_F_iff. unfold ReportTable.failing.
    destruct avg as [| | |q]; simpl.
    + split; [intros []|intros [_ H]; discriminate H].
    + split; [intros _; split; reflexivity|intros _; left; reflexivity].
    + split; [intros []|intros [H _]; discriminate H].
    + destruct (Qle_bool (inject_Z 60) q); simpl.
      * split; [intros []|intros [H _]; discriminate H].
      * split; [intros _; split; reflexivity|intros _; left; reflexivity].
Qed.

(** X12. The overall comment of the report card always goes with the
    letter grade of the same final average: the thresholds of
    [setOverallPerformance] are those of [getLetterGrade]. *)
Theorem overallComment_matches_letter (finalAvg : JS.Num) :
  ReportTable.overallComment finalAvg = commentFor (Report.getLetterGrade finalAvg)
  /\ ReportTable.overallGrade false finalAvg = Letter (Report.getLetterGrade finalAvg).
Proof.
  split; [|reflexivity].
  unfold ReportTable.overallComment, Report.getLetterGrade.
  destruct (JS.ge finalAvg (JS.ofZ 90)); [reflexivity|].
  destruct (JS.ge finalAvg (JS.ofZ 80)); [reflexivity|].
  destruct (JS.ge finalAvg (JS.ofZ 70)); [reflexivity|].
  destruct (JS.ge finalAvg (JS.ofZ 60)); reflexivity.
Qed.

(** * Further properties of the student view *)

Lemma letter_DF_iff (x : JS.Num) :
  (Student.getLetterGrade x = "D" \/ Student.getLetterGrade x = "F")
  <-> JS.ge x (JS.ofZ 70) = false.
Proof.
  unfold Student.getLetterGrade.
  destruct (JS.ge x (JS.ofZ 70)) eqn:H70.
  - destruct (JS.ge x (JS.ofZ 90)), (JS.ge x (JS.ofZ 80));
      split; intros H; try discriminate H; destruct H as [H|H]; discriminate H.
  - destruct (JS.ge x (JS.ofZ 90)) eqn:H90;
      [apply (ge_ofZ_mono _ _ 70) in H90; [congruence|lia]|].
    destruct (JS.ge x (JS.ofZ 80)) eqn:H80;
      [apply (ge_ofZ_mono _ _ 70) in H80; [congruence|lia]|].
    destruct (JS.ge x (JS.ofZ 60)); split; auto.
Qed.

(** X13. In the student view the letter of a subject is shown in red
    exactly when it is D or F (and the yearly average is a number), so a
    passing D is red; the overall badge is red exactly when the overall
    letter is F. *)
Theorem student_colours (yearly : JS.Num) (grades : list Obj) :
  (StudentTable.letterClass (Some yearly) = StudentTable.red
   <-> (Student.getLetterGrade yearly = "D" \/ Student.getLetterGrade yearly = "F")
       /\ JS.isNaN yearly = false)
  /\ StudentTable.letterClass None <> StudentTable.red
  /\ (StudentTable.badgeClass grades = StudentTable.red
      <-> StudentTable.badgeText grades = "F").
Proof.
  split; [|split].
  - rewrite letter_DF_iff. unfold StudentTable.letterClass.
    destruct yearly as [| | |q]; simpl.
    + split; [discriminate|intros [_ H]; discriminate H].
    + split; [intros _; split; reflexivity|reflexivity].
    + split; [discriminate|intros [H _]; discriminate H].
    + destruct (Qle_bool (inject_Z 70) q); simpl.
      * split; [discriminate|intros [H _]; discriminate H].
      * split; [intros _; split; reflexivity|reflexivity].
  - discriminate.
  - unfold StudentTable.badgeClass, StudentTable.badgeText.
    rewrite <- getLetterGrade_same, letter_F_iff.
    destruct (JS.ge (StudentTable.finalAvg grades) (JS.ofZ 60)).
    + split; discriminate.
    + split; reflexivity.
Qed.

Lemma sum_isFin (xs : list JS.Num) :
  Forall isFin xs -> forall q, isFin (fold_left JS.add xs (JS.Fin q)).
Proof.
  induction 1 as [|x xs Hx _ IH]; intros q; [exact I|].
  destruct x; try contradiction. simpl. apply IH.
Qed.

Lemma div_isFin (x : JS.Num) (n : nat) : isFin x -> isFin (JS.div x (JS.ofNat (S n))).
Proof.
  destruct x as [| | |q]; try contradiction. intros _.
  unfold JS.div, JS.ofNat, JS.ofZ.
  destruct (Qeq_bool (inject_Z (Z.of_nat (S n))) 0) eqn:E; [|exact I].
  apply Qeq_bool_iff in E. unfold Qeq in E. simpl in E. lia.
Qed.

Lemma calculateAvg_isFin (values : list JS.Num) :
  Forall finiteOrNaN values ->
  match Student.calculateAvg values with
  | Some a => isFin a
  | None => True
  end.
Proof.
  intros H. unfold Student.calculateAvg.
  set (valid := List.filter _ values).
  assert (Hv : Forall isFin valid).
  { apply List.Forall_forall. intros x Hx. apply List.filter_In in Hx.
    destruct Hx as [Hx Hn]. rewrite List.Forall_forall in H. specialize (H x Hx).
    destruct x; try contradiction; try discriminate. exact I. }
  destruct valid as [|v valid]; [exact I|].
  cbn [List.length Nat.eqb]. apply div_isFin. now apply sum_isFin.
Qed.

Lemma yearly_isFin (grade : Obj) :
  finiteScores grade ->
  match Student.yearly (Student.rowOf grade) with
  | Some y => isFin y
  | None => True
  end.
Proof.
  intros H. unfold finiteScores, scoreKeys in H.
  repeat match goal with
         | H : Forall _ (_ :: _) |- _ => apply List.Forall_cons_iff in H; destruct H as [? H]
         end.
  cbn [Student.rowOf Student.yearly].
  assert (A1 := calculateAvg_isFin
                  [JS.parseFloat (get grade "p1"); JS.parseFloat (get grade "p2");
                   JS.parseFloat (get grade "p3"); JS.parseFloat (get grade "exam1")]).
  assert (A2 := calculateAvg_isFin
                  [JS.parseFloat (get grade "p4"); JS.parseFloat (get grade "p5");
                   JS.parseFloat (get grade "p6"); JS.parseFloat (get grade "exam2")]).
  destruct (Student.calculateAvg [_; _; _; JS.parseFloat (get grade "exam1")]) as [a1|];
    destruct (Student.calculateAvg [_; _; _; JS.parseFloat (get grade "exam2")]) as [a2|];
    cbn [Student.yearlyOf]; try exact I.
  - assert (F1 : isFin a1) by (apply A1; repeat constructor; assumption).
    assert (F2 : isFin a2) by (apply A2; repeat constructor; assumption).
    destruct a1, a2; try contradiction. exact I.
  - apply A1; repeat constructor; assumption.
  - apply A2; repeat constructor; assumption.
Qed.

Lemma addYearly_columns (rows : list Student.Row) :
  Forall (fun r => match Student.yearly r with Some y => isFin y | None => True end) rows ->
  forall t c : JS.Num,
    fold_left StudentTable.addYearly rows (t, c)
    = (fold_left (fun acc r => bump acc (rowValue r "yearly") (fun x => x)) rows t,
       fold_left (fun acc r => bump acc (rowValue r "yearly") (fun _ => JS.Fin 1)) rows c).
Proof.
  induction 1 as [|r rows Hr _ IH]; intros t c; [reflexivity|].
  cbn [fold_left].
  assert (E : StudentTable.addYearly (t, c) r
              = (bump t (rowValue r "yearly") (fun x => x),
                 bump c (rowValue r "yearly") (fun _ => JS.Fin 1))).
  { unfold StudentTable.addYearly, bump, counted.
    change (rowValue r "yearly") with (Student.yearly r).
    destruct (Student.yearly r) as [y|]; [|reflexivity].
    destruct y; try contradiction. reflexivity. }
  rewrite E. apply IH.
Qed.

Lemma scoresInRange_finite (grade : Obj) :
  scoresInRange grade scoreKeys -> finiteScores grade.
Proof.
  unfold scoresInRange, finiteScores. apply List.Forall_impl. intros k.
  unfold presentScore. destruct (JS.parseFloat (get grade k)); simpl; tauto.
Qed.

(** X14. In the student view, when every score a subject has lies between
    0 and 100, the overall percentage is the number the footer shows as
    the average of the yearly column; when no subject has a yearly average
    the footer shows a dash there and the overall percentage is 0. *)
Theorem student_overall_is_yearly_footer (grades : list Obj) :
  grades <> [] ->
  Forall (fun grade => scoresInRange grade scoreKeys) grades ->
  Student.footerCell grades "yearly" = Some (Fixed 1 (StudentTable.finalAvg grades))
  \/ (Student.footerCell grades "yearly" = Some Dash
      /\ StudentTable.finalAvg grades = JS.Fin 0).
Proof.
  intros Hne Hfin.
  assert (Hrows : Forall (fun r => match Student.yearly r with
                                   | Some y => isFin y
                                   | None => True
                                   end) (map Student.rowOf grades)).
  { apply List.Forall_map. eapply List.Forall_impl; [|exact Hfin].
    intros g Hg. now apply yearly_isFin, scoresInRange_finite. }
  unfold Student.footerCell, StudentTable.finalAvg, Student.setFooter, Student.columnsOf.
  destruct grades as [|g0 gs]; [congruence|]. cbn [List.length Nat.eqb].
  rewrite (addYearly_columns _ Hrows).
  assert (Hkey : "yearly" ∈ Student.columnKeys) by compute_done.
  destruct (columns_fields (map Student.rowOf (g0 :: gs)) "yearly" Hkey Student.initCols)
    as [-> ->].
  change (field (Student.colTotals Student.initCols) "yearly") with (JS.Fin 0).
  change (field (Student.colCounts Student.initCols) "yearly") with (JS.Fin 0).
  destruct (JS.lt (JS.Fin 0) _); [left|right; split]; reflexivity.
Qed.

Lemma student_overall_is_yearly_footer_witness :
  Student.footerCell [mathGrade; firstSemesterOnly] "yearly"
  = Some (Fixed 1 (StudentTable.finalAvg [mathGrade; firstSemesterOnly]))
  \/ (Student.footerCell [mathGrade; firstSemesterOnly] "yearly" = Some Dash
      /\ StudentTable.finalAvg [mathGrade; firstSemesterOnly] = JS.Fin 0).
Proof.
  apply (student_overall_is_yearly_footer [mathGrade; firstSemesterOnly]).
  - discriminate.
  - repeat constructor; vm_compute; discriminate.
Defined.

(** * Bounds on the averages *)

Lemma ofNat_S_pos (n : nat) : (0 < inject_Z (Z.of_nat (S n)))%Q.
Proof. unfold Qlt. simpl. lia. Qed.

Lemma inject_Z_S (n : nat) :
  (inject_Z (Z.of_nat (S n)) == inject_Z (Z.of_nat n) + 1)%Q.
Proof. rewrite Nat2Z.inj_succ. unfold Z.succ. rewrite inject_Z_plus. reflexivity. Qed.

Lemma sum_inRange (xs : list JS.Num) :
  Forall inRange xs ->
  forall q0 : Q,
  exists s : Q,
    fold_left JS.add xs (JS.Fin q0) = JS.Fin s
    /\ (q0 <= s)%Q
    /\ (s <= q0 + 100 * inject_Z (Z.of_nat (List.length xs)))%Q.
Proof.
  induction 1 as [|x xs Hx _ IH]; intros q0.
  - exists q0. split; [reflexivity|]. cbn [List.length].
    change (inject_Z (Z.of_nat 0)) with 0%Q. split; lra.
  - destruct x as [| | |q]; try contradiction. destruct Hx as [Hx0 Hx1].
    cbn [fold_left JS.add].
    destruct (IH (Qred (q0 + q))) as (s & Hs & Hlo & Hhi).
    exists s. split; [exact Hs|].
    rewrite Qred_correct in Hlo, Hhi.
    cbn [List.length]. rewrite inject_Z_S. split; lra.
Qed.

Lemma div_inRange (s : Q) (n : nat) :
  (0 <= s)%Q -> (s <= 100 * inject_Z (Z.of_nat (S n)))%Q ->
  inRange (JS.div (JS.Fin s) (JS.ofNat (S n))).
Proof.
  intros H0 H1. unfold JS.div, JS.ofNat, JS.ofZ.
  assert (Hpos := ofNat_S_pos n).
  destruct (Qeq_bool (inject_Z (Z.of_nat (S n))) 0) eqn:E.
  - apply Qeq_bool_iff in E. rewrite E in Hpos. exfalso. apply (Qlt_irrefl 0 Hpos).
  - cbn [inRange]. rewrite Qred_correct. split.
    + apply Qle_shift_div_l; [exact Hpos|]. lra.
    + apply Qle_shift_div_r; [exact Hpos|]. exact H1.
Qed.

(** The mean of scores between 0 and 100 lies between 0 and 100. *)
Lemma mean_inRange (x : JS.Num) (xs : list JS.Num) :
  Forall inRange (x :: xs) ->
  inRange (JS.div (JS.sum (x :: xs)) (JS.ofNat (List.length (x :: xs)))).
Proof.
  intros H. destruct (sum_inRange _ H 0) as (s & Hs & Hlo & Hhi).
  unfold JS.sum. rewrite Hs. cbn [List.length]. apply div_inRange; [exact Hlo|].
  cbn [List.length] in Hhi. lra.
Qed.

Lemma meanOrZero_inRange (xs : list JS.Num) :
  Forall inRange xs -> inRange (Report.meanOrZero xs).
Proof.
  intros H. unfold Report.meanOrZero. destruct xs as [|x xs].
  - simpl. split; lra.
  - cbn [List.length Nat.ltb Nat.leb]. now apply mean_inRange.
Qed.

Lemma calculateAvg_inRange (vals : list JS.Val) :
  Forall (fun v => optInRange (presentScore v)) vals ->
  optInRange (Student.calculateAvg (map JS.parseFloat vals)).
Proof.
  intros H. unfold Student.calculateAvg.
  set (valid := List.filter _ _).
  assert (Hv : Forall inRange valid).
  { apply List.Forall_forall. intros x Hx. apply List.filter_In in Hx.
    destruct Hx as [Hx Hn]. apply in_map_iff in Hx. destruct Hx as (v & <- & Hv).
    rewrite List.Forall_forall in H. specialize (H v Hv). unfold presentScore in H.
    apply negb_true_iff in Hn. rewrite Hn in H. exact H. }
  destruct valid as [|x xs]; [exact I|].
  cbn [List.length Nat.eqb optInRange]. now apply mean_inRange.
Qed.

(** X15. In the student view, when every score a subject has lies between
    0 and 100, so do its two semester averages and its yearly average
    (each may also be missing). *)
Theorem student_averages_in_range (grade : Obj) :
  scoresInRange grade scoreKeys ->
  optInRange (Student.avg1 (Student.rowOf grade))
  /\ optInRange (Student.avg2 (Student.rowOf grade))
  /\ optInRange (Student.yearly (Student.rowOf grade)).
Proof.
  intros H. unfold scoresInRange, scoreKeys in H.
  assert (H1 : optInRange (Student.avg1 (Student.rowOf grade))).
  { apply (calculateAvg_inRange (map (get grade) firstSemIds)).
    apply List.Forall_map. unfold firstSemIds.
    rewrite List.Forall_forall in *. intros k Hk. apply H. simpl in *. tauto. }
  assert (H2 : optInRange (Student.avg2 (Student.rowOf grade))).
  { apply (calculateAvg_inRange (map (get grade) secondSemIds)).
    apply List.Forall_map. unfold secondSemIds.
    rewrite List.Forall_forall in *. intros k Hk. apply H. simpl in *. tauto. }
  split; [exact H1|]. split; [exact H2|].
  change (Student.yearly (Student.rowOf grade))
    with (Student.yearlyOf (Student.avg1 (Student.rowOf grade))
                           (Student.avg2 (Student.rowOf grade))).
  destruct (Student.avg1 (Student.rowOf grade)) as [a1|],
           (Student.avg2 (Student.rowOf grade)) as [a2|];
    cbn [Student.yearlyOf optInRange] in *; try assumption; try exact I.
  destruct a1 as [| | |x], a2 as [| | |y]; try contradiction.
  destruct H1 as [Hx0 Hx1], H2 as [Hy0 Hy1].
  cbn [JS.add]. change (JS.ofZ 2) with (JS.ofNat 2). apply div_inRange.
  - rewrite Qred_correct. lra.
  - rewrite Qred_correct. change (inject_Z (Z.of_nat 2)) with 2%Q. lra.
Qed.

Lemma student_averages_in_range_witness :
  optInRange (Student.avg1 (Student.rowOf threeScores))
  /\ optInRange (Student.avg2 (Student.rowOf threeScores))
  /\ optInRange (Student.yearly (Student.rowOf threeScores)).
Proof.
  apply (student_averages_in_range threeScores).
  repeat constructor; vm_compute; discriminate.
Defined.

Lemma scoreOrZero_inRange (g : Obj) (p : Period) :
  optInRange (presentScore (get g (id p))) -> inRange (Report.scoreOrZero g p).
Proof.
  unfold presentScore, Report.scoreOrZero, JS.or_else.
  destruct (JS.parseFloat (get g (id p))) as [| | |q]; simpl; try tauto.
  - intros _. split; lra.
  - intros H. destruct (Qeq_bool q 0); simpl; [split; lra|exact H].
Qed.

Lemma semesterAvg_inRange (g : Obj) (s : list Period) :
  scoresInRange g (map id s) -> inRange (Report.semesterAvg g s).
Proof.
  intros H. unfold Report.semesterAvg. apply meanOrZero_inRange.
  apply List.Forall_map. unfold scoresInRange in H. rewrite List.Forall_map in H.
  eapply List.Forall_impl; [|exact H]. intros p. apply scoreOrZero_inRange.
Qed.

Lemma periodTotal_map (grades : list Obj) (p : Period) :
  Report.periodTotal grades p = JS.sum (map (fun g => Report.scoreOrZero g p) grades).
Proof.
  unfold Report.periodTotal, JS.sum. generalize (JS.Fin 0).
  induction grades as [|g grades IH]; intros acc; [reflexivity|]. simpl. apply IH.
Qed.

Lemma periodAvg_inRange (grades : list Obj) (p : Period) :
  Forall (fun g => optInRange (presentScore (get g (id p)))) grades ->
  inRange (Report.periodAvg grades p).
Proof.
  intros H. unfold Report.periodAvg. rewrite periodTotal_map.
  rewrite <- (length_map (fun g => Report.scoreOrZero g p) grades).
  apply (meanOrZero_inRange (map (fun g => Report.scoreOrZero g p) grades)).
  apply List.Forall_map. eapply List.Forall_impl; [|exact H].
  intros g. apply scoreOrZero_inRange.
Qed.

Lemma scoresInRange_group (g : Obj) (semesters : list (list Period)) (s : list Period) :
  scoresInRange g (map id (concat semesters)) -> In s semesters ->
  scoresInRange g (map id s).
Proof.
  unfold scoresInRange. rewrite !List.Forall_forall. intros H Hs k Hk. apply H.
  apply in_map_iff in Hk. destruct Hk as (p & <- & Hp). apply in_map.
  apply in_concat. eauto.
Qed.

(** X16. In the report view, when every score the subjects have for the
    periods shown lies between 0 and 100, so do the final average of
    every subject, every period average of the footer and the overall
    final average, however many scores are missing and however the
    periods are grouped. *)
Theorem report_averages_in_range (grades : list Obj) (semesters : list (list Period)) :
  Forall (fun g => scoresInRange g (map id (concat semesters))) grades ->
  Forall (fun g => inRange (Report.finalAvg g semesters)) grades
  /\ Forall (fun p => inRange (Report.periodAvg grades p)) (concat semesters)
  /\ inRange (Report.finalOverallAvg grades semesters).
Proof.
  intros H. split; [|split].
  - eapply List.Forall_impl; [|exact H]. intros g Hg.
    unfold Report.finalAvg, Report.semesterAverages. apply meanOrZero_inRange.
    apply List.Forall_map, List.Forall_forall. intros s Hs.
    apply semesterAvg_inRange. now apply (scoresInRange_group g semesters).
  - apply List.Forall_forall. intros p Hp. apply periodAvg_inRange.
    eapply List.Forall_impl; [|exact H]. intros g Hg.
    unfold scoresInRange in Hg. rewrite List.Forall_forall in Hg. apply Hg.
    now apply in_map.
  - unfold Report.finalOverallAvg. apply meanOrZero_inRange.
    apply List.Forall_map, List.Forall_forall. intros s Hs.
    unfold Report.overallSemesterAvg. apply meanOrZero_inRange.
    apply List.Forall_map, List.Forall_forall. intros p Hp.
    apply periodAvg_inRange. eapply List.Forall_impl; [|exact H]. intros g Hg.
    unfold scoresInRange in Hg. rewrite List.Forall_forall in Hg. apply Hg.
    apply in_map. apply in_concat. eauto.
Qed.

Lemma report_averages_in_range_witness :
  Forall (fun g => inRange (Report.finalAvg g [[P1; P2]; [E1]])) [threeScores; noSecondExam]
  /\ Forall (fun p => inRange (Report.periodAvg [threeScores; noSecondExam] p))
            (concat [[P1; P2]; [E1]])
  /\ inRange (Report.finalOverallAvg [threeScores; noSecondExam] [[P1; P2]; [E1]]).
Proof.
  apply (report_averages_in_range [threeScores; noSecondExam] [[P1; P2]; [E1]]).
  repeat constructor; vm_compute; discriminate.
Defined.

(** * The shape of the semester groups *)

Lemma groupLoop_periods (front : list Period) :
  Forall (fun p => type p = period) front ->
  forall rest semesters cur,
    Report.groupLoop (front ++ rest) semesters cur
    = Report.groupLoop rest semesters (cur ++ front).
Proof.
  induction 1 as [|p front Hp _ IH]; intros rest semesters cur.
  - now rewrite app_nil_r.
  - cbn [app Report.groupLoop]. rewrite Hp. cbn [PeriodType_eqb].
    rewrite IH, <- app_assoc. reflexivity.
Qed.

Lemma groupLoop_exams (exams : list Period) :
  Forall (fun p => type p = exam) exams ->
  forall semesters,
    Report.groupLoop exams semesters []
    = (semesters ++ map (fun e => [e]) exams, []).
Proof.
  induction 1 as [|e exams He _ IH]; intros semesters.
  - now rewrite app_nil_r.
  - cbn [Report.groupLoop map]. rewrite He. cbn [PeriodType_eqb app].
    rewrite IH, <- app_assoc. reflexivity.
Qed.

(** * The sorted array *)

Section SortedFacts.
Context {A : Type} (cmp : A -> A -> JS.Num) (Q : A -> Prop).
Let R (x y : A) : Prop := JS.after cmp x y = false.
Hypothesis total : forall x y, Q x -> Q y -> JS.after cmp x y = true -> R y x.
Hypothesis trans : forall x y z, Q x -> Q y -> Q z -> R x y -> R y z -> R x z.

Lemma insert_StronglySorted (x : A) (l : list A) :
  Q x -> Forall Q l -> StronglySorted R l -> StronglySorted R (JS.insert cmp x l).
Proof.
  intros Hx Hl Hs. induction Hs as [|y l Hs IH Hy]; simpl.
  - repeat constructor.
  - apply List.Forall_cons_iff in Hl. destruct Hl as [Qy Hl].
    destruct (JS.after cmp x y) eqn:E.
    + constructor; [now apply IH|].
      eapply Permutation_Forall; [apply insert_Permutation|].
      constructor; [now apply total|exact Hy].
    + constructor; [now constructor|]. constructor; [exact E|].
      rewrite List.Forall_forall in *. intros z Hz.
      apply (trans x y z); auto.
Qed.

Lemma sort_StronglySorted (l : list A) :
  Forall Q l -> StronglySorted R (JS.sort cmp l).
Proof.
  induction 1 as [|x l Hx Hl IH]; simpl; [constructor|].
  apply insert_StronglySorted; [exact Hx| |exact IH].
  eapply Permutation_Forall; [apply sort_Permutation|exact Hl].
Qed.

Lemma sort_of_sorted (l : list A) : StronglySorted R l -> JS.sort cmp l = l.
Proof.
  induction 1 as [|x l Hs IH Hx]; [reflexivity|]. simpl. rewrite IH.
  destruct Hx as [|y l Hy _]; simpl; [reflexivity|]. unfold R in Hy. now rewrite Hy.
Qed.
End SortedFacts.

Lemma parseInt_cases (s : string) : JS.parseInt s = JS.NaN \/ exists z, JS.parseInt s = JS.ofZ z.
Proof.
  unfold JS.parseInt. destruct (JS.read_sign (JS.skip_spaces s)) as [sg s1].
  destruct (String.prefix "0x" s1 || String.prefix "0X" s1)%bool.
  - destruct (JS.span_hex _) as [[|d ds] r]; eauto.
  - destruct (JS.span_digits s1) as [[|d ds] r]; eauto.
Qed.

Lemma after_ofZ (a b : Z) :
  JS.lt (JS.Fin 0) (JS.sub (JS.ofZ a) (JS.ofZ b)) = true <-> (b < a)%Z.
Proof.
  unfold JS.sub, JS.ofZ, JS.neg, JS.add, JS.lt.
  rewrite negb_true_iff, Qle_bool_false.
  rewrite Qred_correct, Qred_correct. rewrite <- inject_Z_opp, <- inject_Z_plus.
  change 0%Q with (inject_Z 0). rewrite <- Zlt_Qlt. lia.
Qed.

Lemma sortable_number (p : Period) :
  sortable p -> exists z, JS.parseInt (JS.strip_non_digits (id p)) = JS.ofZ z.
Proof.
  intros [_ H]. destruct (parseInt_cases (JS.strip_non_digits (id p))) as [E|E];
    [rewrite E in H; discriminate|exact E].
Qed.

(** When the callback sends [x] after [y]. *)
Lemma after_sortable (x y : Period) (a b : Z) :
  sortable x -> sortable y ->
  JS.parseInt (JS.strip_non_digits (id x)) = JS.ofZ a ->
  JS.parseInt (JS.strip_non_digits (id y)) = JS.ofZ b ->
  (JS.after Report.comparePeriods x y = true
   <-> (type x = exam /\ type y = period) \/ (type x = type y /\ (b < a)%Z)).
Proof.
  intros [Hx _] [Hy _] Ea Eb. unfold JS.after, Report.comparePeriods.
  rewrite Ea, Eb.
  destruct (type x) eqn:Tx, (type y) eqn:Ty; try congruence;
    cbn [PeriodType_eqb negb];
    try (rewrite after_ofZ; split; [intros H; right; split; [reflexivity|exact H]
                                   |intros [[H1 H2]|[_ H]]; [congruence|exact H]]).
  - split; [discriminate|]. intros [[H _]|[H _]]; discriminate H.
  - split; [intros _; left; split; reflexivity|reflexivity].
Qed.

Lemma inOrder_total (x y : Period) :
  sortable x -> sortable y -> JS.after Report.comparePeriods x y = true -> inOrder y x.
Proof.
  intros Hx Hy H. destruct (sortable_number x Hx) as [a Ea].
  destruct (sortable_number y Hy) as [b Eb].
  apply (after_sortable x y a b Hx Hy Ea Eb) in H.
  unfold inOrder. destruct (JS.after Report.comparePeriods y x) eqn:E; [|reflexivity].
  apply (after_sortable y x b a Hy Hx Eb Ea) in E.
  destruct H as [[H1 H2]|[H1 H2]], E as [[E1 E2]|[E1 E2]]; try congruence; lia.
Qed.

Lemma inOrder_trans (x y z : Period) :
  sortable x -> sortable y -> sortable z -> inOrder x y -> inOrder y z -> inOrder x z.
Proof.
  intros Hx Hy Hz Hxy Hyz. destruct (sortable_number x Hx) as [a Ea].
  destruct (sortable_number y Hy) as [b Eb]. destruct (sortable_number z Hz) as [c Ec].
  unfold inOrder in *.
  destruct (JS.after Report.comparePeriods x z) eqn:E; [exfalso|reflexivity].
  apply (after_sortable x z a c Hx Hz Ea Ec) in E.
  assert (Nxy : ~ ((type x = exam /\ type y = period) \/ (type x = type y /\ (b < a)%Z))).
  { intros H. apply (after_sortable x y a b Hx Hy Ea Eb) in H. congruence. }
  assert (Nyz : ~ ((type y = exam /\ type z = period) \/ (type y = type z /\ (c < b)%Z))).
  { intros H. apply (after_sortable y z b c Hy Hz Eb Ec) in H. congruence. }
  destruct Hx as [Hx _], Hy as [Hy _], Hz as [Hz _].
  destruct (type x), (type y), (type z); try congruence;
    destruct E as [[E1 E2]|[E1 E2]]; try discriminate;
    first [ apply Nxy; right; split; [reflexivity|lia]
          | apply Nyz; right; split; [reflexivity|lia]
          | apply Nxy; left; split; reflexivity
          | apply Nyz; left; split; reflexivity
          | destruct (Z_lt_le_dec b a);
            [ apply Nxy; right; split; [reflexivity|lia]
            | apply Nyz; right; split; [reflexivity|lia] ] ].
Qed.

(** ** The order of the sorted array, by the numbers in the ids *)

Lemma digit_not_space (c : ascii) : JS.is_digit c = true -> JS.is_space c = false.
Proof.
  destruct c as [[] [] [] [] [] [] [] []]; intros H;
    first [reflexivity | vm_compute in H; discriminate H].
Qed.

Lemma read_sign_digit (c : ascii) (r : string) :
  JS.is_digit c = true -> JS.read_sign (String c r) = (false, String c r).
Proof.
  destruct c as [[] [] [] [] [] [] [] []]; intros H;
    first [reflexivity | vm_compute in H; discriminate H].
Qed.

Lemma strip_non_digits_digits (s : string) :
  Forall (fun c => JS.is_digit c = true)
         (list_ascii_of_string (JS.strip_non_digits s)).
Proof.
  induction s as [|c s IH]; [constructor|]. cbn [JS.strip_non_digits].
  destruct (JS.is_digit c) eqn:E; [|exact IH].
  cbn [list_ascii_of_string]. constructor; assumption.
Qed.

Lemma span_digits_all (t : string) :
  Forall (fun c => JS.is_digit c = true) (list_ascii_of_string t) ->
  JS.span_digits t = (list_ascii_of_string t, EmptyString).
Proof.
  induction t as [|c t IH]; intros H; [reflexivity|].
  cbn [list_ascii_of_string] in H. apply List.Forall_cons_iff in H.
  destruct H as [Hc Ht]. cbn [JS.span_digits list_ascii_of_string].
  rewrite Hc, (IH Ht). reflexivity.
Qed.

(** A run of digits does not start with [0x]. *)
Lemma prefix_letter_digits (x0 x : ascii) (t : string) :
  JS.is_digit x = false ->
  Forall (fun c => JS.is_digit c = true) (list_ascii_of_string t) ->
  String.prefix (String x0 (String x EmptyString)) t = false.
Proof.
  intros Hx Ht. destruct t as [|c t]; [reflexivity|]. cbn [String.prefix].
  destruct (ascii_dec x0 c) as [_|_]; [|reflexivity].
  destruct t as [|c' t]; [reflexivity|]. cbn [String.prefix].
  destruct (ascii_dec x c') as [<-|_]; [|reflexivity].
  cbn [list_ascii_of_string] in Ht.
  apply List.Forall_cons_iff in Ht. destruct Ht as [_ Ht].
  apply List.Forall_cons_iff in Ht. destruct Ht as [Hc _]. congruence.
Qed.

(** [parseInt] on a run of digits reads all of them. *)
Lemma parseInt_digits (t : string) :
  Forall (fun c => JS.is_digit c = true) (list_ascii_of_string t) ->
  JS.parseInt t = match list_ascii_of_string t with
                  | [] => JS.NaN
                  | ds => JS.ofZ (JS.digits_value ds)
                  end.
Proof.
  intros Ht. destruct t as [|c t]; [reflexivity|].
  assert (Hc : JS.is_digit c = true).
  { cbn [list_ascii_of_string] in Ht. now apply List.Forall_cons_iff in Ht. }
  unfold JS.parseInt. cbn [JS.skip_spaces]. rewrite (digit_not_space c Hc).
  rewrite (read_sign_digit c t Hc).
  rewrite (prefix_letter_digits "0" "x") by (reflexivity || exact Ht).
  rewrite (prefix_letter_digits "0" "X") by (reflexivity || exact Ht).
  cbn [orb]. rewrite (span_digits_all _ Ht). reflexivity.
Qed.

Lemma sortable_suffixNumber (p : Period) :
  sortable p -> JS.parseInt (JS.strip_non_digits (id p)) = JS.ofZ (suffixNumber p).
Proof.
  intros [_ H]. unfold suffixNumber.
  rewrite (parseInt_digits _ (strip_non_digits_digits (id p))) in *.
  destruct (list_ascii_of_string (JS.strip_non_digits (id p))); [discriminate H|reflexivity].
Qed.

(** What the callback accepts is a period before an exam and, within a
    type, the smaller number first. *)
Lemma inOrder_byTypeThenNumber (x y : Period) :
  sortable x -> sortable y -> inOrder x y -> byTypeThenNumber x y.
Proof.
  intros Hx Hy H. unfold inOrder in H.
  assert (N : ~ ((type x = exam /\ type y = period)
                 \/ (type x = type y /\ (suffixNumber y < suffixNumber x)%Z))).
  { intros A.
    apply (after_sortable x y _ _ Hx Hy (sortable_suffixNumber x Hx)
             (sortable_suffixNumber y Hy)) in A.
    congruence. }
  destruct Hx as [Tx _], Hy as [Ty _]. unfold byTypeThenNumber.
  destruct (type x) eqn:Ex, (type y) eqn:Ey; try congruence.
  - right. split; [reflexivity|].
    destruct (Z_lt_le_dec (suffixNumber y) (suffixNumber x)) as [L|L]; [|exact L].
    exfalso. apply N. right. split; [reflexivity|exact L].
  - left. split; reflexivity.
  - exfalso. apply N. left. split; reflexivity.
  - right. split; [reflexivity|].
    destruct (Z_lt_le_dec (suffixNumber y) (suffixNumber x)) as [L|L]; [|exact L].
    exfalso. apply N. right. split; [reflexivity|exact L].
Qed.

Lemma StronglySorted_among {A : Type} (R R' : A -> A -> Prop) (Q : A -> Prop) (l : list A) :
  (forall x y, Q x -> Q y -> R x y -> R' x y) ->
  Forall Q l -> StronglySorted R l -> StronglySorted R' l.
Proof.
  intros HR HQ Hs. induction Hs as [|x l Hs IH Hx]; [constructor|].
  apply List.Forall_cons_iff in HQ. destruct HQ as [Qx HQ].
  constructor; [now apply IH|].
  rewrite List.Forall_forall in *. intros y Hy. apply HR; auto.
Qed.

Lemma numbered_sortable (l : list Period) : Forall numberedPeriod l -> Forall sortable l.
Proof. apply List.Forall_impl. intros p [H _]. exact H. Qed.

Lemma sortable_kinds (l : list Period) :
  Forall sortable l -> Forall (fun p => type p <> semester) l.
Proof. apply List.Forall_impl. intros p [H _]. exact H. Qed.

(** The sorted array is in order by type and number. *)
Lemma sortPeriods_byTypeThenNumber (l : list Period) :
  Forall sortable l -> StronglySorted byTypeThenNumber (Report.sortPeriods l).
Proof.
  intros Hl.
  assert (Hq : Forall sortable (Report.sortPeriods l))
    by (eapply Permutation_Forall; [apply sort_Permutation|exact Hl]).
  apply (StronglySorted_among inOrder byTypeThenNumber sortable);
    [exact inOrder_byTypeThenNumber|exact Hq|].
  apply (sort_StronglySorted Report.comparePeriods sortable);
    [exact inOrder_total|exact inOrder_trans|exact Hl].
Qed.



(** X17. For periods and exams whose ids hold a number, the call returns
    one group when there is no exam (all the periods) and otherwise as
    many groups as there are exams: the first holds every period followed
    by the first exam, and each further group holds one exam alone.  Here
    the periods and the exams are those of the array, the periods in the
    order of the numbers in their ids and so the exams, the first exam
    being one of the lowest number.  For p3, exam2, p1, exam1, p2 the
    groups are p1, p2, p3, exam1 and exam2. *)
Theorem groupPeriodsIntoSemesters_shape (a : loc) (h : heap) (l : list Period) :
  h !! a = Some l ->
  Forall numberedPeriod l ->
  exists periods exams,
    fst <$> Report.groupPeriodsIntoSemesters a h
    = Some match exams with
           | [] => [periods]
           | e :: es => (periods ++ [e]) :: map (fun x => [x]) es
           end
    /\ Permutation (List.filter (hasType period) l) periods
    /\ Permutation (List.filter (hasType exam) l) exams
    /\ StronglySorted byTypeThenNumber (periods ++ exams)
    /\ periods = byNum (List.filter (hasType period) l)
    /\ exams = byNum (List.filter (hasType exam) l)
    /\ (l = shuffledPeriods -> periods = [P1; P2; P3] /\ exams = [E1; E2]).
Proof.
  intros Ha Hn. assert (Hs := numbered_sortable l Hn).
  assert (Hl := sortable_kinds l Hs).
  exists (byNum (List.filter (hasType period) l)), (byNum (List.filter (hasType exam) l)).
  split.
  - unfold Report.groupPeriodsIntoSemesters. rewrite Ha.
    cbn [fmap option_fmap option_map fst]. f_equal.
    rewrite (sortPeriods_split l Hl).
    assert (HP := sort_hasType compareNum period _ (filter_hasType period l)).
    assert (HE := sort_hasType compareNum exam _ (filter_hasType exam l)).
    fold (byNum (List.filter (hasType period) l)) in *.
    fold (byNum (List.filter (hasType exam) l)) in *.
    set (P := byNum (List.filter (hasType period) l)) in *.
    destruct (byNum (List.filter (hasType exam) l)) as [|e es].
    + unfold Report.groupsOf. rewrite groupLoop_periods by exact HP.
      cbn [Report.groupLoop app]. rewrite app_nil_r.
      destruct P as [|p P']; reflexivity.
    + unfold Report.groupsOf. rewrite groupLoop_periods by exact HP.
      apply List.Forall_cons_iff in HE. destruct HE as [He HE].
      cbn [app Report.groupLoop]. rewrite He. cbn [PeriodType_eqb].
      rewrite groupLoop_exams by exact HE. cbn [app List.length Nat.ltb Nat.leb orb].
      rewrite length_app. cbn [List.length].
      replace (List.length P + S (List.length es) =? 0)%nat with false
        by (symmetry; apply Nat.eqb_neq; lia).
      reflexivity.
  - split; [apply sort_Permutation|]. split; [apply sort_Permutation|].
    split.
    + rewrite <- (sortPeriods_split l Hl). now apply sortPeriods_byTypeThenNumber.
    + split; [reflexivity|]. split; [reflexivity|].
      intros ->. split; reflexivity.
Qed.

Lemma groupPeriodsIntoSemesters_shape_witness :
  exists periods exams,
    fst <$> Report.groupPeriodsIntoSemesters 1%positive {[1%positive := shuffledPeriods]}
    = Some match exams with
           | [] => [periods]
           | e :: es => (periods ++ [e]) :: map (fun x => [x]) es
           end
    /\ Permutation (List.filter (hasType period) shuffledPeriods) periods
    /\ Permutation (List.filter (hasType exam) shuffledPeriods) exams
    /\ StronglySorted byTypeThenNumber (periods ++ exams)
    /\ periods = byNum (List.filter (hasType period) shuffledPeriods)
    /\ exams = byNum (List.filter (hasType exam) shuffledPeriods)
    /\ (shuffledPeriods = shuffledPeriods -> periods = [P1; P2; P3] /\ exams = [E1; E2]).
Proof.
  apply (groupPeriodsIntoSemesters_shape 1%positive {[1%positive := shuffledPeriods]}
           shuffledPeriods).
  - reflexivity.
  - repeat constructor; first [discriminate | vm_compute; discriminate].
Defined.

(** X18. For periods and exams whose ids hold a digit, the call leaves
    the caller's array in the order the callback asks for (no entry has to
    go after a later one), and calling again on the same array changes
    nothing more and returns the same groups. *)
Theorem groupPeriodsIntoSemesters_again (a : loc) (h : heap) (l : list Period) :
  h !! a = Some l ->
  Forall sortable l ->
  exists gs h' l',
    Report.groupPeriodsIntoSemesters a h = Some (gs, h')
    /\ h' !! a = Some l'
    /\ StronglySorted inOrder l'
    /\ Report.groupPeriodsIntoSemesters a h' = Some (gs, h').
Proof.
  intros Ha Hl. unfold Report.groupPeriodsIntoSemesters at 1. rewrite Ha.
  eexists _, _, _. split; [reflexivity|].
  assert (Hs : StronglySorted inOrder (Report.sortPeriods l)).
  { apply (sort_StronglySorted Report.comparePeriods sortable);
      [exact inOrder_total|exact inOrder_trans|exact Hl]. }
  split; [apply lookup_insert_eq|]. split; [exact Hs|].
  unfold Report.groupPeriodsIntoSemesters. rewrite lookup_insert_eq.
  assert (E : Report.sortPeriods (Report.sortPeriods l) = Report.sortPeriods l)
    by (apply (sort_of_sorted Report.comparePeriods); exact Hs).
  rewrite E, insert_insert_eq. reflexivity.
Qed.

Lemma groupPeriodsIntoSemesters_again_witness :
  exists gs h' l',
    Report.groupPeriodsIntoSemesters 1%positive {[1%positive := eightPeriods]}
      = Some (gs, h')
    /\ h' !! 1%positive = Some l'
    /\ StronglySorted inOrder l'
    /\ Report.groupPeriodsIntoSemesters 1%positive h' = Some (gs, h').
Proof.
  apply (groupPeriodsIntoSemesters_again 1%positive {[1%positive := eightPeriods]}
           eightPeriods).
  - reflexivity.
  - repeat constructor; discriminate.
Defined.

(** * Fields the student view does not read, names the submit handler keeps *)

Lemma rowOf_set (g : Obj) (k : string) (v : JS.Val) :
  ~ In k scoreKeys -> Student.rowOf (set g k v) = Student.rowOf g.
Proof.
  intros Hk. unfold Student.rowOf.
  assert (E : forall key, In key scoreKeys -> get (set g k v) key = get g key).
  { intros key Hin. rewrite get_set.
    destruct (String.eqb_spec k key) as [->|_]; [contradiction|reflexivity]. }
  rewrite !E by (unfold scoreKeys; simpl; tauto). reflexivity.
Qed.

Lemma renderRow_set (g : Obj) (k : string) (v : JS.Val) :
  ~ In k printedKeys -> StudentRow.renderRow (set g k v) = StudentRow.renderRow g.
Proof.
  intros Hk. unfold StudentRow.renderRow, StudentRow.scoreCell.
  assert (E : forall key, In key printedKeys -> get (set g k v) key = get g key).
  { intros key Hin. rewrite get_set.
    destruct (String.eqb_spec k key) as [->|_]; [contradiction|reflexivity]. }
  rewrite rowOf_set by (intros H; apply Hk; right; right; exact H).
  rewrite !E by (unfold printedKeys, scoreKeys; simpl; tauto). reflexivity.
Qed.

(** X19. A row of the student view is printed from the fields subject,
    comment, p1, p2, p3, exam1, p4, p5, p6 and exam2 and from nothing
    else: storing any value under any other key (a seventh period, a
    renamed exam) in any of the subjects changes no cell of any row, no
    footer cell and not the overall percentage. *)
Theorem student_view_ignores_other_periods (grades : list Obj) (k : string)
    (v : Obj -> JS.Val) (key : string) :
  ~ In k printedKeys ->
  map StudentRow.renderRow (map (fun g => set g k (v g)) grades)
  = map StudentRow.renderRow grades
  /\ Student.footerCell (map (fun g => set g k (v g)) grades) key
     = Student.footerCell grades key
  /\ StudentTable.finalAvg (map (fun g => set g k (v g)) grades)
     = StudentTable.finalAvg grades.
Proof.
  intros Hk.
  assert (Hs : ~ In k scoreKeys) by (intros H; apply Hk; right; right; exact H).
  assert (E : map Student.rowOf (map (fun g => set g k (v g)) grades)
              = map Student.rowOf grades).
  { rewrite map_map. apply map_ext. intros g. now apply rowOf_set. }
  split; [|split].
  - rewrite map_map. apply map_ext. intros g. now apply renderRow_set.
  - unfold Student.footerCell, Student.columnsOf. rewrite E, length_map. reflexivity.
  - unfold StudentTable.finalAvg. rewrite E. reflexivity.
Qed.

Lemma student_view_ignores_other_periods_witness :
  map StudentRow.renderRow
      (map (fun g => set g "p7" (JS.VNum (JS.ofZ 0))) (mathGrade :: commented))
  = map StudentRow.renderRow (mathGrade :: commented)
  /\ Student.footerCell (map (fun g => set g "p7" (JS.VNum (JS.ofZ 0)))
                            (mathGrade :: commented)) "p1"
     = Student.footerCell (mathGrade :: commented) "p1"
  /\ StudentTable.finalAvg (map (fun g => set g "p7" (JS.VNum (JS.ofZ 0)))
                               (mathGrade :: commented))
     = StudentTable.finalAvg (mathGrade :: commented).
Proof.
  apply (student_view_ignores_other_periods (mathGrade :: commented) "p7"
           (fun _ => JS.VNum (JS.ofZ 0)) "p1").
  not_among.
Defined.

Lemma get_fold_set_other (F : string -> JS.Val) (ids : list string) (k : string) :
  ~ In k ids ->
  forall o : Obj, get (fold_left (fun grade i => set grade i (F i)) ids o) k = get o k.
Proof.
  induction ids as [|i ids IH]; intros Hk o; [reflexivity|].
  cbn [fold_left]. rewrite IH by (simpl in Hk; tauto). rewrite get_set.
  destruct (String.eqb_spec i k) as [->|_]; [|reflexivity].
  exfalso. apply Hk. now left.
Qed.

Lemma submitFrom_named (f : Form) (periodIds : list string) (grade : Obj)
    (groups : list (option string)) :
  forall k : nat,
    In grade (Admin.submitFrom f periodIds k groups) ->
    exists subjectId subjectName,
      In (Some subjectName) groups
      /\ trim subjectName <> ""
      /\ grade = Admin.submitGrade f periodIds subjectId subjectName.
Proof.
  induction groups as [|g groups IH]; intros k Hin; [destruct Hin|].
  cbn [Admin.submitFrom] in Hin.
  assert (Hrest : In grade (Admin.submitFrom f periodIds (S k) groups) ->
                  exists subjectId subjectName,
                    In (Some subjectName) (g :: groups)
                    /\ trim subjectName <> ""
                    /\ grade = Admin.submitGrade f periodIds subjectId subjectName).
  { intros H. destruct (IH (S k) H) as (i & nm & H1 & H2 & H3).
    exists i, nm. split; [now right|]. now split. }
  destruct g as [nm|]; [|now apply Hrest].
  destruct (String.eqb_spec (trim nm) "") as [E|E]; cbn [negb] in Hin;
    [now apply Hrest|].
  destruct Hin as [<-|Hin]; [|now apply Hrest].
  exists (k + 1)%nat, nm. split; [now left|]. now split.
Qed.

(** X20. Every grade object the submit handler sends carries the trimmed
    name of one of the subject rows, and that name is not empty: rows
    whose name is blank are left out (as long as no period is itself
    called [subject]). *)
Theorem submitted_subjects_are_named (f : Form) (periodIds : list string) (sent : Obj) :
  ~ In "subject" periodIds ->
  In sent (Admin.submitGrades f periodIds) ->
  exists subjectName,
    In (Some subjectName) (subjectNames f)
    /\ get sent "subject" = JS.VStr (trim subjectName)
    /\ trim subjectName <> "".
Proof.
  intros Hs Hin. apply submitFrom_named in Hin.
  destruct Hin as (i & nm & Hnm & Hne & ->).
  exists nm. split; [exact Hnm|]. split; [|exact Hne].
  unfold Admin.submitGrade. rewrite get_fold_set_other by exact Hs. reflexivity.
Qed.

Lemma submitted_subjects_are_named_witness :
  exists subjectName,
    In (Some subjectName) (subjectNames twoSubjectForm)
    /\ get (Admin.submitGrade twoSubjectForm ["p1"; "exam1"] 2 " Art ") "subject"
       = JS.VStr (trim subjectName)
    /\ trim subjectName <> "".
Proof.
  apply (submitted_subjects_are_named twoSubjectForm ["p1"; "exam1"]
           (Admin.submitGrade twoSubjectForm ["p1"; "exam1"] 2 " Art ")).
  - not_among.
  - right. left. reflexivity.
Defined.
